(** * Cogito Code: response parsing and the test-and-repair loop

    A shallow embedding of [helper_func.py] (code_extractor,
    extract_test_results, has_failed_tests) and of [prompts.py]
    (analyze_and_fix_code, test_case_gen_checker), with the pieces of the
    Python runtime these functions lean on: [str] methods, [repr], the
    three regular expressions and [json.loads].

    Conventions.
    - A Python [str] is a [string] whose characters are the code points
      U+0000..U+00FF (Latin-1).  [isspace], [lower] and [repr] are exact on
      that alphabet.
    - A dict is an association list in insertion order (what [repr] and
      iteration observe); keys are strings, as in every dict this code builds.
    - Exceptions are values of an error monad; only classes derived from
      [Exception] are modelled.  Terminal output (spinners, progress bars,
      [print], [time.sleep]) has no effect on the values computed and is
      left out.  Interpreter resource limits other than the integer digit
      limit (recursion depth, memory) are not modelled.
    - The model collaborator is a transition function on a state of its
      own; the loop state also keeps the list of prompts sent to it, so
      that statements can count the calls.
    - Floats are binary64 values with exact rounding from the decimal
      literal and the shortest round-tripping [repr]. *)

From Stdlib Require Import ZArith String Ascii List Bool Lia DecimalString.
Import ListNotations.

Set Warnings "-register-all".

Open Scope string_scope.
Open Scope Z_scope.

(* ================================================================== *)
(** * Text: the [str] operations used by the program                    *)
(* ================================================================== *)

Module Text.

Definition dquote : ascii := "034"%char.
Definition newline : ascii := "010"%char.
Definition backslash : ascii := "092"%char.

(** Examples write JSON with apostrophes; [dq] turns each apostrophe
    into a double quote. *)
Fixpoint dq (s : string) : string :=
  match s with
  | EmptyString => EmptyString
  | String c r => String (if Ascii.eqb c "'" then dquote else c) (dq r)
  end.

Definition code (c : ascii) : Z := Z.of_N (N_of_ascii c).

Definition in_range (lo hi : Z) (c : ascii) : bool :=
  (lo <=? code c) && (code c <=? hi).

(** [str.isspace] on Latin-1: TAB..CR, FS..US, space, NEL, NBSP. *)
Definition isspace (c : ascii) : bool :=
  in_range 9 13 c || in_range 28 32 c || (code c =? 133) || (code c =? 160).

Definition is_ascii_letter (c : ascii) : bool :=
  in_range 65 90 c || in_range 97 122 c.

Definition is_digit (c : ascii) : bool := in_range 48 57 c.

(** [str.lower] on Latin-1: A-Z, and U+00C0..U+00DE except the
    multiplication sign U+00D7, move up by 32. *)
Definition lower_char (c : ascii) : ascii :=
  if in_range 65 90 c || (in_range 192 222 c && negb (code c =? 215))
  then ascii_of_N (N_of_ascii c + 32) else c.

Fixpoint lower (s : string) : string :=
  match s with
  | EmptyString => EmptyString
  | String c r => String (lower_char c) (lower r)
  end.

(** [s.startswith(p)]. *)
Fixpoint startswith (p s : string) : bool :=
  match p with
  | EmptyString => true
  | String a p' =>
      match s with
      | EmptyString => false
      | String b s' => Ascii.eqb a b && startswith p' s'
      end
  end.

(** [needle in s]. *)
Fixpoint contains (needle s : string) : bool :=
  startswith needle s ||
  match s with
  | EmptyString => false
  | String _ r => contains needle r
  end.

Fixpoint lstrip (s : string) : string :=
  match s with
  | EmptyString => EmptyString
  | String c r => if isspace c then lstrip r else s
  end.

Fixpoint all_space (s : string) : bool :=
  match s with
  | EmptyString => true
  | String c r => isspace c && all_space r
  end.

Fixpoint rstrip (s : string) : string :=
  match s with
  | EmptyString => EmptyString
  | String c r => if all_space s then EmptyString else String c (rstrip r)
  end.

Definition strip (s : string) : string := rstrip (lstrip s).

(** [s.split(sep)] for a one-character separator: never the empty list. *)
Fixpoint split (sep : ascii) (s : string) : list string :=
  match s with
  | EmptyString => [EmptyString]
  | String c r =>
      if Ascii.eqb c sep then EmptyString :: split sep r
      else match split sep r with
           | cell :: cells => String c cell :: cells
           | [] => [String c EmptyString]
           end
  end.

(** [sep.join(parts)]. *)
Definition join (sep : string) (parts : list string) : string :=
  String.concat sep parts.

Fixpoint repeat_char (c : ascii) (n : nat) : string :=
  match n with
  | O => EmptyString
  | S k => String c (repeat_char c k)
  end.

Fixpoint take (n : nat) (s : string) : string :=
  match n, s with
  | S k, String c r => String c (take k r)
  | _, _ => EmptyString
  end.

Fixpoint drop (n : nat) (s : string) : string :=
  match n, s with
  | S k, String _ r => drop k r
  | _, _ => s
  end.

Fixpoint last_char (s : string) : option ascii :=
  match s with
  | EmptyString => None
  | String c EmptyString => Some c
  | String _ r => last_char r
  end.

(** Everything but the last character. *)
Fixpoint chop (s : string) : string :=
  match s with
  | EmptyString => EmptyString
  | String _ EmptyString => EmptyString
  | String c r => String c (chop r)
  end.

(** Does the text begin with the character [c]. *)
Definition starts (c : ascii) (s : string) : bool :=
  match s with
  | EmptyString => false
  | String x _ => Ascii.eqb x c
  end.

(** Does the character [c] occur in the text. *)
Fixpoint has_char (c : ascii) (s : string) : bool :=
  match s with
  | EmptyString => false
  | String x r => Ascii.eqb x c || has_char c r
  end.

Fixpoint all_letters (s : string) : bool :=
  match s with
  | EmptyString => true
  | String c r => is_ascii_letter c && all_letters r
  end.

Definition hex_digit (n : Z) : ascii :=
  if n <? 10 then ascii_of_N (Z.to_N (48 + n)) else ascii_of_N (Z.to_N (87 + n)).

Definition decimal (z : Z) : string := NilZero.string_of_int (Z.to_int z).

End Text.

(* ================================================================== *)
(** * Binary64 floats: decimal literal to float, float to [repr]        *)
(* ================================================================== *)

Module Float.

(** A finite float is [(-1)^neg * m * 2^e] with [0 <= m < 2^53] and
    [-1074 <= e <= 971]; [m >= 2^52] unless [e = -1074]. *)
Inductive float64 : Type :=
| Fnan
| Finf (neg : bool)
| Ffin (neg : bool) (m e : Z).

Definition float64_eqb (a b : float64) : bool :=
  match a, b with
  | Fnan, Fnan => true
  | Finf s, Finf t => Bool.eqb s t
  | Ffin s m e, Ffin t n f => Bool.eqb s t && (m =? n) && (e =? f)
  | _, _ => false
  end.

(** [num / den] rounded to the nearest integer, ties to even. *)
Definition div_half_even (num den : Z) : Z :=
  let q := num / den in
  let r := num mod den in
  match 2 * r ?= den with
  | Lt => q
  | Gt => q + 1
  | Eq => if Z.even q then q else q + 1
  end.

(** The float nearest to [n / d] ([n >= 0], [d > 0]): what [float(text)]
    computes from the exact value of a decimal literal. *)
Definition of_ratio (neg : bool) (n d : Z) : float64 :=
  if n =? 0 then Ffin neg 0 (-1074)
  else
    let g := Z.log2 n - Z.log2 d in
    let below := if 0 <=? g then n <? d * 2 ^ g else n * 2 ^ (- g) <? d in
    let e := Z.max (if below then g - 53 else g - 52) (-1074) in
    let m := if 0 <=? e then div_half_even n (d * 2 ^ e)
             else div_half_even (n * 2 ^ (- e)) d in
    let '(m, e) := if m =? 2 ^ 53 then (2 ^ 52, e + 1) else (m, e) in
    if 971 <? e then Finf neg else Ffin neg m e.

(** The float of the literal [digits * 10^exp10]. *)
Definition of_decimal (neg : bool) (digits exp10 : Z) : float64 :=
  if 0 <=? exp10 then of_ratio neg (digits * 10 ^ exp10) 1
  else of_ratio neg digits (10 ^ (- exp10)).

Definition ndigits (n : Z) : Z := Z.of_nat (String.length (Text.decimal n)).

(** [floor (log10 (n / d))] for [n, d > 0]. *)
Definition ilog10 (n d : Z) : Z :=
  if d <=? n then ndigits (n / d) - 1
  else
    let dg := ndigits (d / n) in
    if d <=? n * 10 ^ (dg - 1) then - (dg - 1) else - dg.

(** Shortest digit string that reads back as the same float, looked for
    among the two [nd]-digit decimals around the value, [nd = 1, 2, ...].
    The result [(c, k)] stands for [c * 10^k]. *)
Fixpoint shortest (tries : nat) (nd : Z) (m e : Z) : Z * Z :=
  let '(xn, xd) := if 0 <=? e then (m * 2 ^ e, 1) else (m, 2 ^ (- e)) in
  let k := ilog10 xn xd - nd + 1 in
  let '(sn, sd) := if 0 <=? k then (xn, xd * 10 ^ k) else (xn * 10 ^ (- k), xd) in
  let lo := sn / sd in
  let hi := lo + 1 in
  let back c := float64_eqb (of_decimal false c k) (Ffin false m e) in
  let lo_near := (* is lo at least as near to the value as hi *)
    match 2 * (sn mod sd) ?= sd with
    | Lt => true | Gt => false | Eq => Z.even lo
    end in
  match tries with
  | O => (lo, k)
  | S t =>
      if back lo && (lo_near || negb (back hi)) then (lo, k)
      else if back hi then (hi, k)
      else shortest t (nd + 1) m e
  end.

Fixpoint strip_zeros (fuel : nat) (c k : Z) : Z * Z :=
  match fuel with
  | O => (c, k)
  | S f => if (c mod 10 =? 0) && negb (c =? 0) then strip_zeros f (c / 10) (k + 1)
           else (c, k)
  end.

Definition zeros (n : Z) : string := Text.repeat_char "0" (Z.to_nat n).

(** [repr] of a float: fixed notation when the decimal point position is
    in (-4, 16], exponent notation otherwise. *)
Definition repr (f : float64) : string :=
  match f with
  | Fnan => "nan"
  | Finf neg => if neg then "-inf" else "inf"
  | Ffin neg m e =>
      let sign := if neg then "-" else "" in
      if m =? 0 then sign ++ "0.0"
      else
        let '(c0, k0) := shortest 17 1 m e in
        let '(c, k) := strip_zeros 20 c0 k0 in
        let ds := Text.decimal c in
        let nd := Z.of_nat (String.length ds) in
        let decpt := nd + k in
        if (-4 <? decpt) && (decpt <=? 16) then
          if decpt <=? 0 then sign ++ "0." ++ zeros (- decpt) ++ ds
          else if nd <=? decpt then sign ++ ds ++ zeros (decpt - nd) ++ ".0"
          else sign ++ Text.take (Z.to_nat decpt) ds ++ "."
                    ++ Text.drop (Z.to_nat decpt) ds
        else
          let x := decpt - 1 in
          let xs := Text.decimal (Z.abs x) in
          sign ++ Text.take 1 ds
               ++ (if 1 <? nd then "." ++ Text.drop 1 ds else "")
               ++ "e" ++ (if x <? 0 then "-" else "+")
               ++ (if Z.abs x <? 10 then "0" else "") ++ xs
  end.

End Float.

(* ================================================================== *)
(** * Python values, [repr], exceptions                                 *)
(* ================================================================== *)

Module Py.

Import Text.

Inductive value : Type :=
| VNone
| VBool (b : bool)
| VInt (z : Z)
| VFloat (f : Float.float64)
| VStr (s : string)
| VList (items : list value)
| VDict (entries : list (string * value)).

Definition dict : Type := list (string * value).

Definition is_dict (v : value) : bool :=
  match v with VDict _ => true | _ => false end.

Definition is_str (v : value) : bool :=
  match v with VStr _ => true | _ => false end.

(** ** Dicts: lookup, membership, item assignment (insertion order kept) *)

Fixpoint dict_get (k : string) (d : dict) : option value :=
  match d with
  | [] => None
  | (k', v) :: r => if String.eqb k k' then Some v else dict_get k r
  end.

Definition dict_has (k : string) (d : dict) : bool :=
  match dict_get k d with Some _ => true | None => false end.

Fixpoint dict_set (k : string) (v : value) (d : dict) : dict :=
  match d with
  | [] => [(k, v)]
  | (k', v') :: r =>
      if String.eqb k k' then (k', v) :: r else (k', v') :: dict_set k v r
  end.

Definition dict_keys (d : dict) : list string := map fst d.

(** ** [repr] and [str] *)

(** [str.isprintable] on Latin-1: everything but the C0 and C1 controls,
    DEL, the no-break space and the soft hyphen. *)
Definition isprintable (c : ascii) : bool :=
  negb ((code c <? 32) || in_range 127 160 c || (code c =? 173)).

Definition repr_char (quote c : ascii) : string :=
  if Ascii.eqb c quote || Ascii.eqb c backslash
  then String backslash (String c EmptyString)
  else if code c =? 9 then "\t"
  else if code c =? 10 then "\n"
  else if code c =? 13 then "\r"
  else if isprintable c then String c EmptyString
  else String backslash
         (String "x" (String (hex_digit (code c / 16))
                        (String (hex_digit (code c mod 16)) EmptyString))).

Fixpoint repr_chars (quote : ascii) (s : string) : string :=
  match s with
  | EmptyString => EmptyString
  | String c r => repr_char quote c ++ repr_chars quote r
  end.

(** Apostrophes delimit the text unless it holds an apostrophe and no
    double quote. *)
Definition repr_str (s : string) : string :=
  let quote :=
    if contains "'" s && negb (contains (String dquote EmptyString) s)
    then dquote else "'"%char in
  String quote (repr_chars quote s ++ String quote EmptyString).

Fixpoint repr (v : value) : string :=
  match v with
  | VNone => "None"
  | VBool b => if b then "True" else "False"
  | VInt z => decimal z
  | VFloat f => Float.repr f
  | VStr s => repr_str s
  | VList items =>
      "[" ++ join ", " (map repr items) ++ "]"
  | VDict entries =>
      "{" ++ join ", "
               ((fix go (l : dict) : list string :=
                   match l with
                   | [] => []
                   | (k, x) :: r => (repr_str k ++ ": " ++ repr x) :: go r
                   end) entries)
          ++ "}"
  end.

(** [str(v)]: a string is itself, anything else prints as its [repr]. *)
Definition str (v : value) : string :=
  match v with
  | VStr s => s
  | _ => repr v
  end.

Definition type_name (v : value) : string :=
  match v with
  | VNone => "NoneType"
  | VBool _ => "bool"
  | VInt _ => "int"
  | VFloat _ => "float"
  | VStr _ => "str"
  | VList _ => "list"
  | VDict _ => "dict"
  end.

(** ** Exceptions *)

Inductive exn_class : Type :=
| JSONDecodeError
| ValueError
| TypeError
| AttributeError
| KeyError
| RecursionError
| OtherError (name : string).

(** An exception: its class and [str(e)]. *)
Record exn : Type := mk_exn { exn_cls : exn_class; exn_msg : string }.

Definition is_JSONDecodeError (e : exn) : bool :=
  match exn_cls e with JSONDecodeError => true | _ => false end.

Inductive result (A : Type) : Type :=
| Return (a : A)
| Raise (e : exn).

Arguments Return {A} a.
Arguments Raise {A} e.

Definition bind {A B : Type} (m : result A) (k : A -> result B) : result B :=
  match m with
  | Return a => k a
  | Raise e => Raise e
  end.

(** [try: m except <handled>: h]. *)
Definition try_except {A : Type} (m : result A) (handled : exn -> bool)
           (h : exn -> result A) : result A :=
  match m with
  | Return a => Return a
  | Raise e => if handled e then h e else Raise e
  end.

(** [except Exception] handles every modelled exception. *)
Definition any_Exception (e : exn) : bool := true.

Definition raises {A : Type} (m : result A) : bool :=
  match m with Raise _ => true | Return _ => false end.

(** ** Operations that fail on the wrong type *)

Fixpoint chars (s : string) : list value :=
  match s with
  | EmptyString => []
  | String c r => VStr (String c EmptyString) :: chars r
  end.

(** What [for x in v] walks over. *)
Definition iterate (v : value) : result (list value) :=
  match v with
  | VList items => Return items
  | VDict entries => Return (map VStr (dict_keys entries))
  | VStr s => Return (chars s)
  | _ => Raise (mk_exn TypeError
                  ("'" ++ type_name v ++ "' object is not iterable"))
  end.

(** [v.lower()]. *)
Definition lower_of (v : value) : result string :=
  match v with
  | VStr s => Return (lower s)
  | _ => Raise (mk_exn AttributeError
                  ("'" ++ type_name v ++ "' object has no attribute 'lower'"))
  end.

(** [v[key]] for a string key. *)
Definition getitem (v : value) (key : string) : result value :=
  match v with
  | VDict entries =>
      match dict_get key entries with
      | Some x => Return x
      | None => Raise (mk_exn KeyError (repr_str key))
      end
  | VList _ =>
      Raise (mk_exn TypeError "list indices must be integers or slices, not str")
  | VStr _ =>
      Raise (mk_exn TypeError "string indices must be integers, not 'str'")
  | _ => Raise (mk_exn TypeError
                  ("'" ++ type_name v ++ "' object is not subscriptable"))
  end.

(** [v[key] = x] for a string key; the updated container. *)
Definition setitem (v : value) (key : string) (x : value) : result value :=
  match v with
  | VDict entries => Return (VDict (dict_set key x entries))
  | VList _ =>
      Raise (mk_exn TypeError "list indices must be integers or slices, not str")
  | _ => Raise (mk_exn TypeError
                  ("'" ++ type_name v
                       ++ "' object does not support item assignment"))
  end.

End Py.

Declare Scope py_scope.
Delimit Scope py_scope with py.
Notation "x <- m ;; k" := (Py.bind m (fun x => k))
  (at level 61, m at next level, right associativity) : py_scope.
Notation "' pat <- m ;; k" :=
  (Py.bind m (fun x => match x with pat => k end))
  (at level 61, pat pattern, m at next level, right associativity) : py_scope.

(* ================================================================== *)
(** * [json.loads]                                                      *)
(* ================================================================== *)

(** The decoder of the standard library, as a recursive-descent parser
    over the remaining text: [scan_string] is [py_scanstring] in strict
    mode, [number] the number matcher, [scan_once] the dispatch on the
    first character, [members] and [elements] the loops of [JSONObject]
    and [JSONArray].  A step
    returns the decoded value with the text left after it.

    Two limits of the model, both outside every statement below.  The
    decoded strings stay in the Latin-1 alphabet of the conventions: an
    escape [\uXXXX] above U+00FF names a character that alphabet does not
    have, and [scan_string] rejects it where [json.loads] decodes it, so
    texts with such an escape are outside the model.  And the nesting
    depth is not bounded, where the interpreter raises RecursionError
    beyond its recursion limit. *)

Module Json.

Import Text Py.
Local Open Scope py_scope.

Inductive outcome (A : Type) : Type :=
| Ok (a : A)
| Err (e : exn)
| OutOfFuel.

Arguments Ok {A} a.
Arguments Err {A} e.
Arguments OutOfFuel {A}.

Definition decode_error (what : string) : exn := mk_exn JSONDecodeError what.

(** [sys.get_int_max_str_digits()]: longer integer literals make [int]
    raise a plain ValueError. *)
Definition int_max_str_digits : nat := 4300.

Definition is_ws (c : ascii) : bool :=
  (code c =? 32) || (code c =? 9) || (code c =? 10) || (code c =? 13).

Fixpoint skip_ws (s : string) : string :=
  match s with
  | EmptyString => EmptyString
  | String c r => if is_ws c then skip_ws r else s
  end.

Definition hex_val (c : ascii) : option Z :=
  if is_digit c then Some (code c - 48)
  else if in_range 97 102 c then Some (code c - 87)
  else if in_range 65 70 c then Some (code c - 55)
  else None.

Definition hex4 (a b c d : ascii) : option Z :=
  match hex_val a, hex_val b, hex_val c, hex_val d with
  | Some x, Some y, Some z, Some w => Some (((x * 16 + y) * 16 + z) * 16 + w)
  | _, _, _, _ => None
  end.

Definition escape (c : ascii) : option ascii :=
  if Ascii.eqb c dquote then Some dquote
  else if Ascii.eqb c backslash then Some backslash
  else if Ascii.eqb c "/" then Some "/"%char
  else if Ascii.eqb c "b" then Some "008"%char
  else if Ascii.eqb c "f" then Some "012"%char
  else if Ascii.eqb c "n" then Some "010"%char
  else if Ascii.eqb c "r" then Some "013"%char
  else if Ascii.eqb c "t" then Some "009"%char
  else None.

(** The text after an opening double quote: the decoded contents and the
    text after the closing quote. *)
Fixpoint scan_string (s : string) : result (string * string) :=
  match s with
  | EmptyString => Raise (decode_error "Unterminated string starting at")
  | String c r =>
      if Ascii.eqb c dquote then Return (EmptyString, r)
      else if Ascii.eqb c backslash then
        match r with
        | EmptyString => Raise (decode_error "Unterminated string starting at")
        | String e r' =>
            if Ascii.eqb e "u" then
              match r' with
              | String h1 (String h2 (String h3 (String h4 r''))) =>
                  match hex4 h1 h2 h3 h4 with
                  | Some n =>
                      if n <? 256 then
                        '(body, rest) <- scan_string r'' ;;
                        Return (String (ascii_of_N (Z.to_N n)) body, rest)
                      else Raise (decode_error "escape outside Latin-1")
                  | None => Raise (decode_error "Invalid \uXXXX escape")
                  end
              | _ => Raise (decode_error "Invalid \uXXXX escape")
              end
            else
              match escape e with
              | Some x =>
                  '(body, rest) <- scan_string r' ;;
                  Return (String x body, rest)
              | None => Raise (decode_error "Invalid \escape")
              end
        end
      else if code c <? 32 then
        Raise (decode_error "Invalid control character at")
      else
        '(body, rest) <- scan_string r ;;
        Return (String c body, rest)
  end.

(** The longest run of decimal digits at the front, and what follows. *)
Fixpoint span_digits (s : string) : string * string :=
  match s with
  | EmptyString => (EmptyString, EmptyString)
  | String c r =>
      if is_digit c then
        let '(ds, rest) := span_digits r in (String c ds, rest)
      else (EmptyString, s)
  end.

Fixpoint digits_value (acc : Z) (ds : string) : Z :=
  match ds with
  | EmptyString => acc
  | String c r => digits_value (acc * 10 + (code c - 48)) r
  end.

(** Integer part: a lone 0, or a run of digits that starts with 1..9. *)
Definition int_part (s : string) : option (string * string) :=
  match s with
  | EmptyString => None
  | String c r =>
      if Ascii.eqb c "0" then Some ("0", r)
      else if is_digit c then Some (span_digits s)
      else None
  end.

(** A fraction is taken only when a digit follows the point. *)
Definition frac_part (s : string) : string * string :=
  if starts "." s then
    match span_digits (drop 1 s) with
    | (EmptyString, _) => (EmptyString, s)
    | (fd, rest) => (fd, rest)
    end
  else (EmptyString, s).

(** An exponent is taken only when a digit follows the mark and sign. *)
Definition exp_part (s : string) : option Z * string :=
  if starts "e" s || starts "E" s then
    let r := drop 1 s in
    let '(sign, r1) :=
      if starts "-" r then (-1, drop 1 r)
      else if starts "+" r then (1, drop 1 r)
      else (1, r) in
    match span_digits r1 with
    | (EmptyString, _) => (None, s)
    | (xd, rest) => (Some (sign * digits_value 0 xd), rest)
    end
  else (None, s).

Definition number (s : string) : result (value * string) :=
  let '(neg, s1) :=
    if starts "-" s then (true, drop 1 s) else (false, s) in
  match int_part s1 with
  | None => Raise (decode_error "Expecting value")
  | Some (ip, s2) =>
      let '(fd, s3) := frac_part s2 in
      let '(ex, s4) := exp_part s3 in
      match fd, ex with
      | EmptyString, None =>
          if Nat.ltb int_max_str_digits (String.length ip)
          then Raise (mk_exn ValueError
                        "Exceeds the limit (4300 digits) for integer string conversion")
          else
            let n := digits_value 0 ip in
            Return (VInt (if neg then - n else n), s4)
      | _, _ =>
          let x := match ex with Some x => x | None => 0 end in
          Return (VFloat (Float.of_decimal neg (digits_value 0 (ip ++ fd))
                            (x - Z.of_nat (String.length fd))), s4)
      end
  end.

Definition lift {A : Type} (m : result A) : outcome A :=
  match m with
  | Return a => Ok a
  | Raise e => Err e
  end.

(** [scan_once] decodes the value at the front of the text; [members] the
    pairs of an object from its next key on; [elements] the items of an
    array from its next item on. *)
Fixpoint scan_once (fuel : nat) (s : string) : outcome (value * string) :=
  match fuel with
  | O => OutOfFuel
  | S f =>
      match s with
      | EmptyString => Err (decode_error "Expecting value")
      | String c r =>
          if Ascii.eqb c dquote then
            match scan_string r with
            | Return (body, rest) => Ok (VStr body, rest)
            | Raise e => Err e
            end
          else if Ascii.eqb c "{" then
            let r1 := skip_ws r in
            if starts "}" r1 then Ok (VDict [], drop 1 r1)
            else members f [] r1
          else if Ascii.eqb c "[" then
            let r1 := skip_ws r in
            if starts "]" r1 then Ok (VList [], drop 1 r1)
            else elements f [] r1
          else if startswith "null" s then Ok (VNone, drop 4 s)
          else if startswith "true" s then Ok (VBool true, drop 4 s)
          else if startswith "false" s then Ok (VBool false, drop 5 s)
          else if startswith "NaN" s then Ok (VFloat Float.Fnan, drop 3 s)
          else if startswith "Infinity" s
               then Ok (VFloat (Float.Finf false), drop 8 s)
          else if startswith "-Infinity" s
               then Ok (VFloat (Float.Finf true), drop 9 s)
          else lift (number s)
      end
  end

with members (fuel : nat) (acc : dict) (s : string)
  : outcome (value * string) :=
  match fuel with
  | O => OutOfFuel
  | S f =>
      match s with
      | String c r =>
          if Ascii.eqb c dquote then
            match scan_string r with
            | Raise e => Err e
            | Return (key, r1) =>
                let r2 := skip_ws r1 in
                if starts ":" r2 then
                  match scan_once f (skip_ws (drop 1 r2)) with
                  | Ok (v, r3) =>
                      let acc' := dict_set key v acc in
                      let r4 := skip_ws r3 in
                      if starts "}" r4 then Ok (VDict acc', drop 1 r4)
                      else if starts "," r4
                           then members f acc' (skip_ws (drop 1 r4))
                      else Err (decode_error "Expecting ',' delimiter")
                  | Err e => Err e
                  | OutOfFuel => OutOfFuel
                  end
                else Err (decode_error "Expecting ':' delimiter")
            end
          else Err (decode_error
                      "Expecting property name enclosed in double quotes")
      | EmptyString =>
          Err (decode_error "Expecting property name enclosed in double quotes")
      end
  end

with elements (fuel : nat) (acc : list value) (s : string)
  : outcome (value * string) :=
  match fuel with
  | O => OutOfFuel
  | S f =>
      match scan_once f s with
      | Ok (v, r1) =>
          let acc' := (acc ++ [v])%list in
          let r2 := skip_ws r1 in
          if starts "]" r2 then Ok (VList acc', drop 1 r2)
          else if starts "," r2 then elements f acc' (skip_ws (drop 1 r2))
          else Err (decode_error "Expecting ',' delimiter")
      | Err e => Err e
      | OutOfFuel => OutOfFuel
      end
  end.

(** Fuel that no text exhausts (lemma [JsonFacts.fuel_enough] below). *)
Definition fuel_for (s : string) : nat := 2 * String.length s + 2.

(** [json.loads(s)]: one value, blanks allowed around it, nothing else. *)
Definition loads (s : string) : result value :=
  let s0 := skip_ws s in
  match scan_once (fuel_for s0) s0 with
  | Ok (v, rest) =>
      match skip_ws rest with
      | EmptyString => Return v
      | _ => Raise (decode_error "Extra data")
      end
  | Err e => Raise e
  | OutOfFuel => Raise (mk_exn RecursionError "out of fuel")
  end.

End Json.

(* ================================================================== *)
(** * The three regular expressions                                     *)
(* ================================================================== *)

Module Re.

Import Text.

(** ** Fenced code: the pattern of [code_extractor], with DOTALL.

    Three backticks, an optional run of letters, a newline, the shortest
    text (group 1) that is followed by a newline and three backticks.
    The optional greedy run of letters cannot give letters back: what
    follows it must be a newline. *)

Definition fence : string := "```".
Definition closing : string := String newline fence.

Fixpoint skip_letters (s : string) : string :=
  match s with
  | EmptyString => EmptyString
  | String c r => if is_ascii_letter c then skip_letters r else s
  end.

(** Group 1: the text before the first closing fence, if there is one. *)
Fixpoint until_closing (s : string) : option string :=
  if startswith closing s then Some EmptyString
  else match s with
       | EmptyString => None
       | String c r =>
           match until_closing r with
           | Some body => Some (String c body)
           | None => None
           end
       end.

(** The pattern matched at the very front of [s]. *)
Definition fence_here (s : string) : option string :=
  if startswith fence s then
    match skip_letters (drop 3 s) with
    | String c r => if Ascii.eqb c newline then until_closing r else None
    | EmptyString => None
    end
  else None.

(** [pattern.search(s)]: group 1 of the leftmost match. *)
Fixpoint search_fence (s : string) : option string :=
  match fence_here s with
  | Some body => Some body
  | None =>
      match s with
      | EmptyString => None
      | String _ r => search_fence r
      end
  end.

(** ** Brace span: an opening brace, anything, greedily, a closing brace. *)

(** The text from the first [c] on. *)
Fixpoint from_first (c : ascii) (s : string) : option string :=
  match s with
  | EmptyString => None
  | String x r => if Ascii.eqb x c then Some s else from_first c r
  end.

(** The text up to and including the last [c]. *)
Fixpoint upto_last (c : ascii) (s : string) : option string :=
  match s with
  | EmptyString => None
  | String x r =>
      match upto_last c r with
      | Some p => Some (String x p)
      | None => if Ascii.eqb x c then Some (String x EmptyString) else None
      end
  end.

(** [dict_pattern.search(s)]: group 0 of the match. *)
Definition search_braces (s : string) : option string :=
  match from_first "{" s with
  | Some t => upto_last "}" t
  | None => None
  end.

(** ** Table rows: a line that starts and ends with a pipe, MULTILINE.

    Group 1 is the line without its first and last character; the dot
    does not cross a newline, so every line is matched on its own. *)
Definition row_of_line (line : string) : option string :=
  if starts "|" line then
    let r := drop 1 line in
    match last_char r with
    | Some c => if Ascii.eqb c "|" then Some (chop r) else None
    | None => None
    end
  else None.

Fixpoint rows_of_lines (lines : list string) : list string :=
  match lines with
  | [] => []
  | l :: r =>
      match row_of_line l with
      | Some inner => inner :: rows_of_lines r
      | None => rows_of_lines r
      end
  end.

(** [re.findall(pattern, s, re.MULTILINE)]. *)
Definition findall_rows (s : string) : list string :=
  rows_of_lines (split newline s).

End Re.

(* ================================================================== *)
(** * helper_func.py                                                    *)
(* ================================================================== *)

Module Helper.

Import Text Py.
Local Open Scope py_scope.

(** A model response: an object with a [text] attribute, or any plain
    value (a string among them), which has none. *)
Inductive response : Type :=
| WithText (text : value)
| Plain (v : value).

(** The common opening of the three functions:
    [if hasattr(x, "text"): x = x.text] and then
    [if not isinstance(x, str): x = str(x)]. *)
Definition text_of (x : response) : string :=
  match x with
  | WithText t => str t
  | Plain v => str v
  end.

Definition extract_text (result : response) : string :=
  strip (text_of result).

Definition code_extractor (result : response) : string :=
  let result := text_of result in
  match Re.search_fence result with
  | Some code => strip code
  | None => strip result
  end.

(** [[h.strip() for h in row.split("|")]]. *)
Definition cells (row : string) : list string :=
  map strip (split "|" row).

(** [{headers[j]: values[j] for j in range(len(headers)) if j < len(values)}]. *)
Definition test_case_of (headers values : list string) : dict :=
  fold_left
    (fun d j =>
       if Nat.ltb j (List.length values)
       then dict_set (nth j headers EmptyString)
                     (VStr (nth j values EmptyString)) d
       else d)
    (seq 0 (List.length headers)) [].

(** [headers = [h.strip() for h in rows[0].split("|")]]. *)
Definition table_headers (rows : list string) : list string :=
  cells (nth 0 rows EmptyString).

(** The data rows, [rows[2:]], each zipped with the headers. *)
Definition table_cases (rows : list string) : list value :=
  let headers := table_headers rows in
  map (fun row => VDict (test_case_of headers (cells row))) (skipn 2 rows).

(** First strategy.  [Some v]: the function returns [v]; [None]: it goes
    on.  Only a JSONDecodeError is handled here. *)
Definition json_strategy (test_output : string) : result (option value) :=
  match Re.search_braces test_output with
  | Some group0 =>
      try_except (v <- Json.loads group0 ;; Return (Some v))
                 is_JSONDecodeError (fun _ => Return None)
  | None => Return None
  end.

(** Second strategy: [if rows and len(rows) >= 3]. *)
Definition table_strategy (test_output : string) : result (option value) :=
  let rows := Re.findall_rows test_output in
  if negb (Nat.eqb (List.length rows) 0) && Nat.leb 3 (List.length rows)
  then Return (Some (VDict [("test_cases", VList (table_cases rows))]))
  else Return None.

Definition raw_output (test_output : string) : value :=
  VDict [("raw_output", VStr test_output)].

Definition extract_test_results (test_output : response) : result value :=
  let test_output := text_of test_output in
  found <- try_except
             (j <- json_strategy test_output ;;
              match j with
              | Some v => Return (Some v)
              | None => table_strategy test_output
              end)
             any_Exception (fun _ => Return None) ;;
  match found with
  | Some v => Return v
  | None => Return (raw_output test_output)
  end.

Definition status_like (key : string) : bool :=
  contains "status" key || contains "pass" key.

Definition failure_word (text : string) : bool :=
  contains "fail" text || contains "error" text.

(** [next((k for k in test if "status" in k.lower() or "pass" in k.lower()), None)]
    over the items that iterating [test] yields. *)
Fixpoint first_status_key (ks : list value) : result (option value) :=
  match ks with
  | [] => Return None
  | k :: r =>
      l <- lower_of k ;;
      if status_like l then Return (Some k) else first_status_key r
  end.

Definition truthy_key (k : value) : bool :=
  match k with
  | VStr s => negb (String.eqb s EmptyString)
  | _ => true
  end.

Definition key_text (k : value) : string :=
  match k with VStr s => s | _ => EmptyString end.

(** One turn of [for test in test_results["test_cases"]]: [true] when the
    turn executes [return True]. *)
Definition check_case (test : value) : result bool :=
  ks <- iterate test ;;
  status_key <- first_status_key ks ;;
  match status_key with
  | Some k =>
      if truthy_key k then
        x <- getitem test (key_text k) ;;
        l <- lower_of x ;;
        Return (failure_word l)
      else Return false
  | None => Return false
  end.

Fixpoint scan_cases (tests : list value) : result bool :=
  match tests with
  | [] => Return false
  | test :: r =>
      hit <- check_case test ;;
      if hit then Return true else scan_cases r
  end.

Definition has_failed_tests (test_results : value) : result bool :=
  let test_results_str := lower (str test_results) in
  if failure_word test_results_str then
    match test_results with
    | VDict entries =>
        if dict_has "test_cases" entries then
          cases <- getitem test_results "test_cases" ;;
          tests <- iterate cases ;;
          hit <- scan_cases tests ;;
          if hit then Return true else Return false
        else if dict_has "raw_output" entries then Return true
        else Return false
    | _ => Return true
    end
  else Return false.

End Helper.

(* ================================================================== *)
(** * prompts.py                                                        *)
(* ================================================================== *)

Module Prompts.

Import Text Py Helper.

(** ** Prompt texts *)

(** [test_prompt], written with apostrophes where the source has double
    quotes. *)
Definition test_prompt : string := dq "
You are a specialized AI assistant designed to generate comprehensive test cases and evaluate the code provided by the user. Your tasks are as follows:

1. Analyze the provided code and generate a set of test cases covering the following aspects:
   - Edge cases
   - Corner cases
   - Boundary conditions
   - Invalid inputs
   - Valid inputs
   - Case sensitivity (if applicable)
   - Performance testing
   - Runtime errors
   - Memory leaks
   - Security vulnerabilities
   - Concurrency issues

2. Execute the code against these test cases.

3. Evaluate the results, determining whether each test case passes or fails.

4. Present the outcomes in a JSON dictionary format with the following structure:
   ```
   {
     'test_cases': [
       {
         'description': 'Test case description',
         'input': 'Input value(s)',
         'expected': 'Expected outcome',
         'actual': 'Actual outcome',
         'status': 'PASS or FAIL'
       },
       ...
     ]
   }
   ```

Make sure to wrap the JSON output in triple backticks to make it easy to extract.
".

Definition fix_prompt_head : string := "
You are a code optimization expert. You need to analyze the following code and its test results, identify issues, 
and provide an improved version of the code that will pass all tests.

ORIGINAL CODE:
```python
".

Definition fix_prompt_results : string := "
```

TEST RESULTS:
".

Definition fix_prompt_problem : string := "

ORIGINAL PROBLEM STATEMENT:
".

Definition fix_prompt_tail : string := "

Please:
1. Analyze the test failures and identify the specific issues in the code
2. Explain your thought process and what needs to be fixed
3. Provide an updated and corrected version of the code

Your response should include:
- Analysis of failures (what went wrong)
- Your thought process on how to fix the issues
- Complete updated code that will pass all tests (enclosed in triple backticks)
".

(** [if hasattr(r, "text"): r.text else: str(r)], as in both functions. *)
Definition response_text (r : response) : value :=
  match r with
  | WithText t => t
  | Plain v => VStr (str v)
  end.

Definition full_prompt (prompt current_code : string) : string :=
  test_prompt ++ String newline EmptyString
    ++ prompt ++ String newline EmptyString
    ++ current_code ++ String newline EmptyString
    ++ "# Generate and evaluate test cases for this code"
    ++ String newline EmptyString.

Definition fix_prompt (code : string) (test_results : value)
           (user_prompt : string) : string :=
  fix_prompt_head ++ code ++ fix_prompt_results ++ str test_results
    ++ fix_prompt_problem ++ user_prompt ++ fix_prompt_tail.

Section Loop.

(** The model collaborator: [model.respond(prompt)] answers or raises,
    and may change the model's own state either way. *)
Variable St : Type.
Variable respond : St -> string -> result response * St.

(** The local variables of [test_case_gen_checker], the model, and the
    log of the prompts sent so far. *)
Record loop_state : Type := mk_loop_state {
  current_code : string;
  iteration : Z;
  all_tests_pass : bool;
  final_test_results : value;
  model_state : St;
  calls : list string
}.

Definition set_code (c : string) (st : loop_state) : loop_state :=
  mk_loop_state c (iteration st) (all_tests_pass st) (final_test_results st)
                (model_state st) (calls st).

Definition set_iteration (i : Z) (st : loop_state) : loop_state :=
  mk_loop_state (current_code st) i (all_tests_pass st)
                (final_test_results st) (model_state st) (calls st).

Definition set_pass (b : bool) (st : loop_state) : loop_state :=
  mk_loop_state (current_code st) (iteration st) b (final_test_results st)
                (model_state st) (calls st).

Definition set_final (v : value) (st : loop_state) : loop_state :=
  mk_loop_state (current_code st) (iteration st) (all_tests_pass st) v
                (model_state st) (calls st).

(** ** State with exceptions: the state survives a raise *)

Definition M (A : Type) : Type := loop_state -> result A * loop_state.

Definition ret {A : Type} (a : A) : M A := fun st => (Return a, st).

Definition bindM {A B : Type} (m : M A) (k : A -> M B) : M B :=
  fun st =>
    match m st with
    | (Return a, st') => k a st'
    | (Raise e, st') => (Raise e, st')
    end.

Definition lift {A : Type} (r : result A) : M A := fun st => (r, st).

Definition gets {A : Type} (f : loop_state -> A) : M A :=
  fun st => (Return (f st), st).

Definition modify (f : loop_state -> loop_state) : M unit :=
  fun st => (Return tt, f st).

(** [try: m except Exception as e: h e]. *)
Definition try_exceptM {A : Type} (m : M A) (h : exn -> M A) : M A :=
  fun st =>
    match m st with
    | (Raise e, st') => h e st'
    | done => done
    end.

Definition call_model (prompt : string) : M response :=
  fun st =>
    let '(r, ms) := respond (model_state st) prompt in
    (r, mk_loop_state (current_code st) (iteration st) (all_tests_pass st)
                      (final_test_results st) ms (calls st ++ [prompt])%list).

(** [final_test_results[key] = x]. *)
Definition assign_final (key : string) (x : value) : M unit :=
  fun st =>
    match setitem (final_test_results st) key x with
    | Return v => (Return tt, set_final v st)
    | Raise e => (Raise e, st)
    end.

Declare Scope loop_scope.
Delimit Scope loop_scope with loop.
Local Notation "x <- m ;; k" := (bindM m (fun x => k))
  (at level 61, m at next level, right associativity) : loop_scope.
Local Notation "m ;;; k" := (bindM m (fun _ => k))
  (at level 61, right associativity) : loop_scope.
Local Open Scope loop_scope.

Definition analyze_and_fix_code (code : string) (test_results : value)
           (user_prompt : string) : M string :=
  let test_results :=
    if is_dict test_results then test_results
    else VDict [("raw_output", VStr (str test_results))] in
  fix_result <- call_model (fix_prompt code test_results user_prompt) ;;
  let fix_result_text := response_text fix_result in
  ret (code_extractor (Plain fix_result_text)).

(** One turn of the [while]; the answer is [true] when the turn ends
    with [break]. *)
Definition cycle (prompt : string) : M bool :=
  modify (fun st => set_iteration (iteration st + 1) st) ;;;
  code <- gets current_code ;;
  try_exceptM
    (test_result <- call_model (full_prompt prompt code) ;;
     let test_result_text := response_text test_result in
     test_results <- lift (extract_test_results (Plain test_result_text)) ;;
     modify (set_final test_results) ;;;
     failed <- lift (has_failed_tests test_results) ;;
     if negb failed then
       modify (set_pass true) ;;;
       assign_final "status" (VStr "complete_success") ;;;
       ret false
     else
       code <- gets current_code ;;
       updated <- analyze_and_fix_code code test_results prompt ;;
       modify (set_code updated) ;;;
       ret false)
    (fun e =>
       assign_final "status" (VStr "error") ;;;
       assign_final "error_message" (VStr (exn_msg e)) ;;;
       ret true).

(** [while not all_tests_pass and iteration < max_iterations].  Every
    turn adds one to [iteration], so [max_iterations - iteration] turns
    are enough (lemma [while_loop_fuel] below). *)
Fixpoint while_loop (fuel : nat) (prompt : string) (max_iterations : Z)
  : M unit :=
  fun st =>
    if negb (all_tests_pass st) && (iteration st <? max_iterations) then
      match fuel with
      | O => (Return tt, st)
      | S f =>
          match cycle prompt st with
          | (Return true, st') => (Return tt, st')
          | (Return false, st') => while_loop f prompt max_iterations st'
          | (Raise e, st') => (Raise e, st')
          end
      end
    else (Return tt, st).

Definition initial (code : string) (ms : St) : loop_state :=
  mk_loop_state code 0 false
    (VDict [("test_cases", VList []); ("status", VStr "incomplete")])
    ms [].

(** The function up to, not including, the final [isinstance] check. *)
Definition run_loop (prompt : string) (max_iterations : Z) : M unit :=
  while_loop (Z.to_nat max_iterations) prompt max_iterations ;;;
  pass <- gets all_tests_pass ;;
  i <- gets iteration ;;
  if negb pass && (max_iterations <=? i)
  then assign_final "status" (VStr "max_iterations_reached")
  else ret tt.

(** [if not isinstance(final_test_results, dict)]: wrap it. *)
Definition ensure_dict (final : value) : value :=
  if is_dict final then final
  else VDict [("raw_output", VStr (str final))].

Definition test_case_gen_checker (code prompt : string) (max_iterations : Z)
           (ms : St) : result (string * value) :=
  match run_loop prompt max_iterations (initial code ms) with
  | (Return _, st) =>
      Return (current_code st, ensure_dict (final_test_results st))
  | (Raise e, _) => Raise e
  end.

(** The state in which the loop and the status update leave the run. *)
Definition final_state (code prompt : string) (max_iterations : Z) (ms : St)
  : loop_state :=
  snd (run_loop prompt max_iterations (initial code ms)).

End Loop.

Arguments current_code {St} _.
Arguments iteration {St} _.
Arguments all_tests_pass {St} _.
Arguments final_test_results {St} _.
Arguments model_state {St} _.
Arguments calls {St} _.

(** The [status] entry of a record, if it has one. *)
Definition status_of (record : value) : option value :=
  match record with
  | VDict entries => dict_get "status" entries
  | _ => None
  end.

Definition entry_of (key : string) (record : value) : option value :=
  match record with
  | VDict entries => dict_get key entries
  | _ => None
  end.

End Prompts.

(* ================================================================== *)
(** * Vocabulary of the statements                                      *)
(* ================================================================== *)

Module Spec.

Import Text Py Helper Prompts.
Local Open Scope py_scope.

(** ** Test cases *)

(** The first entry of a case whose key, in lower case, holds [status]
    or [pass]: the entry [has_failed_tests] looks at. *)
Definition first_status_entry (entries : dict) : option (string * value) :=
  find (fun kv => status_like (lower (fst kv))) entries.

(** The case is a mapping and the value under its first status-like key
    is a string that holds [fail] or [error]. *)
Definition first_key_fails (case : value) : bool :=
  match case with
  | VDict entries =>
      match first_status_entry entries with
      | Some (_, VStr s) => failure_word (lower s)
      | _ => false
      end
  | _ => false
  end.

(** In the words of the specification: the case has some key that holds
    [status] or [pass] whose value holds [fail] or [error]. *)
Definition entry_fails (kv : string * value) : bool :=
  status_like (lower (fst kv)) &&
  match snd kv with
  | VStr s => failure_word (lower s)
  | _ => false
  end.

Definition some_key_fails (case : value) : bool :=
  match case with
  | VDict entries => existsb entry_fails entries
  | _ => false
  end.

Definition claimed_has_failed (record : value) (cases : list value) : bool :=
  failure_word (lower (str record)) && existsb some_key_fails cases.

(** A case as the data model has it: a mapping whose values under
    status-like keys are strings. *)
Definition well_formed_case (case : value) : bool :=
  match case with
  | VDict entries =>
      forallb (fun kv => negb (status_like (lower (fst kv))) || is_str (snd kv))
              entries
  | _ => false
  end.

(** In the words of the specification: a case that is not a mapping, or
    that has a status-like key whose value is not a string. *)
Definition ill_formed_case (case : value) : bool :=
  negb (well_formed_case case).

(** An item of a list-shaped case that the key search steps over. *)
Definition quiet_item (x : value) : bool :=
  match x with
  | VStr s => negb (status_like (lower s))
  | _ => false
  end.

(** The cases on which the check of one case raises: a mapping whose
    first status-like key holds a non-string; a list with an item that is
    not a string or is status-like; a number, boolean or None. *)
Definition faulty_case (case : value) : bool :=
  match case with
  | VDict entries =>
      match first_status_entry entries with
      | Some (_, v) => negb (is_str v)
      | None => false
      end
  | VList items => negb (forallb quiet_item items)
  | VStr _ => false
  | _ => true
  end.

(** The case at which the walk over the cases stops: the first one that
    is faulty or that fails at its first status-like key. *)
Definition decisive_case (case : value) : bool :=
  faulty_case case || first_key_fails case.

Definition first_decisive (cases : list value) : option value :=
  find decisive_case cases.

(** ** Table rows *)

(** Headers and cell values paired by position, later pairs overriding
    earlier ones with the same header. *)
Definition zip_case (headers values : list string) : dict :=
  fold_left (fun d hv => dict_set (fst hv) (VStr (snd hv)) d)
            (combine headers values) [].

(** ** Records *)

(** The record after [record["status"] = "error"] and
    [record["error_message"] = str(e)]. *)
Definition with_error (e : exn) (entries : dict) : value :=
  VDict (dict_set "error_message" (VStr (exn_msg e))
           (dict_set "status" (VStr "error") entries)).

Definition with_status (status : string) (entries : dict) : value :=
  VDict (dict_set "status" (VStr status) entries).

(** ** Model stubs *)

(** What the loop concludes from one answer of the model: has a test
    failed. *)
Definition verdict (answer : response) : result bool :=
  record <- extract_test_results (Plain (response_text answer)) ;;
  has_failed_tests record.

Section Stubs.

Variable St : Type.
Variable respond : St -> string -> result response * St.

(** Every answer of the model reports success. *)
Definition always_reports_success : Prop :=
  forall ms p, exists answer ms',
    respond ms p = (Return answer, ms') /\ verdict answer = Return false.

(** Asked to evaluate, the model always reports a failure; asked to
    repair, it always answers. *)
Definition always_reports_failure (prompt : string) : Prop :=
  (forall ms code, exists answer ms',
     respond ms (full_prompt prompt code) = (Return answer, ms') /\
     verdict answer = Return true) /\
  (forall ms code record, exists answer ms',
     respond ms (fix_prompt code record prompt) = (Return answer, ms')).

End Stubs.

(** ** Sample inputs *)

Definition nl : string := String newline EmptyString.

Definition sample_json_text : string :=
  dq "Result: {'test_cases': [{'status': 'PASS'}]}".

Definition sample_json_record : value :=
  VDict [("test_cases", VList [VDict [("status", VStr "PASS")]])].

Definition sample_table : string :=
  "| name | status |" ++ nl ++ "|---|---|" ++ nl ++ "| t1 | FAIL |".

Definition sample_empty_block : string :=
  "Here:" ++ nl ++ "```python" ++ nl ++ nl ++ "```" ++ nl ++ "Done".




(** A failing case followed by a case with a number under [status]. *)
Definition sample_fail_then_number : value :=
  VDict [("test_cases",
          VList [VDict [("status", VStr "FAIL")]; VDict [("status", VInt 1)]])].


(** A record with two status-like keys that disagree. *)
Definition sample_two_keys : value :=
  VDict [("test_cases",
          VList [VDict [("status", VStr "PASS"); ("passed", VStr "fail")]])].

(** A record whose only case has a number under [status] and no failure
    word anywhere. *)
Definition sample_number_status : value :=
  VDict [("test_cases", VList [VDict [("status", VInt 1)]])].

(** Records on which [has_failed_tests] raises. *)
Definition sample_number_fail : value :=
  VDict [("test_cases",
          VList [VDict [("status", VInt 1); ("note", VStr "fail")]])].

Definition sample_bool_fail : value :=
  VDict [("test_cases",
          VList [VDict [("passed", VBool false); ("note", VStr "error")]])].

Definition sample_case_not_mapping : value :=
  VDict [("test_cases", VList [VInt 5]); ("note", VStr "fail")].

(** A model that always raises, one that always reports success, one
    that always reports a failure and repairs with a fenced block. *)
Definition boom : exn := mk_exn (OtherError "ConnectionError") "boom".

Definition raising_model (ms : nat) (p : string) : result response * nat :=
  (Raise boom, S ms).

Definition passing_model (ms : nat) (p : string) : result response * nat :=
  (Return (Plain (VStr (dq "{'test_cases': [{'status': 'PASS'}]}"))), S ms).

Definition failing_answer : response :=
  WithText (VStr (dq "{'test_cases': [{'status': 'FAIL'}]}"
                     ++ nl ++ "```python" ++ nl ++ "fixed" ++ nl ++ "```")).

Definition failing_model (ms : nat) (p : string) : result response * nat :=
  (Return failing_answer, S ms).

(** Reports failures, then raises at its [k]-th call (counted from 0). *)
Definition failing_then_raising (k : nat) (ms : nat) (p : string)
  : result response * nat :=
  (if Nat.eqb ms k then Raise boom else Return failing_answer, S ms).

End Spec.

(* ================================================================== *)
(** * Further vocabulary                                                *)
(* ================================================================== *)

Module Props.

Import Text Py Helper.

(** The text opens, or closes, with a blank character. *)
Definition leading_space (s : string) : bool :=
  match s with
  | EmptyString => false
  | String c _ => isspace c
  end.

Definition trailing_space (s : string) : bool :=
  match last_char s with
  | Some c => isspace c
  | None => false
  end.

(** A character that [repr] writes as itself, or as backslash and a
    letter: printable, or one of tab, newline, carriage return. *)
Definition plain_char (c : ascii) : bool :=
  isprintable c || (code c =? 9) || (code c =? 10) || (code c =? 13).

(** A text in which [repr] needs no hexadecimal escape. *)
Fixpoint plain_text (s : string) : bool :=
  match s with
  | EmptyString => true
  | String c r => plain_char c && plain_text r
  end.

(** A word of lower-case ASCII letters. *)
Fixpoint lower_letters (s : string) : bool :=
  match s with
  | EmptyString => true
  | String c r => in_range 97 122 c && lower_letters r
  end.

(** A word of lower-case letters whose first letter is none of those
    that [repr] writes after a backslash for tab, newline and carriage
    return. *)
Definition keyword (kw : string) : bool :=
  match kw with
  | EmptyString => false
  | String k _ =>
      lower_letters kw &&
      negb (Ascii.eqb k "n" || Ascii.eqb k "r" || Ascii.eqb k "t")
  end.

(** The control character U+000F, which [repr] writes as backslash, x,
    0, f. *)
Definition shift_in : ascii := ascii_of_nat 15.

End Props.

(* ================================================================== *)
(** * A model under observation                                         *)
(* ================================================================== *)

Module Observed.

Import Text Py Helper Prompts.

Section Observed.

Variable St : Type.
Variable respond : St -> string -> result response * St.

(** The same model with a journal beside its state: every call adds
    whether it raised. *)
Definition logged (s : St * list bool) (prompt : string)
  : result response * (St * list bool) :=
  let '(r, ms) := respond (fst s) prompt in
  (r, (ms, (snd s ++ [raises r])%list)).

(** A state of the loop over the observed model, seen without the
    journal. *)
Definition forget (st : loop_state (St * list bool)) : loop_state St :=
  mk_loop_state St (current_code st) (iteration st) (all_tests_pass st)
    (final_test_results st) (fst (model_state st)) (calls st).

End Observed.

End Observed.

(* ================================================================== *)
(** * What a run of the repair loop keeps true                          *)
(* ================================================================== *)

Module RunSpec.

Import Text Py Helper Prompts.

Section RunSpec.

Variable St : Type.
Variable respond : St -> string -> result response * St.

#[local] Abbreviation state := (loop_state St).

(** Where the current code comes from: it is the code given, or what
    [code_extractor] made of an answer of the model to a repair request
    sent in this run. *)
Definition code_origin (code prompt : string) (st : state) : Prop :=
  current_code st = code \/
  exists c record msp repair ms',
    In (fix_prompt c record prompt) (calls st) /\
    respond msp (fix_prompt c record prompt) = (Return repair, ms') /\
    current_code st = code_extractor (Plain (response_text repair)).

(** The invariant of the loop: the record is a dict; once the tests have
    passed the status says so and the last prompt sent asked for the
    evaluation of the current code; and the current code has its origin
    in this run. *)
Definition run_inv (code prompt : string) (st : state) : Prop :=
  is_dict (final_test_results st) = true /\
  (all_tests_pass st = true ->
   status_of (final_test_results st) = Some (VStr "complete_success") /\
   last (calls st) "" = full_prompt prompt (current_code st)) /\
  code_origin code prompt st.

(** What holds when the loop is left: the invariant, and a run that is
    left before the cap without success has recorded an error. *)
Definition run_post (code prompt : string) (max : Z) (st : state) : Prop :=
  run_inv code prompt st /\
  (all_tests_pass st = false -> iteration st < max ->
   exists d, final_test_results st = VDict d /\
             dict_get "status" d = Some (VStr "error") /\
             dict_has "error_message" d = true).

(** The current code is what [code_extractor] made of the answer to the
    last prompt sent, a repair request. *)
Definition from_repair (prompt : string) (st : state) : Prop :=
  exists c record msp repair,
    last (calls st) "" = fix_prompt c record prompt /\
    respond msp (fix_prompt c record prompt)
      = (Return repair, model_state st) /\
    current_code st = code_extractor (Plain (response_text repair)).

End RunSpec.

End RunSpec.

(* ================================================================== *)
(** * More model stubs                                                  *)
(* ================================================================== *)

Module Samples.

Import Text Py Helper Prompts Spec.

(** Reports a failure, repairs with a fenced block, then reports
    success. *)
Definition recovering_model (ms : nat) (p : string) : result response * nat :=
  (if Nat.ltb ms 2 then Return failing_answer
   else Return (Plain (VStr (dq "{'test_cases': [{'status': 'PASS'}]}"))),
   S ms).

(** Answers with an object that has neither test cases nor raw output. *)
Definition evasive_model (ms : nat) (p : string) : result response * nat :=
  (Return (Plain (VStr (dq "{'error': 'the tests could not be run'}"))), S ms).

End Samples.

(* ================================================================== *)
(** * ui_elements.py: the bordered prompt                               *)
(* ================================================================== *)

Module Ui.

Import Text Py.
Local Open Scope py_scope.

(** The characters at which [str.splitlines] cuts, on Latin-1: LF, VT,
    FF, CR, FS, GS, RS and NEL. *)
Definition is_line_break (c : ascii) : bool :=
  in_range 10 13 c || in_range 28 30 c || (code c =? 133).

(** [s.splitlines()]: a CR directly followed by LF is one cut, and a cut
    at the very end opens no further line. *)
Fixpoint splitlines (s : string) : list string :=
  match s with
  | EmptyString => []
  | String c r =>
      if is_line_break c then
        match r with
        | String d r' =>
            if (code c =? 13) && (code d =? 10)
            then EmptyString :: splitlines r'
            else EmptyString :: splitlines r
        | EmptyString => [EmptyString]
        end
      else
        match splitlines r with
        | [] => [String c EmptyString]
        | line :: lines => String c line :: lines
        end
  end.

Fixpoint repeat_string (s : string) (n : nat) : string :=
  match n with
  | O => EmptyString
  | S k => s ++ repeat_string s k
  end.

(** [s * n]: nothing when [n] is zero or less. *)
Definition times (s : string) (n : Z) : string := repeat_string s (Z.to_nat n).

Definition len (s : string) : Z := Z.of_nat (String.length s).

(** [s.ljust(width)]. *)
Definition ljust (s : string) (width : Z) : string :=
  s ++ times " " (width - len s).

(** [max(len(line) for line in lines)]. *)
Definition max_len (lines : list string) : result Z :=
  match lines with
  | [] => Raise (mk_exn ValueError "max() arg is an empty sequence")
  | line :: rest => Return (fold_left (fun m x => Z.max m (len x)) rest (len line))
  end.

(** One line of the box around a line of the prompt, without the colour. *)
Definition row (border_char : string) (padding max_length : Z) (line : string)
  : string :=
  border_char ++ times " " padding ++ ljust line max_length
    ++ times " " padding ++ border_char.

(** What [input_with_border] prints before it reads: the lines given to
    [print], in order.  [color] is the colour prefix, [reset] is
    [Style.RESET_ALL]. *)
Definition box (prompt_text border_char : string) (padding : Z)
           (color reset : string) : result (list string) :=
  let prompt_lines := splitlines prompt_text in
  max_length <- max_len prompt_lines ;;
  let border := times border_char (max_length + padding * 2 + 2) in
  let top := color ++ border in
  let rows :=
    map (fun line => color ++ row border_char padding max_length line)
        prompt_lines in
  let bottom := color ++ border ++ reset in
  Return (top :: rows ++ [bottom])%list.

(** [input(...)] over the lines still to be typed: the next line, or
    EOFError when there is none. *)
Definition input (typed : list string) : result string * list string :=
  match typed with
  | [] => (Raise (mk_exn (OtherError "EOFError") "EOF when reading a line"), [])
  | line :: rest => (Return line, rest)
  end.

(** [input_with_border]: the answer, the lines still to be typed and the
    lines printed. *)
Definition input_with_border (prompt_text border_char : string) (padding : Z)
           (color reset : string) (typed : list string)
  : result string * list string * list string :=
  match box prompt_text border_char padding color reset with
  | Return printed =>
      let '(answer, rest) := input typed in (answer, rest, printed)
  | Raise e => (Raise e, typed, [])
  end.

End Ui.

(* ================================================================== *)
(** * wrapper.py: the key shown in the settings menu                    *)
(* ================================================================== *)

Module Wrapper.

Import Text Py Ui.

(** [key[:4] + "*" * (len(key) - 8) + key[-4:]]. *)
Definition masked_key (key : string) : string :=
  take 4 key ++ times "*" (len key - 8) ++ drop (String.length key - 4) key.

(** The same expression over any stored value: only a string can be
    sliced and joined with the stars. *)
Definition shown_key (v : value) : result string :=
  match v with
  | VStr key => Return (masked_key key)
  | VList _ =>
      Raise (mk_exn TypeError
               (dq "can only concatenate list (not 'str') to list"))
  | VDict _ => Raise (mk_exn TypeError "unhashable type: 'slice'")
  | _ => Raise (mk_exn TypeError
                  ("'" ++ type_name v ++ "' object is not subscriptable"))
  end.

(** [settings.get("provider") == name]. *)
Definition provider_is (name : string) (settings : dict) : bool :=
  match dict_get "provider" settings with
  | Some (VStr s) => String.eqb s name
  | _ => false
  end.

(** The provider named in the settings has what it needs: a key and a
    model name for Hugging Face, a model name for the local model. *)
Definition configured (settings : dict) : bool :=
  (negb (provider_is "huggingface" settings)
   || (dict_has "hf_api_key" settings && dict_has "hf_model_name" settings))
  && (negb (provider_is "local" settings)
      || dict_has "local_model_name" settings).

Section Menu.

(** The settings file: [save_user_settings] writes it, or raises. *)
Variable Disk : Type.
Variable save_user_settings : Disk -> dict -> result unit * Disk.

(** The settings dict, which the menus change in place, the lines the
    user will type, the disk; and, for the statements, the settings
    handed to [save_user_settings] so far.  What is printed is left
    out. *)
Record desk : Type := mk_desk {
  settings : dict;
  typed : list string;
  disk : Disk;
  saves : list dict
}.

Definition D (A : Type) : Type := desk -> result A * desk.

Definition retD {A : Type} (a : A) : D A := fun s => (Return a, s).

Definition bindD {A B : Type} (m : D A) (k : A -> D B) : D B :=
  fun s =>
    match m s with
    | (Return a, s') => k a s'
    | (Raise e, s') => (Raise e, s')
    end.

(** [input(...)]. *)
Definition ask_line : D string :=
  fun s =>
    let '(answer, rest) := input (typed s) in
    (answer, mk_desk (settings s) rest (disk s) (saves s)).

(** [settings[key] = x]. *)
Definition put (key x : string) : D unit :=
  fun s =>
    (Return tt,
     mk_desk (dict_set key (VStr x) (settings s)) (typed s) (disk s) (saves s)).

(** [save_user_settings(settings)]. *)
Definition save : D unit :=
  fun s =>
    let '(r, d) := save_user_settings (disk s) (settings s) in
    (r, mk_desk (settings s) (typed s) d (saves s ++ [settings s])%list).

Definition lookD {A : Type} (f : dict -> A) : D A :=
  fun s => (Return (f (settings s)), s).

Definition liftD {A : Type} (r : result A) : D A := fun s => (r, s).

Declare Scope desk_scope.
Delimit Scope desk_scope with desk.
Local Notation "x <- m ;; k" := (bindD m (fun x => k))
  (at level 61, m at next level, right associativity) : desk_scope.
Local Notation "m ;;; k" := (bindD m (fun _ => k))
  (at level 61, right associativity) : desk_scope.
Local Open Scope desk_scope.

(** The header of [manage_huggingface_settings]: the current key is
    shown, masked, when key and model name are both there. *)
Definition show_current : D unit :=
  both <- lookD (fun d => dict_has "hf_api_key" d && dict_has "hf_model_name" d) ;;
  if both then
    key <- lookD (fun d => match dict_get "hf_api_key" d with
                           | Some v => v
                           | None => VNone
                           end) ;;
    liftD (shown_key key) ;;; retD tt
  else retD tt.

Definition manage_huggingface_settings : D bool :=
  show_current ;;;
  choice <- ask_line ;;
  (if String.eqb choice "1" || String.eqb choice "3" then
     key <- ask_line ;; put "hf_api_key" key
   else retD tt) ;;;
  (if String.eqb choice "2" || String.eqb choice "3" then
     name <- ask_line ;; put "hf_model_name" name
   else retD tt) ;;;
  if String.eqb choice "1" || String.eqb choice "2" || String.eqb choice "3"
  then save ;;; retD true
  else retD false.

Definition manage_local_model_settings : D bool :=
  choice <- ask_line ;;
  if String.eqb choice "1" then
    new_model <- ask_line ;;
    put "local_model_name" new_model ;;;
    save ;;;
    retD true
  else retD false.

Definition display_settings_menu : D bool :=
  choice <- ask_line ;;
  if String.eqb choice "1" then
    provider_choice <- ask_line ;;
    is_local <- lookD (provider_is "local") ;;
    is_hf <- lookD (provider_is "huggingface") ;;
    if String.eqb provider_choice "1" && negb is_local then
      put "provider" "local" ;;;
      has_name <- lookD (dict_has "local_model_name") ;;
      (if negb has_name then
         name <- ask_line ;; put "local_model_name" name
       else retD tt) ;;;
      save ;;;
      retD true
    else if String.eqb provider_choice "2" && negb is_hf then
      put "provider" "huggingface" ;;;
      has_both <-
        lookD (fun d => dict_has "hf_api_key" d && dict_has "hf_model_name" d) ;;
      (if negb has_both then
         key <- ask_line ;;
         put "hf_api_key" key ;;;
         name <- ask_line ;;
         put "hf_model_name" name
       else retD tt) ;;;
      save ;;;
      retD true
    else retD false
  else if String.eqb choice "2" then
    is_hf <- lookD (provider_is "huggingface") ;;
    if is_hf then manage_huggingface_settings
    else manage_local_model_settings
  else retD false.

End Menu.

Arguments settings {Disk} _.
Arguments typed {Disk} _.
Arguments disk {Disk} _.
Arguments saves {Disk} _.

End Wrapper.

(* ================================================================== *)
(** * prompts.py: understand_problem                                    *)
(* ================================================================== *)

Module Understand.

Import Text Py Helper.

Definition understanding_head : string := "
You are an expert programmer and teacher. Given the following programming problem, please:

1. Explain what the problem is asking in simple terms
2. Break down the key requirements and constraints
3. Suggest a clear algorithm or approach to solve it
4. Explain the time and space complexity of your suggested approach
5. Mention any potential edge cases or challenges to consider

Problem: ".

Definition understanding_tail : string := "

Your response should be educational and easy to understand, explaining everything in plain English before any code is written.
".

Definition understanding_prompt (prompt : string) : string :=
  understanding_head ++ prompt ++ understanding_tail.

Section Understand.

Variable St : Type.
Variable respond : St -> string -> result response * St.

(** No handler here: what the model raises leaves the function. *)
Definition understand_problem (prompt : string) (ms : St)
  : result string * St :=
  let '(understanding_result, ms') := respond ms (understanding_prompt prompt) in
  match understanding_result with
  | Return r => (Return (extract_text r), ms')
  | Raise e => (Raise e, ms')
  end.

End Understand.

End Understand.

(* ================================================================== *)
(** * main.py: the command that solves a problem                        *)
(* ================================================================== *)

Module Main.

Import Text Py Helper Prompts Ui Understand.

(** [s.endswith(suffix)]. *)
Definition endswith (suffix s : string) : bool :=
  (String.length suffix <=? String.length s)%nat &&
  String.eqb (drop (String.length s - String.length suffix) s) suffix.

(** The name under which the code is saved: [solution.py] when nothing
    was typed, and [.py] added when the name does not end with it. *)
Definition save_filename (filename : string) : string :=
  let filename :=
    if String.eqb filename EmptyString then "solution.py" else filename in
  if negb (endswith ".py" filename) then filename ++ ".py" else filename.

Definition code_gen_head : string := "
You are an expert programmer tasked with solving the following programming problem:

".

Definition code_gen_tail : string := "

Please provide a complete, efficient, and well-documented solution in Python.
Your code should:
1. Be fully functional and ready to run
2. Include detailed comments explaining the logic
3. Handle edge cases and potential errors
4. Follow best practices for Python coding style (PEP 8)
5. Be optimized for performance where applicable

Return ONLY the code solution, enclosed in triple backticks.
".

Definition code_gen_prompt (user_prompt : string) : string :=
  code_gen_head ++ user_prompt ++ code_gen_tail.

Section Solve.

(** The model, and the file system with [open(filename, "w")] followed
    by [f.write(content)], which may raise. *)
Variable St : Type.
Variable respond : St -> string -> result response * St.
Variable Fs : Type.
Variable write_file : Fs -> string -> string -> result unit * Fs.

(** The surroundings of the command: the model, the lines the user will
    type, the files; and, for the statements, the prompts sent to the
    model and the writes attempted so far.  What is printed is left
    out. *)
Record world : Type := mk_world {
  model : St;
  typed : list string;
  files : Fs;
  asked : list string;
  written : list (string * string)
}.

Definition W (A : Type) : Type := world -> result A * world.

Definition retW {A : Type} (a : A) : W A := fun w => (Return a, w).

Definition bindW {A B : Type} (m : W A) (k : A -> W B) : W B :=
  fun w =>
    match m w with
    | (Return a, w') => k a w'
    | (Raise e, w') => (Raise e, w')
    end.

(** [input_with_border(prompt_text)], with its default border, padding
    and colour. *)
Definition read (prompt_text color reset : string) : W string :=
  fun w =>
    let '(answer, rest, _) :=
      input_with_border prompt_text "*" 2 color reset (typed w) in
    (answer, mk_world (model w) rest (files w) (asked w) (written w)).

(** [model.respond(prompt)]. *)
Definition ask (prompt : string) : W response :=
  fun w =>
    let '(r, ms) := respond (model w) prompt in
    (r, mk_world ms (typed w) (files w) (asked w ++ [prompt])%list (written w)).

(** [understand_problem(model, user_prompt)]. *)
Definition explain (user_prompt : string) : W string :=
  fun w =>
    let '(r, ms) := understand_problem St respond user_prompt (model w) in
    (r, mk_world ms (typed w) (files w)
          (asked w ++ [understanding_prompt user_prompt])%list (written w)).

(** [test_case_gen_checker(model, code, user_prompt)], with the default
    cap of 3. *)
Definition test (code user_prompt : string) : W (string * value) :=
  fun w =>
    let st := final_state St respond code user_prompt 3 (model w) in
    (test_case_gen_checker St respond code user_prompt 3 (model w),
     mk_world (model_state st) (typed w) (files w)
       (asked w ++ calls st)%list (written w)).

(** The [with open(filename, "w")] block inside its [try]: what it
    raises is reported and goes no further. *)
Definition save (filename content : string) : W unit :=
  fun w =>
    let '(_, fs) := write_file (files w) filename content in
    (Return tt,
     mk_world (model w) (typed w) fs (asked w)
       (written w ++ [(filename, content)])%list).

Declare Scope world_scope.
Delimit Scope world_scope with world.
Local Notation "x <- m ;; k" := (bindW m (fun x => k))
  (at level 61, m at next level, right associativity) : world_scope.
Local Open Scope world_scope.

(** The body of [if cmd == "1"]: it ends with [Return] where the source
    goes on with the next command, and with [Raise] where an exception
    leaves the loop of commands. *)
Definition solve (color reset : string) : W unit :=
  user_prompt <-
    read "Enter your programming problem or coding challenge:" color reset ;;
  if String.eqb (strip user_prompt) EmptyString then retW tt
  else
    explanation <- explain user_prompt ;;
    proceed <-
      read "Would you like to generate code for this problem? (y/n):"
           color reset ;;
    if negb (String.eqb (lower proceed) "y") then retW tt
    else
      code_result <- ask (code_gen_prompt user_prompt) ;;
      let code := code_extractor code_result in
      test_code <-
        read "Would you like to test this code? (y/n):" color reset ;;
      if String.eqb (lower test_code) "y" then
        tested <- test code user_prompt ;;
        let final_code := fst tested in
        save_code <-
          read "Would you like to save this code to a file? (y/n):"
               color reset ;;
        if String.eqb (lower save_code) "y" then
          filename <-
            read "Enter filename to save (default: solution.py):"
                 color reset ;;
          save (save_filename filename) final_code
        else retW tt
      else retW tt.

End Solve.

Arguments model {St Fs} _.
Arguments typed {St Fs} _.
Arguments files {St Fs} _.
Arguments asked {St Fs} _.
Arguments written {St Fs} _.

End Main.

(* ================================================================== *)
(** * Facts about text                                                  *)
(* ================================================================== *)

Module TextFacts.

Import Text.

Lemma starts_inv (c : ascii) (s : string) :
  starts c s = true -> s = String c (drop 1 s).
Proof.
  destruct s as [|x r]; simpl; [discriminate|].
  intros H. apply Ascii.eqb_eq in H. now subst.
Qed.

Lemma starts_cons (c : ascii) (r : string) : starts c (String c r) = true.
Proof. simpl. apply Ascii.eqb_refl. Qed.

Lemma append_nil_r (s : string) : s ++ "" = s.
Proof. induction s; simpl; congruence. Qed.

Lemma append_assoc (a b c : string) : (a ++ b) ++ c = a ++ (b ++ c).
Proof. induction a; simpl; congruence. Qed.

Lemma length_append (a b : string) :
  String.length (a ++ b) = (String.length a + String.length b)%nat.
Proof. induction a; simpl; congruence. Qed.

Lemma last_char_chop (r : string) (c : ascii) :
  last_char r = Some c -> r = chop r ++ String c "".
Proof.
  induction r as [|x r IH]; simpl; [discriminate|].
  destruct r as [|y r'].
  - intros [= ->]. reflexivity.
  - intros H. simpl. f_equal. apply IH, H.
Qed.

Lemma last_char_append (s : string) (c : ascii) :
  last_char (s ++ String c "") = Some c.
Proof.
  induction s as [|x s IH]; simpl; [reflexivity|].
  destruct (s ++ String c "") eqn:E; [|exact IH].
  destruct s; discriminate.
Qed.

Lemma chop_append (s : string) (c : ascii) : chop (s ++ String c "") = s.
Proof.
  induction s as [|x s IH]; simpl; [reflexivity|].
  destruct (s ++ String c "") eqn:E.
  - destruct s; discriminate.
  - rewrite IH. reflexivity.
Qed.

Lemma lstrip_all_space (s : string) : all_space s = true -> lstrip s = "".
Proof.
  induction s as [|c r IH]; simpl; [reflexivity|].
  destruct (isspace c); simpl; [exact IH|discriminate].
Qed.

Lemma all_space_lstrip (s : string) : all_space (lstrip s) = all_space s.
Proof.
  induction s as [|c r IH]; simpl; [reflexivity|].
  destruct (isspace c) eqn:E; simpl; [exact IH|].
  rewrite E. reflexivity.
Qed.

Lemma rstrip_empty_iff (s : string) : rstrip s = "" <-> all_space s = true.
Proof.
  destruct s as [|c r]; simpl; [tauto|].
  destruct (isspace c && all_space r); split; congruence.
Qed.

(** Stripping leaves nothing exactly when the text is all blank. *)
Lemma strip_empty_iff (s : string) : strip s = "" <-> all_space s = true.
Proof.
  unfold strip. rewrite rstrip_empty_iff, all_space_lstrip. tauto.
Qed.

Lemma startswith_append (p s : string) : startswith p (p ++ s) = true.
Proof.
  induction p as [|c p IH]; simpl; [reflexivity|].
  rewrite Ascii.eqb_refl. exact IH.
Qed.

Lemma startswith_inv (p s : string) :
  startswith p s = true -> s = p ++ drop (String.length p) s.
Proof.
  revert s. induction p as [|c p IH]; intros s; simpl.
  - destruct s; reflexivity.
  - destruct s as [|x r]; [discriminate|].
    destruct (Ascii.eqb_spec c x) as [->|]; [|discriminate].
    intros H. f_equal. apply IH, H.
Qed.

Lemma contains_startswith (needle s : string) :
  startswith needle s = true -> contains needle s = true.
Proof. destruct s; simpl; intros ->; reflexivity. Qed.

Lemma contains_append (needle a b : string) :
  contains needle (a ++ needle ++ b) = true.
Proof.
  induction a as [|c a IH]; simpl.
  - apply contains_startswith, startswith_append.
  - rewrite IH. apply orb_true_r.
Qed.

Lemma contains_inv (needle s : string) :
  contains needle s = true -> exists a b, s = a ++ needle ++ b.
Proof.
  induction s as [|c r IH]; simpl.
  - rewrite orb_false_r. intros H. exists "". eexists.
    apply startswith_inv in H. simpl. exact H.
  - intros H. apply orb_true_iff in H. destruct H as [H|H].
    + exists "". eexists. simpl. apply startswith_inv in H. exact H.
    + destruct (IH H) as (a & b & ->). exists (String c a), b. reflexivity.
Qed.

Lemma length_drop (n : nat) (s : string) :
  (String.length (drop n s) <= String.length s)%nat.
Proof.
  revert s. induction n as [|n IH]; intros [|c r]; simpl; try lia.
  specialize (IH r). lia.
Qed.

End TextFacts.

(* ================================================================== *)
(** * Facts about the JSON decoder                                      *)
(* ================================================================== *)

Module JsonFacts.

Import Text Py Json TextFacts.

Lemma length_skip_ws (s : string) :
  (String.length (skip_ws s) <= String.length s)%nat.
Proof.
  induction s as [|c r IH]; simpl; [lia|].
  destruct (is_ws c); simpl; lia.
Qed.

#[local] Arguments drop : simpl never.
#[local] Arguments skip_ws : simpl never.

Lemma length_starts_drop (c : ascii) (s : string) :
  starts c s = true -> String.length s = S (String.length (drop 1 s)).
Proof. intros H. rewrite (starts_inv c s H) at 1. reflexivity. Qed.

Lemma length_startswith_drop (p s : string) :
  startswith p s = true ->
  String.length s = (String.length p + String.length (drop (String.length p) s))%nat.
Proof.
  intros H. rewrite (startswith_inv p s H) at 1. apply length_append.
Qed.

Lemma length_scan_string (s body rest : string) :
  scan_string s = Return (body, rest) ->
  (String.length rest < String.length s)%nat.
Proof.
  remember (String.length s) as n eqn:En.
  revert s body rest En.
  induction n as [n IH] using lt_wf_ind. intros s body rest En.
  destruct s as [|c r]; simpl; [discriminate|].
  destruct (Ascii.eqb c dquote).
  { intros [= _ <-]. simpl in En. lia. }
  destruct (Ascii.eqb c backslash).
  - destruct r as [|e r']; [discriminate|].
    destruct (Ascii.eqb e "u").
    + destruct r' as [|h1 [|h2 [|h3 [|h4 r'']]]]; try discriminate.
      destruct (hex4 h1 h2 h3 h4); [|discriminate].
      destruct (_ <? 256); [|discriminate].
      destruct (scan_string r'') as [[b t]|] eqn:E; simpl; [|discriminate].
      intros [= _ <-].
      specialize (IH (String.length r'')). simpl in En.
      assert (String.length t < String.length r'')%nat
        by (eapply IH; [lia|reflexivity|exact E]).
      simpl. lia.
    + destruct (escape e); [|discriminate].
      destruct (scan_string r') as [[b t]|] eqn:E; simpl; [|discriminate].
      intros [= _ <-]. simpl in En.
      assert (String.length t < String.length r')%nat
        by (eapply (IH (String.length r')); [lia|reflexivity|exact E]).
      simpl. lia.
  - destruct (code c <? 32); [discriminate|].
    destruct (scan_string r) as [[b t]|] eqn:E; simpl; [|discriminate].
    intros [= _ <-]. simpl in En.
    assert (String.length t < String.length r)%nat
      by (eapply (IH (String.length r)); [lia|reflexivity|exact E]).
    lia.
Qed.

Lemma length_span_digits (s ds rest : string) :
  span_digits s = (ds, rest) ->
  String.length s = (String.length ds + String.length rest)%nat.
Proof.
  revert ds rest. induction s as [|c r IH]; simpl; intros ds rest.
  - intros [= <- <-]. reflexivity.
  - destruct (is_digit c).
    + destruct (span_digits r) as [d t]. intros [= <- <-].
      simpl. rewrite (IH d t eq_refl). reflexivity.
    + intros [= <- <-]. reflexivity.
Qed.

Lemma length_int_part (s ip rest : string) :
  int_part s = Some (ip, rest) ->
  (String.length rest < String.length s)%nat.
Proof.
  destruct s as [|c r]; simpl; [discriminate|].
  destruct (Ascii.eqb c "0").
  - intros [= _ <-]. lia.
  - destruct (is_digit c); [|discriminate].
    destruct (span_digits r) as [d t] eqn:E. intros [= _ <-].
    apply length_span_digits in E. lia.
Qed.

Lemma length_frac_part (s fd rest : string) :
  frac_part s = (fd, rest) ->
  (String.length rest <= String.length s)%nat.
Proof.
  unfold frac_part. destruct (starts "." s) eqn:Hs.
  - destruct (span_digits (drop 1 s)) as [d t] eqn:E.
    apply length_span_digits in E. apply length_starts_drop in Hs.
    destruct d; intros [= _ <-]; lia.
  - intros [= _ <-]. lia.
Qed.

Lemma length_exp_part (s : string) (ex : option Z) (rest : string) :
  exp_part s = (ex, rest) ->
  (String.length rest <= String.length s)%nat.
Proof.
  unfold exp_part. destruct (starts "e" s || starts "E" s) eqn:Hs.
  - pose proof (length_drop 1 s) as H1.
    pose proof (length_drop 1 (drop 1 s)) as H2.
    destruct (starts "-" (drop 1 s)); [|destruct (starts "+" (drop 1 s))];
      match goal with
      | |- context [span_digits ?x] =>
          destruct (span_digits x) as [d t] eqn:E;
          apply length_span_digits in E
      end; destruct d; intros [= _ <-]; lia.
  - intros [= _ <-]. lia.
Qed.

Lemma length_number (s : string) (v : value) (rest : string) :
  number s = Return (v, rest) ->
  (String.length rest < String.length s)%nat.
Proof.
  unfold number.
  assert (forall neg s1, (String.length s1 <= String.length s)%nat ->
    match int_part s1 with
    | None => Raise (decode_error "Expecting value")
    | Some (ip, s2) =>
        let '(fd, s3) := frac_part s2 in
        let '(ex, s4) := exp_part s3 in
        match fd, ex with
        | EmptyString, None =>
            if Nat.ltb int_max_str_digits (String.length ip)
            then Raise (mk_exn ValueError
                   "Exceeds the limit (4300 digits) for integer string conversion")
            else Return (VInt (if neg then - digits_value 0 ip
                               else digits_value 0 ip), s4)
        | _, _ =>
            Return (VFloat (Float.of_decimal neg (digits_value 0 (ip ++ fd))
                      (match ex with Some x => x | None => 0 end
                       - Z.of_nat (String.length fd))), s4)
        end
    end = Return (v, rest) ->
    (String.length rest < String.length s)%nat) as Hgen.
  { intros neg s1 Hle.
    destruct (int_part s1) as [[ip s2]|] eqn:Ei; [|discriminate].
    apply length_int_part in Ei.
    destruct (frac_part s2) as [fd s3] eqn:Ef. apply length_frac_part in Ef.
    destruct (exp_part s3) as [ex s4] eqn:Ee. apply length_exp_part in Ee.
    destruct fd; destruct ex;
      try destruct (Nat.ltb _ _); try discriminate;
      intros [= _ <-]; lia. }
  destruct (starts "-" s).
  - apply Hgen. apply length_drop.
  - apply Hgen. lia.
Qed.

#[local] Arguments startswith : simpl never.
#[local] Arguments scan_string : simpl never.
#[local] Arguments number : simpl never.
#[local] Arguments starts : simpl never.

(** A decoded value leaves strictly less text than it was given. *)
Lemma length_decoded (fuel : nat) :
  (forall s v rest, scan_once fuel s = Ok (v, rest) ->
     (String.length rest < String.length s)%nat) /\
  (forall acc s v rest, members fuel acc s = Ok (v, rest) ->
     (String.length rest < String.length s)%nat) /\
  (forall acc s v rest, elements fuel acc s = Ok (v, rest) ->
     (String.length rest < String.length s)%nat).
Proof.
  induction fuel as [|f (IHv & IHm & IHe)];
    [repeat split; intros; discriminate|].
  repeat split.
  - intros s v rest. simpl.
    destruct s as [|c r]; [discriminate|].
    destruct (Ascii.eqb c dquote).
    { destruct (scan_string r) as [[b t]|] eqn:E; [|discriminate].
      intros [= _ <-]. apply length_scan_string in E. cbn [String.length]. lia. }
    destruct (Ascii.eqb c "{").
    { pose proof (length_skip_ws r).
      destruct (starts "}" (skip_ws r)) eqn:Hs.
      - intros [= _ <-]. apply length_starts_drop in Hs. cbn [String.length]. lia.
      - intros H1. apply IHm in H1. cbn [String.length]. lia. }
    destruct (Ascii.eqb c "[").
    { pose proof (length_skip_ws r).
      destruct (starts "]" (skip_ws r)) eqn:Hs.
      - intros [= _ <-]. apply length_starts_drop in Hs. cbn [String.length]. lia.
      - intros H1. apply IHe in H1. cbn [String.length]. lia. }
    repeat match goal with
    | |- (if startswith ?p ?t then _ else _) = _ -> _ =>
        let Hp := fresh "Hp" in
        destruct (startswith p t) eqn:Hp;
        [ intros [= _ <-]; apply length_startswith_drop in Hp;
          cbn [String.length] in Hp |- *; lia | clear Hp ]
    end.
    unfold lift.
    destruct (number (String c r)) as [[x t]|] eqn:E; [|discriminate].
    intros [= _ <-]. apply length_number in E. exact E.
  - intros acc s v rest. simpl.
    destruct s as [|c r]; [discriminate|].
    destruct (Ascii.eqb c dquote); [|discriminate].
    destruct (scan_string r) as [[key r1]|] eqn:E; [|discriminate].
    apply length_scan_string in E.
    pose proof (length_skip_ws r1).
    destruct (starts ":" (skip_ws r1)) eqn:Hc; [|discriminate].
    apply length_starts_drop in Hc.
    pose proof (length_skip_ws (drop 1 (skip_ws r1))).
    destruct (scan_once f (skip_ws (drop 1 (skip_ws r1))))
      as [[x r3]| |] eqn:Ev; try discriminate.
    apply IHv in Ev. pose proof (length_skip_ws r3).
    destruct (starts "}" (skip_ws r3)) eqn:Hb.
    { intros [= _ <-]. apply length_starts_drop in Hb. cbn [String.length]. lia. }
    destruct (starts "," (skip_ws r3)) eqn:Hk; [|discriminate].
    apply length_starts_drop in Hk.
    pose proof (length_skip_ws (drop 1 (skip_ws r3))).
    intros H3. apply IHm in H3. cbn [String.length]. lia.
  - intros acc s v rest. simpl.
    destruct (scan_once f s) as [[x r1]| |] eqn:Ev; try discriminate.
    apply IHv in Ev. pose proof (length_skip_ws r1).
    destruct (starts "]" (skip_ws r1)) eqn:Hb.
    { intros [= _ <-]. apply length_starts_drop in Hb. lia. }
    destruct (starts "," (skip_ws r1)) eqn:Hk; [|discriminate].
    apply length_starts_drop in Hk.
    pose proof (length_skip_ws (drop 1 (skip_ws r1))).
    intros H3. apply IHe in H3. lia.
Qed.

(** The fuel [loads] hands out is never used up: twice the length of the
    text, plus one, covers [scan_once]; plus two, the two loops. *)
Lemma fuel_bound (fuel : nat) :
  (forall s, (2 * String.length s + 1 <= fuel)%nat ->
     scan_once fuel s <> OutOfFuel) /\
  (forall acc s, (2 * String.length s + 2 <= fuel)%nat ->
     members fuel acc s <> OutOfFuel) /\
  (forall acc s, (2 * String.length s + 2 <= fuel)%nat ->
     elements fuel acc s <> OutOfFuel).
Proof.
  induction fuel as [|f (IHv & IHm & IHe)];
    [repeat split; intros; lia|].
  repeat split.
  - intros s Hf. simpl.
    destruct s as [|c r]; [discriminate|]. cbn [String.length] in Hf.
    destruct (Ascii.eqb c dquote).
    { destruct (scan_string r) as [[b t]|]; discriminate. }
    pose proof (length_skip_ws r).
    destruct (Ascii.eqb c "{").
    { destruct (starts "}" (skip_ws r)); [discriminate|]. apply IHm. lia. }
    destruct (Ascii.eqb c "[").
    { destruct (starts "]" (skip_ws r)); [discriminate|]. apply IHe. lia. }
    repeat match goal with
    | |- (if ?b then _ else _) <> _ => destruct b; [discriminate|]
    end.
    unfold lift. destruct (number (String c r)) as [[x t]|]; discriminate.
  - intros acc s Hf. simpl.
    destruct s as [|c r]; [discriminate|]. cbn [String.length] in Hf.
    destruct (Ascii.eqb c dquote); [|discriminate].
    destruct (scan_string r) as [[key r1]|] eqn:E; [|discriminate].
    apply length_scan_string in E.
    pose proof (length_skip_ws r1).
    destruct (starts ":" (skip_ws r1)) eqn:Hc; [|discriminate].
    apply length_starts_drop in Hc.
    pose proof (length_skip_ws (drop 1 (skip_ws r1))).
    destruct (scan_once f (skip_ws (drop 1 (skip_ws r1))))
      as [[x r3]| |] eqn:Ev; [|discriminate|].
    + apply (proj1 (length_decoded f)) in Ev.
      pose proof (length_skip_ws r3).
      destruct (starts "}" (skip_ws r3)); [discriminate|].
      destruct (starts "," (skip_ws r3)) eqn:Hk; [|discriminate].
      apply length_starts_drop in Hk.
      pose proof (length_skip_ws (drop 1 (skip_ws r3))).
      apply IHm. lia.
    + exfalso. revert Ev. apply IHv. lia.
  - intros acc s Hf. simpl.
    destruct (scan_once f s) as [[x r1]| |] eqn:Ev; [|discriminate|].
    + apply (proj1 (length_decoded f)) in Ev.
      pose proof (length_skip_ws r1).
      destruct (starts "]" (skip_ws r1)); [discriminate|].
      destruct (starts "," (skip_ws r1)) eqn:Hk; [|discriminate].
      apply length_starts_drop in Hk.
      pose proof (length_skip_ws (drop 1 (skip_ws r1))).
      apply IHe. lia.
    + exfalso. revert Ev. apply IHv. lia.
Qed.

Lemma fuel_enough (s : string) : scan_once (fuel_for s) s <> OutOfFuel.
Proof. apply (proj1 (fuel_bound (fuel_for s))). unfold fuel_for. lia. Qed.

(** ** An object literal decodes to a dict *)

Lemma members_dict (fuel : nat) :
  forall acc s v rest, members fuel acc s = Ok (v, rest) -> is_dict v = true.
Proof.
  induction fuel as [|f IH]; intros acc s v rest; simpl; [discriminate|].
  destruct s as [|c r]; [discriminate|].
  destruct (Ascii.eqb c dquote); [|discriminate].
  destruct (scan_string r) as [[key r1]|]; [|discriminate].
  destruct (starts ":" (skip_ws r1)); [|discriminate].
  destruct (scan_once f (skip_ws (drop 1 (skip_ws r1)))) as [[x r3]| |];
    try discriminate.
  destruct (starts "}" (skip_ws r3)); [intros [= <- _]; reflexivity|].
  destruct (starts "," (skip_ws r3)); [apply IH|discriminate].
Qed.

Lemma scan_once_brace (fuel : nat) (s : string) (v : value) (rest : string) :
  starts "{" s = true ->
  scan_once fuel s = Ok (v, rest) -> is_dict v = true.
Proof.
  intros Hs. rewrite (starts_inv _ _ Hs).
  destruct fuel as [|f]; simpl; [discriminate|].
  destruct (starts "}" (skip_ws (drop 1 s)));
    [intros [= <- _]; reflexivity|apply members_dict].
Qed.

(** Whatever [json.loads] decodes from a text that opens with a brace
    is a dict. *)
Lemma loads_brace (s : string) (v : value) :
  starts "{" s = true -> loads s = Return v -> is_dict v = true.
Proof.
  intros Hs. unfold loads.
  assert (skip_ws s = s) as ->.
  { rewrite (starts_inv _ _ Hs). reflexivity. }
  destruct (scan_once (fuel_for s) s) as [[x rest]| |] eqn:E;
    try discriminate.
  destruct (skip_ws rest); [|discriminate].
  intros [= <-]. exact (scan_once_brace _ _ _ _ Hs E).
Qed.

End JsonFacts.

(* ================================================================== *)
(** * Facts about the regular expressions                               *)
(* ================================================================== *)

Module ReFacts.

Import Text Re TextFacts.

(** A table row is a line that opens and closes with a pipe; group 1 is
    what lies between the two. *)
Lemma row_of_line_spec (line inner : string) :
  row_of_line line = Some inner <-> line = String "|" (inner ++ "|").
Proof.
  unfold row_of_line. split.
  - destruct (starts "|" line) eqn:Hs; [|discriminate].
    rewrite (starts_inv _ _ Hs) at 2.
    destruct (last_char (drop 1 line)) as [c|] eqn:Hl; [|discriminate].
    destruct (Ascii.eqb_spec c "|") as [->|]; [|discriminate].
    intros [= <-]. f_equal. apply last_char_chop, Hl.
  - intros ->. simpl. rewrite last_char_append, chop_append. reflexivity.
Qed.

Lemma rows_of_lines_in (lines : list string) (inner : string) :
  In inner (rows_of_lines lines) ->
  exists line, In line lines /\ row_of_line line = Some inner.
Proof.
  induction lines as [|l r IH]; cbn [rows_of_lines]; [contradiction|].
  destruct (row_of_line l) as [i|] eqn:E.
  - intros [<-|H].
    + exists l. split; [left; reflexivity|exact E].
    + destruct (IH H) as (line & Hin & Hr). exists line. split; [right|]; auto.
  - intros H. destruct (IH H) as (line & Hin & Hr).
    exists line. split; [right|]; auto.
Qed.

Lemma split_nonempty (sep : ascii) (s : string) : split sep s <> [].
Proof.
  destruct s as [|c r]; cbn [split]; [discriminate|].
  destruct (Ascii.eqb c sep); [discriminate|].
  destruct (split sep r); discriminate.
Qed.

(** Splitting a whole row line, outer pipes included, gives an empty
    cell at either end around the cells of group 1. *)
Lemma split_append_sep (sep : ascii) (s : string) :
  split sep (s ++ String sep "") = (split sep s ++ [""])%list.
Proof.
  induction s as [|c r IH]; cbn [append split].
  - rewrite Ascii.eqb_refl. reflexivity.
  - destruct (Ascii.eqb c sep); rewrite IH; [reflexivity|].
    destruct (split sep r) eqn:E; [|reflexivity].
    now apply split_nonempty in E.
Qed.

Lemma split_row_line (inner : string) :
  split "|" (String "|" (inner ++ "|")) = ("" :: split "|" inner ++ [""])%list.
Proof. cbn [split]. rewrite Ascii.eqb_refl, split_append_sep. reflexivity. Qed.

Lemma from_first_spec (c : ascii) (s t : string) :
  from_first c s = Some t ->
  exists pre, s = pre ++ t /\ has_char c pre = false /\ starts c t = true.
Proof.
  induction s as [|x r IH]; simpl; [discriminate|].
  destruct (Ascii.eqb x c) eqn:E.
  - intros [= <-]. exists "". simpl. rewrite E. auto.
  - intros H. destruct (IH H) as (pre & -> & Hp & Ht).
    exists (String x pre). simpl. rewrite E. auto.
Qed.

Lemma from_first_none (c : ascii) (s : string) :
  from_first c s = None <-> has_char c s = false.
Proof.
  induction s as [|x r IH]; simpl; [tauto|].
  destruct (Ascii.eqb x c); simpl; [split; discriminate|exact IH].
Qed.

Lemma from_first_append (c : ascii) (pre t : string) :
  has_char c pre = false -> starts c t = true ->
  from_first c (pre ++ t) = Some t.
Proof.
  intros Hp Ht. induction pre as [|x r IH]; simpl in *.
  - rewrite (starts_inv _ _ Ht). simpl. rewrite Ascii.eqb_refl. reflexivity.
  - apply orb_false_iff in Hp. destruct Hp as [-> Hp]. apply IH, Hp.
Qed.

Lemma upto_last_none (c : ascii) (s : string) :
  upto_last c s = None <-> has_char c s = false.
Proof.
  induction s as [|x r IH]; simpl; [tauto|].
  destruct (upto_last c r).
  - split; [discriminate|]. intros H. apply orb_false_iff in H.
    destruct H as [_ H]. apply IH in H. discriminate.
  - destruct (Ascii.eqb x c); simpl; [split; discriminate|].
    split; intros _; [apply IH|]; reflexivity.
Qed.

Lemma upto_last_spec (c : ascii) (t p : string) :
  upto_last c t = Some p ->
  exists post, t = p ++ post /\ has_char c post = false
               /\ last_char p = Some c.
Proof.
  revert p. induction t as [|x r IH]; simpl; intros p; [discriminate|].
  destruct (upto_last c r) as [q|] eqn:E.
  - intros [= <-]. destruct (IH q eq_refl) as (post & -> & Hp & Hl).
    exists post. repeat split; auto. simpl. destruct q; [discriminate|exact Hl].
  - destruct (Ascii.eqb_spec x c) as [->|]; [|discriminate].
    intros [= <-]. exists r. repeat split. apply upto_last_none, E.
Qed.

Lemma upto_last_append (c : ascii) (p post : string) :
  has_char c post = false ->
  upto_last c (p ++ String c post) = Some (p ++ String c "").
Proof.
  intros Hp. induction p as [|x r IH]; simpl.
  - apply upto_last_none in Hp. rewrite Hp, Ascii.eqb_refl. reflexivity.
  - rewrite IH. reflexivity.
Qed.

Lemma upto_last_starts (c x : ascii) (t p : string) :
  starts x t = true -> upto_last c t = Some p -> starts x p = true.
Proof.
  destruct t as [|y r]; simpl; [discriminate|].
  intros Hx. destruct (upto_last c r).
  - intros [= <-]. exact Hx.
  - destruct (Ascii.eqb y c); [|discriminate]. intros [= <-]. exact Hx.
Qed.

(** The brace span runs from the first opening brace of the text to its
    last closing brace. *)
Lemma search_braces_spec (s span : string) :
  search_braces s = Some span ->
  exists pre post,
    s = pre ++ span ++ post /\
    has_char "{" pre = false /\ has_char "}" post = false /\
    starts "{" span = true /\ last_char span = Some "}"%char.
Proof.
  unfold search_braces.
  destruct (from_first "{" s) as [t|] eqn:Ef; [|discriminate].
  intros Hu. destruct (from_first_spec _ _ _ Ef) as (pre & -> & Hpre & Ht).
  destruct (upto_last_spec _ _ _ Hu) as (post & -> & Hpost & Hl).
  exists pre, post. repeat split; auto.
  eapply upto_last_starts; eauto.
Qed.

Lemma search_braces_complete (pre mid post : string) :
  has_char "{" pre = false -> has_char "}" post = false ->
  search_braces (pre ++ String "{" (mid ++ String "}" post))
  = Some (String "{" (mid ++ "}")).
Proof.
  intros Hpre Hpost. unfold search_braces.
  rewrite from_first_append; [|exact Hpre|reflexivity].
  exact (upto_last_append "}" (String "{" mid) post Hpost).
Qed.

Lemma search_braces_starts (s span : string) :
  search_braces s = Some span -> starts "{" span = true.
Proof.
  intros H. destruct (search_braces_spec _ _ H) as (? & ? & ? & ? & ? & ? & ?).
  assumption.
Qed.

(** ** The fenced block *)

Lemma skip_letters_spec (s : string) :
  exists tag, s = tag ++ skip_letters s /\ all_letters tag = true.
Proof.
  induction s as [|c r (tag & IH & Ht)]; simpl.
  - exists "". auto.
  - destruct (is_ascii_letter c) eqn:E.
    + exists (String c tag). simpl. rewrite E, Ht. split; [congruence|auto].
    + exists "". auto.
Qed.

Lemma until_closing_spec (s body : string) :
  until_closing s = Some body ->
  exists post, s = body ++ closing ++ post.
Proof.
  revert body. induction s as [|c r IH]; intros body.
  - simpl. discriminate.
  - cbn [until_closing].
    destruct (startswith closing (String c r)) eqn:E.
    + intros [= <-]. apply startswith_inv in E. eexists. exact E.
    + destruct (until_closing r) as [b|]; [|discriminate].
      intros [= <-]. destruct (IH b eq_refl) as (post & ->).
      exists post. reflexivity.
Qed.

(** Group 1 stops at the first closing fence: none starts before its
    end. *)
Lemma until_closing_first (s body : string) :
  until_closing s = Some body ->
  forall n, (n < String.length body)%nat ->
            startswith closing (drop n s) = false.
Proof.
  revert body. induction s as [|c r IH]; intros body.
  - simpl. discriminate.
  - cbn [until_closing].
    destruct (startswith closing (String c r)) eqn:E.
    + intros [= <-] n Hn. simpl in Hn. lia.
    + destruct (until_closing r) as [b0|] eqn:Eu; [|discriminate].
      intros [= <-] [|n] Hn; [exact E|].
      simpl in Hn. cbn [drop]. apply (IH b0 eq_refl). lia.
Qed.

Lemma fence_here_spec (s body : string) :
  fence_here s = Some body ->
  exists tag post,
    s = fence ++ tag ++ String newline (body ++ closing ++ post) /\
    all_letters tag = true /\
    (forall n, (n < String.length body)%nat ->
               startswith closing (drop n (body ++ closing ++ post)) = false).
Proof.
  unfold fence_here. destruct (startswith fence s) eqn:E; [|discriminate].
  apply startswith_inv in E. cbn [String.length fence] in E.
  destruct (skip_letters_spec (drop 3 s)) as (tag & Ht & Hl).
  destruct (skip_letters (drop 3 s)) as [|c r]; [discriminate|].
  destruct (Ascii.eqb_spec c newline) as [->|]; [|discriminate].
  intros Hu. pose proof (until_closing_first _ _ Hu) as Hmin.
  destruct (until_closing_spec _ _ Hu) as (post & ->).
  exists tag, post. split; [|split; [exact Hl|exact Hmin]].
  rewrite E at 1. rewrite Ht at 1. reflexivity.
Qed.

(** The match found is a fenced block, and the leftmost one. *)
Lemma search_fence_spec (s body : string) :
  search_fence s = Some body ->
  exists pre tag post,
    s = pre ++ fence ++ tag ++ String newline (body ++ closing ++ post) /\
    all_letters tag = true /\
    (forall n, (n < String.length body)%nat ->
               startswith closing (drop n (body ++ closing ++ post)) = false) /\
    (forall n, (n < String.length pre)%nat -> fence_here (drop n s) = None).
Proof.
  induction s as [|c r IH].
  - simpl. unfold fence_here. simpl. discriminate.
  - cbn [search_fence]. destruct (fence_here (String c r)) as [b|] eqn:E.
    + intros [= ->].
      destruct (fence_here_spec _ _ E) as (tag & post & Hs & Hl & Hb).
      exists "", tag, post. repeat split; auto. simpl. intros n Hn. lia.
    + intros H. destruct (IH H) as (pre & tag & post & Hs & Hl & Hb & Hmin).
      exists (String c pre), tag, post. repeat split; auto.
      * simpl. f_equal. exact Hs.
      * intros [|n] Hn; [exact E|]. simpl in Hn. apply Hmin. lia.
Qed.

Lemma search_fence_none (s : string) :
  search_fence s = None ->
  forall n, fence_here (drop n s) = None.
Proof.
  induction s as [|c r IH].
  - intros _ n. destruct n; reflexivity.
  - cbn [search_fence]. destruct (fence_here (String c r)) eqn:E;
      [discriminate|].
    intros H [|n]; [exact E|]. simpl. apply IH, H.
Qed.

End ReFacts.

(* ================================================================== *)
(** * Facts about helper_func.py                                        *)
(* ================================================================== *)

Module HelperFacts.

Import Text Py Helper Spec TextFacts.
Local Open Scope py_scope.

(** ** extract_test_results *)

Lemma json_strategy_some (text : string) (v : value) :
  json_strategy text = Return (Some v) <->
  exists span, Re.search_braces text = Some span /\ Json.loads span = Return v.
Proof.
  unfold json_strategy. destruct (Re.search_braces text) as [span|].
  - destruct (Json.loads span) as [x|e] eqn:E; simpl.
    + split.
      * intros [= ->]. exists span. auto.
      * intros (s & [= <-] & H). congruence.
    + split.
      * destruct (is_JSONDecodeError e); discriminate.
      * intros (s & [= <-] & H). congruence.
  - split; [discriminate|]. intros (s & H & _). discriminate.
Qed.

Lemma json_strategy_dict (text : string) (v : value) :
  json_strategy text = Return (Some v) -> is_dict v = true.
Proof.
  intros H. apply json_strategy_some in H. destruct H as (span & Hs & Hl).
  eapply JsonFacts.loads_brace; [|exact Hl].
  eapply ReFacts.search_braces_starts, Hs.
Qed.

Lemma table_strategy_returns (text : string) :
  table_strategy text = Return None \/
  table_strategy text =
    Return (Some (VDict [("test_cases",
                          VList (table_cases (Re.findall_rows text)))])).
Proof.
  unfold table_strategy. destruct (_ && _); auto.
Qed.

(** The three ways out of [extract_test_results]. *)
Lemma extract_test_results_cases (x : response) :
  let text := text_of x in
  (exists v, json_strategy text = Return (Some v) /\
             extract_test_results x = Return v) \/
  (json_strategy text = Return None /\
   (3 <= List.length (Re.findall_rows text))%nat /\
   extract_test_results x =
     Return (VDict [("test_cases",
                     VList (table_cases (Re.findall_rows text)))])) \/
  ((forall v, json_strategy text <> Return (Some v)) /\
   extract_test_results x = Return (raw_output text)).
Proof.
  intros text. unfold extract_test_results. fold text.
  destruct (json_strategy text) as [[v|]|e] eqn:Ej; simpl.
  - left. exists v. auto.
  - unfold table_strategy.
    destruct (Nat.leb 3 (List.length (Re.findall_rows text))) eqn:E3.
    + apply Nat.leb_le in E3.
      destruct (Nat.eqb_spec (List.length (Re.findall_rows text)) 0);
        [lia|]. simpl.
      right. left. auto.
    + rewrite andb_false_r. simpl. right. right. split; [discriminate|auto].
  - right. right. split; [discriminate|auto].
Qed.

Lemma extract_test_results_dict (x : response) :
  exists entries, extract_test_results x = Return (VDict entries).
Proof.
  destruct (extract_test_results_cases x)
    as [(v & Hj & ->)|[(_ & _ & ->)|(_ & ->)]].
  - apply json_strategy_dict in Hj. destruct v; try discriminate. eauto.
  - eauto.
  - unfold raw_output. eauto.
Qed.

(** ** The dict comprehension is a zip *)

Lemma fold_past_values (headers values : list string) (k n : nat) (acc : dict) :
  (List.length values <= k)%nat ->
  fold_left
    (fun d j =>
       if Nat.ltb j (List.length values)
       then dict_set (nth j headers "") (VStr (nth j values "")) d
       else d)
    (seq k n) acc = acc.
Proof.
  revert k acc. induction n as [|n IH]; intros k acc Hk; simpl; [reflexivity|].
  destruct (Nat.ltb_spec k (List.length values)); [lia|].
  apply IH. lia.
Qed.

Lemma test_case_of_shift (ph pv hs vs : list string) (acc : dict) :
  List.length ph = List.length pv ->
  fold_left
    (fun d j =>
       if Nat.ltb j (List.length (pv ++ vs))
       then dict_set (nth j (ph ++ hs) "") (VStr (nth j (pv ++ vs) "")) d
       else d)
    (seq (List.length ph) (List.length hs)) acc
  = fold_left (fun d hv => dict_set (fst hv) (VStr (snd hv)) d)
              (combine hs vs) acc.
Proof.
  revert ph pv vs acc. induction hs as [|h hs IH]; intros ph pv vs acc Hl.
  - reflexivity.
  - destruct vs as [|v vs].
    + apply fold_past_values. rewrite List.app_nil_r. lia.
    + cbn [List.length seq fold_left combine fst snd].
      rewrite List.length_app. cbn [List.length].
      destruct (Nat.ltb_spec (List.length ph) (List.length pv + S (List.length vs)));
        [|lia].
      assert (nth (List.length ph) (ph ++ h :: hs) "" = h) as ->
        by apply nth_middle.
      assert (nth (List.length ph) (pv ++ v :: vs) "" = v) as ->
        by (rewrite Hl; apply nth_middle).
      specialize (IH (ph ++ [h])%list (pv ++ [v])%list vs
                     (dict_set h (VStr v) acc)).
      rewrite !List.length_app in IH. cbn [List.length] in IH.
      rewrite <- !List.app_assoc in IH. cbn [List.app] in IH.
      rewrite Nat.add_1_r in IH. rewrite <- IH by lia.
      replace (List.length pv + 1 + List.length vs)%nat
        with (List.length pv + S (List.length vs))%nat by lia.
      reflexivity.
Qed.

Lemma test_case_of_zip (headers values : list string) :
  test_case_of headers values = zip_case headers values.
Proof.
  exact (test_case_of_shift [] [] headers values [] eq_refl).
Qed.

(** ** has_failed_tests *)

Lemma status_like_nonempty (s : string) : status_like s = true -> s <> "".
Proof. intros H ->. discriminate. Qed.

Lemma lower_nonempty (s : string) : lower s <> "" -> s <> "".
Proof. intros H ->. now apply H. Qed.

Lemma status_like_char (c : ascii) : status_like (String c "") = false.
Proof.
  unfold status_like. cbn [contains startswith].
  rewrite !andb_false_r. reflexivity.
Qed.

Lemma first_status_key_chars (s : string) :
  first_status_key (chars s) = Return None.
Proof.
  induction s as [|c r IH]; [reflexivity|].
  cbn [chars first_status_key lower_of bind lower].
  rewrite status_like_char. exact IH.
Qed.

Lemma first_status_key_keys (entries : dict) :
  first_status_key (map VStr (dict_keys entries)) =
  Return (option_map (fun kv => VStr (fst kv)) (first_status_entry entries)).
Proof.
  unfold dict_keys, first_status_entry.
  induction entries as [|[k v] r IH]; [reflexivity|].
  cbn [map fst first_status_key lower_of bind find].
  destruct (status_like (lower k)); [reflexivity|exact IH].
Qed.

Lemma first_status_entry_get (entries : dict) (k : string) (v : value) :
  first_status_entry entries = Some (k, v) ->
  dict_get k entries = Some v /\ status_like (lower k) = true.
Proof.
  unfold first_status_entry.
  induction entries as [|[k0 v0] r IH]; [discriminate|].
  cbn [find fst dict_get].
  destruct (status_like (lower k0)) eqn:E.
  - intros [= <- <-]. rewrite String.eqb_refl. auto.
  - intros H. destruct (IH H) as [Hg Hs]. split; [|exact Hs].
    destruct (String.eqb_spec k k0) as [->|]; [congruence|exact Hg].
Qed.

Lemma check_case_dict (entries : dict) :
  check_case (VDict entries) =
  match first_status_entry entries with
  | Some (_, v) => l <- lower_of v ;; Return (failure_word l)
  | None => Return false
  end.
Proof.
  unfold check_case. cbn [iterate bind].
  rewrite first_status_key_keys. cbn [bind].
  destruct (first_status_entry entries) as [[k v]|] eqn:E; [|reflexivity].
  destruct (first_status_entry_get _ _ _ E) as [Hg Hs].
  cbn [option_map fst truthy_key key_text getitem].
  destruct (String.eqb_spec k "") as [->|_]; [discriminate|].
  cbn [negb]. rewrite Hg. reflexivity.
Qed.

Lemma check_case_str (s : string) : check_case (VStr s) = Return false.
Proof.
  unfold check_case. cbn [iterate bind]. rewrite first_status_key_chars.
  reflexivity.
Qed.

Lemma first_status_key_quiet (items : list value) :
  forallb quiet_item items = true -> first_status_key items = Return None.
Proof.
  induction items as [|x r IH]; [reflexivity|].
  cbn [forallb]. intros H. apply andb_true_iff in H. destruct H as [Hx Hr].
  destruct x; try discriminate. cbn [first_status_key lower_of bind].
  cbn [quiet_item] in Hx. apply negb_true_iff in Hx. rewrite Hx.
  apply IH, Hr.
Qed.

Lemma first_status_key_loud (items : list value) :
  forallb quiet_item items = false ->
  raises (first_status_key items) = true \/
  exists k, first_status_key items = Return (Some (VStr k)) /\ k <> "".
Proof.
  induction items as [|x r IH]; [discriminate|].
  cbn [forallb]. intros H. apply andb_false_iff in H.
  destruct x; try (left; reflexivity).
  cbn [first_status_key lower_of bind quiet_item] in *.
  destruct (status_like (lower s)) eqn:E.
  - right. exists s. split; [reflexivity|].
    apply lower_nonempty, status_like_nonempty, E.
  - destruct H as [H|H]; [discriminate|]. apply IH, H.
Qed.

Lemma check_case_list (items : list value) :
  if forallb quiet_item items
  then check_case (VList items) = Return false
  else raises (check_case (VList items)) = true.
Proof.
  unfold check_case. cbn [iterate bind].
  destruct (forallb quiet_item items) eqn:E.
  - rewrite (first_status_key_quiet _ E). reflexivity.
  - destruct (first_status_key_loud _ E) as [H|(k & -> & Hk)].
    + destruct (first_status_key items); [discriminate|reflexivity].
    + cbn [bind truthy_key]. destruct (String.eqb_spec k ""); [contradiction|].
      reflexivity.
Qed.

(** One case: it raises on the faulty cases and nowhere else, and
    otherwise tells whether the first status-like key fails. *)
Lemma check_case_spec (case : value) :
  if faulty_case case
  then raises (check_case case) = true
  else check_case case = Return (first_key_fails case).
Proof.
  destruct case as [| | | |s|items|entries]; cbn [faulty_case first_key_fails];
    try reflexivity.
  - apply check_case_str.
  - pose proof (check_case_list items) as H.
    destruct (forallb quiet_item items); exact H.
  - rewrite check_case_dict.
    destruct (first_status_entry entries) as [[k v]|]; [|reflexivity].
    destruct v; reflexivity.
Qed.

Lemma well_formed_not_faulty (case : value) :
  well_formed_case case = true -> faulty_case case = false.
Proof.
  destruct case as [| | | | | |entries]; try discriminate.
  cbn [well_formed_case faulty_case]. intros H.
  destruct (first_status_entry entries) as [[k v]|] eqn:E; [|reflexivity].
  unfold first_status_entry in E. apply find_some in E.
  destruct E as [Hin Hs]. rewrite forallb_forall in H.
  specialize (H _ Hin). cbn [fst snd] in *. rewrite Hs in H.
  cbn in H. rewrite H. reflexivity.
Qed.

(** Over cases none of which is faulty, the walk answers whether some
    case fails at its first status-like key. *)
Lemma scan_cases_sound (cases : list value) :
  forallb (fun c => negb (faulty_case c)) cases = true ->
  scan_cases cases = Return (existsb first_key_fails cases).
Proof.
  induction cases as [|c r IH]; [reflexivity|].
  cbn [forallb existsb scan_cases]. intros H.
  apply andb_true_iff in H. destruct H as [Hc Hr].
  pose proof (check_case_spec c) as Hs. apply negb_true_iff in Hc.
  rewrite Hc in Hs. rewrite Hs. cbn [bind].
  destruct (first_key_fails c); [reflexivity|]. apply IH, Hr.
Qed.

(** Whenever the walk returns, it answers whether some case fails at its
    first status-like key. *)
Lemma scan_cases_returns (cases : list value) (b : bool) :
  scan_cases cases = Return b -> b = existsb first_key_fails cases.
Proof.
  induction cases as [|c r IH]; cbn [scan_cases existsb].
  - intros [= <-]. reflexivity.
  - pose proof (check_case_spec c) as Hs.
    destruct (faulty_case c).
    + destruct (check_case c); [discriminate Hs|discriminate].
    + rewrite Hs. cbn [bind].
      destruct (first_key_fails c); [intros [= <-]; reflexivity|exact IH].
Qed.

(** A faulty case reached before any failing one makes the walk raise. *)
Lemma scan_cases_raises (pre post : list value) (c : value) :
  forallb (fun p => negb (faulty_case p) && negb (first_key_fails p)) pre = true ->
  faulty_case c = true ->
  raises (scan_cases (pre ++ c :: post)) = true.
Proof.
  intros Hpre Hc. induction pre as [|p r IH]; cbn [List.app scan_cases].
  - pose proof (check_case_spec c) as Hs. rewrite Hc in Hs.
    destruct (check_case c); [discriminate|reflexivity].
  - cbn [forallb] in Hpre. apply andb_true_iff in Hpre.
    destruct Hpre as [Hp Hr]. apply andb_true_iff in Hp.
    destruct Hp as [Hf Hk]. apply negb_true_iff in Hf, Hk.
    pose proof (check_case_spec p) as Hs. rewrite Hf in Hs.
    rewrite Hs, Hk. cbn [bind]. apply IH, Hr.
Qed.

(** The walk raises only at a faulty case. *)
Lemma scan_cases_raises_inv (cases : list value) :
  raises (scan_cases cases) = true -> existsb faulty_case cases = true.
Proof.
  induction cases as [|c r IH]; [discriminate|].
  cbn [scan_cases existsb]. pose proof (check_case_spec c) as Hs.
  destruct (faulty_case c); [reflexivity|]. rewrite Hs. cbn [bind orb].
  destruct (first_key_fails c); [discriminate|exact IH].
Qed.

Lemma has_failed_tests_cases (entries : dict) (cases : list value) :
  dict_get "test_cases" entries = Some (VList cases) ->
  has_failed_tests (VDict entries) =
  if failure_word (lower (str (VDict entries)))
  then hit <- scan_cases cases ;; Return hit
  else Return false.
Proof.
  intros H. unfold has_failed_tests.
  destruct (failure_word (lower (str (VDict entries)))); [|reflexivity].
  unfold dict_has. cbn [getitem]. rewrite H. cbn [bind iterate].
  destruct (scan_cases cases) as [[|]|]; reflexivity.
Qed.

(** A case that fails at its first status-like key has some status-like
    key that fails; the converse does not hold. *)
Lemma first_key_fails_some (case : value) :
  first_key_fails case = true -> some_key_fails case = true.
Proof.
  destruct case as [| | | | | |entries]; try discriminate.
  cbn [first_key_fails some_key_fails].
  destruct (first_status_entry entries) as [[k v]|] eqn:E; [|discriminate].
  destruct v; try discriminate. intros Hf.
  unfold first_status_entry in E. apply find_some in E. destruct E as [Hin Hs].
  apply existsb_exists. exists (k, VStr s). split; [exact Hin|].
  unfold entry_fails. cbn [fst snd] in *. rewrite Hs, Hf. reflexivity.
Qed.

Lemma has_failed_tests_returns (entries : dict) (cases : list value)
      (b : bool) :
  dict_get "test_cases" entries = Some (VList cases) ->
  has_failed_tests (VDict entries) = Return b ->
  b = failure_word (lower (str (VDict entries)))
      && existsb first_key_fails cases.
Proof.
  intros Hc. rewrite (has_failed_tests_cases _ _ Hc).
  destruct (failure_word (lower (str (VDict entries)))).
  - destruct (scan_cases cases) as [hit|] eqn:E; [|discriminate].
    cbn [bind andb]. intros [= <-]. apply scan_cases_returns, E.
  - intros [= <-]. reflexivity.
Qed.

(** Over well-formed cases [has_failed_tests] returns, and what. *)
Lemma has_failed_tests_well_formed (entries : dict) (cases : list value) :
  dict_get "test_cases" entries = Some (VList cases) ->
  forallb well_formed_case cases = true ->
  has_failed_tests (VDict entries) =
  Return (failure_word (lower (str (VDict entries)))
          && existsb first_key_fails cases).
Proof.
  intros Hc Hw. rewrite (has_failed_tests_cases _ _ Hc).
  destruct (failure_word (lower (str (VDict entries)))); [|reflexivity].
  rewrite scan_cases_sound; [reflexivity|].
  apply forallb_forall. intros c Hin. rewrite forallb_forall in Hw.
  rewrite (well_formed_not_faulty _ (Hw _ Hin)). reflexivity.
Qed.

(** Records that are no mapping, or have no [test_cases] entry, never
    make [has_failed_tests] raise. *)
Lemma has_failed_tests_other_shapes (record : value) :
  (forall entries, record = VDict entries ->
                   dict_has "test_cases" entries = false) ->
  exists b, has_failed_tests record = Return b.
Proof.
  intros H. unfold has_failed_tests.
  destruct (failure_word (lower (str record))); [|eauto].
  destruct record as [| | | | | |entries]; eauto.
  rewrite (H entries eq_refl). destruct (dict_has "raw_output" entries); eauto.
Qed.

(** The walk stops at the first case that is faulty or fails: it raises
    at a faulty one, returns True at a failing one, and returns False
    when there is none. *)
Lemma scan_cases_first (cases : list value) :
  match first_decisive cases with
  | Some c =>
      if faulty_case c then raises (scan_cases cases) = true
      else scan_cases cases = Return true
  | None => scan_cases cases = Return false
  end.
Proof.
  unfold first_decisive.
  induction cases as [|c r IH]; [reflexivity|].
  cbn [find scan_cases]. unfold decisive_case at 1.
  pose proof (check_case_spec c) as Hs.
  case_eq (faulty_case c); intros Ef; rewrite Ef in Hs; cbn [orb].
  - rewrite Ef. destruct (check_case c); [discriminate Hs|reflexivity].
  - rewrite Hs. cbn [bind].
    case_eq (first_key_fails c); intros Ek; [rewrite Ef; reflexivity|].
    exact IH.
Qed.

Lemma first_decisive_split (cases : list value) (c : value) :
  first_decisive cases = Some c ->
  exists pre post,
    cases = (pre ++ c :: post)%list /\
    forallb (fun p => negb (faulty_case p) && negb (first_key_fails p)) pre
    = true /\
    decisive_case c = true.
Proof.
  unfold first_decisive.
  induction cases as [|x r IH]; cbn [find]; [discriminate|].
  destruct (decisive_case x) eqn:Ex.
  - intros [= ->]. exists [], r. auto.
  - intros H. destruct (IH H) as (pre & post & -> & Hpre & Hc).
    exists (x :: pre), post. repeat split; auto.
    cbn [forallb]. rewrite Hpre, andb_true_r.
    unfold decisive_case in Ex. apply orb_false_iff in Ex.
    destruct Ex as [-> ->]. reflexivity.
Qed.

(** [has_failed_tests] on a record with a list of cases, in full. *)
Lemma has_failed_tests_first (entries : dict) (cases : list value) :
  dict_get "test_cases" entries = Some (VList cases) ->
  if failure_word (lower (str (VDict entries))) then
    match first_decisive cases with
    | Some c =>
        if faulty_case c
        then raises (has_failed_tests (VDict entries)) = true
        else has_failed_tests (VDict entries) = Return true
    | None => has_failed_tests (VDict entries) = Return false
    end
  else has_failed_tests (VDict entries) = Return false.
Proof.
  intros Hc. rewrite (has_failed_tests_cases _ _ Hc).
  destruct (failure_word (lower (str (VDict entries)))); [|reflexivity].
  pose proof (scan_cases_first cases) as Hs.
  destruct (first_decisive cases) as [c|].
  - destruct (faulty_case c).
    + destruct (scan_cases cases); [discriminate Hs|reflexivity].
    + rewrite Hs. reflexivity.
  - rewrite Hs. reflexivity.
Qed.

End HelperFacts.

(* ================================================================== *)
(** * Facts about prompts.py                                            *)
(* ================================================================== *)

Module LoopFacts.

Import Text Py Helper Prompts Spec HelperFacts.

Lemma dict_get_set_same (k : string) (v : value) (d : dict) :
  dict_get k (dict_set k v d) = Some v.
Proof.
  induction d as [|[k0 v0] r IH]; cbn [dict_set dict_get].
  - rewrite String.eqb_refl. reflexivity.
  - destruct (String.eqb_spec k k0) as [->|Hn]; cbn [dict_get].
    + rewrite String.eqb_refl. reflexivity.
    + destruct (String.eqb_spec k k0); [contradiction|exact IH].
Qed.

Lemma dict_get_set_other (k k' : string) (v : value) (d : dict) :
  k <> k' -> dict_get k (dict_set k' v d) = dict_get k d.
Proof.
  intros Hn. induction d as [|[k0 v0] r IH]; cbn [dict_set dict_get].
  - destruct (String.eqb_spec k k'); [contradiction|reflexivity].
  - destruct (String.eqb_spec k' k0) as [->|]; cbn [dict_get].
    + destruct (String.eqb_spec k k0); [contradiction|reflexivity].
    + destruct (String.eqb_spec k k0); [reflexivity|exact IH].
Qed.

Lemma verdict_inv (answer : response) (b : result bool) :
  verdict answer = b ->
  exists entries,
    extract_test_results (Plain (response_text answer)) = Return (VDict entries)
    /\ has_failed_tests (VDict entries) = b.
Proof.
  unfold verdict.
  destruct (extract_test_results_dict (Plain (response_text answer)))
    as [entries ->].
  intros <-. exists entries. auto.
Qed.

Section Loop.

Variable St : Type.
Variable respond : St -> string -> result response * St.

#[local] Abbreviation cycle := (cycle St respond).
#[local] Abbreviation while_loop := (while_loop St respond).
#[local] Abbreviation run_loop := (run_loop St respond).
#[local] Abbreviation state := (loop_state St).

Ltac run_cycle :=
  unfold Prompts.cycle, analyze_and_fix_code;
  unfold bindM, try_exceptM, modify, gets, call_model, lift,
    assign_final, ret, set_iteration, set_final, set_pass, set_code;
  cbn [current_code iteration all_tests_pass final_test_results
       model_state calls].

(** ** The five ways through one turn *)

Lemma cycle_model_raises (prompt : string) (st : state) (d0 : dict)
      (e : exn) (ms1 : St) :
  final_test_results st = VDict d0 ->
  respond (model_state st) (full_prompt prompt (current_code st))
    = (Raise e, ms1) ->
  cycle prompt st =
    (Return true,
     mk_loop_state St (current_code st) (iteration st + 1)
       (all_tests_pass st) (with_error e d0) ms1
       (calls st ++ [full_prompt prompt (current_code st)])).
Proof.
  intros Hd Hr. run_cycle. rewrite Hr, Hd. reflexivity.
Qed.

Lemma cycle_success (prompt : string) (st : state) (answer : response)
      (ms1 : St) (entries : dict) :
  respond (model_state st) (full_prompt prompt (current_code st))
    = (Return answer, ms1) ->
  extract_test_results (Plain (response_text answer)) = Return (VDict entries) ->
  has_failed_tests (VDict entries) = Return false ->
  cycle prompt st =
    (Return false,
     mk_loop_state St (current_code st) (iteration st + 1) true
       (with_status "complete_success" entries) ms1
       (calls st ++ [full_prompt prompt (current_code st)])).
Proof.
  intros Hr He Hf. run_cycle. rewrite Hr, He.
  cbn [current_code iteration all_tests_pass final_test_results
       model_state calls].
  rewrite Hf. reflexivity.
Qed.

Lemma cycle_verdict_raises (prompt : string) (st : state) (answer : response)
      (ms1 : St) (entries : dict) (e : exn) :
  respond (model_state st) (full_prompt prompt (current_code st))
    = (Return answer, ms1) ->
  extract_test_results (Plain (response_text answer)) = Return (VDict entries) ->
  has_failed_tests (VDict entries) = Raise e ->
  cycle prompt st =
    (Return true,
     mk_loop_state St (current_code st) (iteration st + 1)
       (all_tests_pass st) (with_error e entries) ms1
       (calls st ++ [full_prompt prompt (current_code st)])).
Proof.
  intros Hr He Hf. run_cycle. rewrite Hr, He.
  cbn [current_code iteration all_tests_pass final_test_results
       model_state calls].
  rewrite Hf. reflexivity.
Qed.

Lemma cycle_repair_raises (prompt : string) (st : state) (answer : response)
      (ms1 ms2 : St) (entries : dict) (e : exn) :
  respond (model_state st) (full_prompt prompt (current_code st))
    = (Return answer, ms1) ->
  extract_test_results (Plain (response_text answer)) = Return (VDict entries) ->
  has_failed_tests (VDict entries) = Return true ->
  respond ms1 (fix_prompt (current_code st) (VDict entries) prompt)
    = (Raise e, ms2) ->
  cycle prompt st =
    (Return true,
     mk_loop_state St (current_code st) (iteration st + 1)
       (all_tests_pass st) (with_error e entries) ms2
       (calls st ++ [full_prompt prompt (current_code st);
                     fix_prompt (current_code st) (VDict entries) prompt])).
Proof.
  intros Hr He Hf Hr2. run_cycle. rewrite Hr, He.
  cbn [current_code iteration all_tests_pass final_test_results
       model_state calls].
  rewrite Hf. cbn [negb is_dict].
  cbn [current_code iteration all_tests_pass final_test_results
       model_state calls].
  rewrite Hr2. rewrite <- List.app_assoc. reflexivity.
Qed.

Lemma cycle_repaired (prompt : string) (st : state) (answer repair : response)
      (ms1 ms2 : St) (entries : dict) :
  respond (model_state st) (full_prompt prompt (current_code st))
    = (Return answer, ms1) ->
  extract_test_results (Plain (response_text answer)) = Return (VDict entries) ->
  has_failed_tests (VDict entries) = Return true ->
  respond ms1 (fix_prompt (current_code st) (VDict entries) prompt)
    = (Return repair, ms2) ->
  cycle prompt st =
    (Return false,
     mk_loop_state St (code_extractor (Plain (response_text repair)))
       (iteration st + 1) (all_tests_pass st) (VDict entries) ms2
       (calls st ++ [full_prompt prompt (current_code st);
                     fix_prompt (current_code st) (VDict entries) prompt])).
Proof.
  intros Hr He Hf Hr2. run_cycle. rewrite Hr, He.
  cbn [current_code iteration all_tests_pass final_test_results
       model_state calls].
  rewrite Hf. cbn [negb is_dict].
  cbn [current_code iteration all_tests_pass final_test_results
       model_state calls].
  rewrite Hr2. rewrite <- List.app_assoc. reflexivity.
Qed.

(** ** Every turn ends, keeps the record a dict and counts one *)

Lemma cycle_total (prompt : string) (st : state) :
  is_dict (final_test_results st) = true ->
  exists b st',
    cycle prompt st = (Return b, st') /\
    is_dict (final_test_results st') = true /\
    iteration st' = iteration st + 1 /\
    (List.length (calls st) < List.length (calls st')
     <= List.length (calls st) + 2)%nat.
Proof.
  intros Hd. destruct (final_test_results st) as [| | | | | |d0] eqn:Ed;
    try discriminate.
  destruct (respond (model_state st) (full_prompt prompt (current_code st)))
    as [[answer|e] ms1] eqn:Hr.
  2:{ rewrite (cycle_model_raises _ _ _ _ _ Ed Hr). do 2 eexists.
      repeat split; cbn [calls]; rewrite List.length_app; cbn; lia. }
  destruct (extract_test_results_dict (Plain (response_text answer)))
    as [entries He].
  destruct (has_failed_tests (VDict entries)) as [[|]|e] eqn:Hf.
  - destruct (respond ms1 (fix_prompt (current_code st) (VDict entries) prompt))
      as [[repair|e] ms2] eqn:Hr2.
    + rewrite (cycle_repaired _ _ _ _ _ _ _ Hr He Hf Hr2). do 2 eexists.
      repeat split; cbn [calls]; rewrite List.length_app; cbn; lia.
    + rewrite (cycle_repair_raises _ _ _ _ _ _ _ Hr He Hf Hr2). do 2 eexists.
      repeat split; cbn [calls]; rewrite List.length_app; cbn; lia.
  - rewrite (cycle_success _ _ _ _ _ Hr He Hf). do 2 eexists.
    repeat split; cbn [calls]; rewrite List.length_app; cbn; lia.
  - rewrite (cycle_verdict_raises _ _ _ _ _ _ Hr He Hf). do 2 eexists.
    repeat split; cbn [calls]; rewrite List.length_app; cbn; lia.
Qed.

(** ** The loop *)

(** Turns still allowed by the cap. *)
#[local] Abbreviation turns_left max st := (Z.to_nat (max - iteration st)).

(** Fuel beyond the turns the cap allows changes nothing: the loop never
    stops for lack of fuel. *)
Lemma while_loop_fuel (prompt : string) (max : Z) (fuel : nat) :
  forall st : state,
    is_dict (final_test_results st) = true ->
    (turns_left max st <= fuel)%nat ->
    while_loop fuel prompt max st
    = while_loop (turns_left max st) prompt max st.
Proof.
  induction fuel as [|f IH]; intros st Hd Hf.
  - replace (turns_left max st) with 0%nat by lia. reflexivity.
  - destruct (turns_left max st) as [|n] eqn:En.
    + cbn [Prompts.while_loop].
      destruct (iteration st <? max) eqn:El; [apply Z.ltb_lt in El; lia|].
      rewrite andb_false_r. reflexivity.
    + cbn [Prompts.while_loop].
      destruct (negb (all_tests_pass st) && (iteration st <? max));
        [|reflexivity].
      destruct (cycle_total prompt st Hd) as (b & st' & -> & Hd' & Hi & _).
      destruct b; [reflexivity|].
      assert (turns_left max st' = n) as Hn by lia.
      rewrite (IH st' Hd') by lia. rewrite Hn. reflexivity.
Qed.

(** The loop always ends, with a dict for record, after at most the
    turns the cap allows. *)
Lemma while_loop_total (prompt : string) (max : Z) (fuel : nat) :
  forall st : state,
    is_dict (final_test_results st) = true ->
    exists st',
      while_loop fuel prompt max st = (Return tt, st') /\
      is_dict (final_test_results st') = true /\
      iteration st <= iteration st' <= Z.max (iteration st) max /\
      (List.length (calls st')
       <= List.length (calls st)
          + 2 * Z.to_nat (iteration st' - iteration st))%nat.
Proof.
  induction fuel as [|f IH]; intros st Hd; cbn [Prompts.while_loop].
  - exists st. destruct (_ && _); repeat split; auto; lia.
  - destruct (negb (all_tests_pass st) && (iteration st <? max)) eqn:Ec.
    2:{ exists st. repeat split; auto; lia. }
    apply andb_true_iff in Ec. destruct Ec as [_ El]. apply Z.ltb_lt in El.
    destruct (cycle_total prompt st Hd) as (b & st' & -> & Hd' & Hi & Hc).
    destruct b.
    + exists st'. repeat split; auto; lia.
    + destruct (IH st' Hd') as (st'' & -> & Hd'' & [Hlo Hhi] & Hc').
      exists st''. repeat split; auto; lia.
Qed.

Lemma run_loop_eq (prompt : string) (max : Z) (st0 st' : state) (d : dict) :
  while_loop (Z.to_nat max) prompt max st0 = (Return tt, st') ->
  final_test_results st' = VDict d ->
  run_loop prompt max st0 =
    (Return tt,
     if negb (all_tests_pass st') && (max <=? iteration st')
     then set_final St (with_status "max_iterations_reached" d) st'
     else st').
Proof.
  intros Hw Hd. unfold Prompts.run_loop, bindM, gets. rewrite Hw.
  destruct (negb (all_tests_pass st') && (max <=? iteration st'));
    [|reflexivity].
  unfold assign_final. rewrite Hd. reflexivity.
Qed.

(** The run up to the final check always ends, with a dict for record,
    after at most [max] turns, none when [max] is negative. *)
Lemma run_loop_total (code prompt : string) (max : Z) (ms : St) :
  exists st,
    run_loop prompt max (initial St code ms) = (Return tt, st) /\
    is_dict (final_test_results st) = true /\
    0 <= iteration st <= Z.max 0 max /\
    (List.length (calls st) <= 2 * Z.to_nat (iteration st))%nat.
Proof.
  destruct (while_loop_total prompt max (Z.to_nat max) (initial St code ms)
              eq_refl) as (st' & Hw & Hd & Hi & Hc).
  destruct (final_test_results st') as [| | | | | |d] eqn:Ed; try discriminate.
  rewrite (run_loop_eq _ _ _ _ _ Hw Ed). eexists. split; [reflexivity|].
  cbn [iteration initial calls List.length] in Hi, Hc.
  rewrite Z.sub_0_r in Hc.
  destruct (_ && _); cbn [set_final final_test_results iteration calls];
    rewrite ?Ed; auto.
Qed.

(** ** A model that raises at its first call *)

(** The record comes back with the error message, and with status
    [error] unless the cap is 1: then the first cycle is also the last,
    and the test after the loop puts [max_iterations_reached] in its
    place. *)
Lemma run_first_call_raises (code prompt : string) (max : Z) (ms ms1 : St)
      (e : exn) :
  respond ms (full_prompt prompt code) = (Raise e, ms1) ->
  1 <= max ->
  test_case_gen_checker St respond code prompt max ms =
    Return (code,
            VDict [("test_cases", VList []);
                   ("status",
                    VStr (if max =? 1 then "max_iterations_reached"
                          else "error"));
                   ("error_message", VStr (exn_msg e))]).
Proof.
  intros Hr Hmax. unfold test_case_gen_checker.
  erewrite run_loop_eq.
  2:{ destruct (Z.to_nat max) as [|f] eqn:Ef; [lia|].
      cbn [Prompts.while_loop initial all_tests_pass iteration negb andb].
      destruct (0 <? max) eqn:El; [|apply Z.ltb_ge in El; lia].
      rewrite (cycle_model_raises prompt (initial St code ms) _ e ms1
                 eq_refl Hr).
      reflexivity. }
  2:{ reflexivity. }
  cbn [all_tests_pass iteration initial negb andb Z.add].
  destruct (Z.eqb_spec max 1) as [->|Hn].
  - reflexivity.
  - destruct (Z.leb_spec max 1); [lia|]. reflexivity.
Qed.

(** ** A model that always reports a failure *)


(** ** A model that always reports success *)

Lemma run_loop_passing (code prompt : string) (max : Z) (ms : St) :
  always_reports_success St respond ->
  1 <= max ->
  exists answer ms1 entries,
    respond ms (full_prompt prompt code) = (Return answer, ms1) /\
    extract_test_results (Plain (response_text answer))
      = Return (VDict entries) /\
    run_loop prompt max (initial St code ms) =
      (Return tt,
       mk_loop_state St code 1 true
         (with_status "complete_success" entries) ms1
         [full_prompt prompt code]).
Proof.
  intros Hs Hmax.
  destruct (Hs ms (full_prompt prompt code)) as (answer & ms1 & Hr & Hv).
  destruct (verdict_inv _ _ Hv) as (entries & He & Hft).
  exists answer, ms1, entries. repeat split; auto.
  eapply eq_trans; [eapply run_loop_eq with (d := dict_set _ _ entries)|].
  - destruct (Z.to_nat max) as [|f] eqn:Ef; [lia|].
    cbn [Prompts.while_loop]. cbn [initial all_tests_pass iteration negb andb].
    destruct (0 <? max) eqn:El; [|apply Z.ltb_ge in El; lia].
    rewrite (cycle_success prompt (initial St code ms) answer ms1 entries
               Hr He Hft).
    destruct f; reflexivity.
  - reflexivity.
  - reflexivity.
Qed.

End Loop.

End LoopFacts.

(* ================================================================== *)
(** * The properties of the specification                               *)
(* ================================================================== *)

Import Text Py Helper Prompts Spec.
Import TextFacts ReFacts HelperFacts LoopFacts.

(** ** C1: an exception in the last allowed cycle *)

(** C1 (the code departs from the claim).  The claim: whenever a model
    call raises, the returned status is [error], never
    [max_iterations_reached].  The code: when the raise happens in the
    last cycle the cap allows, the check after the loop overwrites
    [error] with [max_iterations_reached]; the [error_message] stays.
    For every model whose first call raises: with a cap of 1 the status
    comes back as [max_iterations_reached], with a larger cap as [error].
    With the default cap of 3, a raise in the third cycle comes back as
    [max_iterations_reached], a raise in the second as [error]. *)
Theorem C1_error_status_overwritten_at_cap :
  (forall (St : Type) (respond : St -> string -> result response * St)
          (code prompt : string) (max_iterations : Z) (ms ms1 : St) (e : exn),
     respond ms (full_prompt prompt code) = (Raise e, ms1) ->
     1 <= max_iterations ->
     test_case_gen_checker St respond code prompt max_iterations ms =
       Return (code,
               VDict [("test_cases", VList []);
                      ("status",
                       VStr (if max_iterations =? 1
                             then "max_iterations_reached" else "error"));
                      ("error_message", VStr (exn_msg e))]))
  /\ test_case_gen_checker nat raising_model "code" "problem" 1 0%nat
     = Return ("code",
               VDict [("test_cases", VList []);
                      ("status", VStr "max_iterations_reached");
                      ("error_message", VStr "boom")])
  /\ (exists code record,
        test_case_gen_checker nat (failing_then_raising 4)
          "code" "problem" 3 0%nat = Return (code, record) /\
        iteration (final_state nat (failing_then_raising 4)
                     "code" "problem" 3 0%nat) = 3 /\
        status_of record = Some (VStr "max_iterations_reached") /\
        entry_of "error_message" record = Some (VStr "boom"))
  /\ (exists code record,
        test_case_gen_checker nat (failing_then_raising 2)
          "code" "problem" 3 0%nat = Return (code, record) /\
        iteration (final_state nat (failing_then_raising 2)
                     "code" "problem" 3 0%nat) = 2 /\
        status_of record = Some (VStr "error") /\
        entry_of "error_message" record = Some (VStr "boom")).
Proof.
  split; [exact run_first_call_raises|].
  split; [vm_compute; reflexivity|].
  split; do 2 eexists; vm_compute; repeat split; reflexivity.
Qed.

Lemma C1_error_status_overwritten_at_cap_witness :
  test_case_gen_checker nat raising_model "def f(): pass" "add two numbers"
                        1 7%nat
  = Return ("def f(): pass",
            VDict [("test_cases", VList []);
                   ("status", VStr "max_iterations_reached");
                   ("error_message", VStr "boom")]).
Proof.
  apply (proj1 C1_error_status_overwritten_at_cap nat raising_model
           "def f(): pass" "add two numbers" 1 7%nat 8%nat boom).
  - reflexivity.
  - lia.
Defined.

(** ** C2: the header list of a markdown table *)

(** C2, as stated, fails: on the table of the specification the header
    list is [name; status], with no empty string at either end. *)
Lemma C2_counterexample :
  table_headers (Re.findall_rows sample_table) = ["name"; "status"] /\
  ~ (nth 0 (table_headers (Re.findall_rows sample_table)) "?" = "" /\
     last (table_headers (Re.findall_rows sample_table)) "?" = "").
Proof.
  split; [vm_compute; reflexivity|].
  vm_compute. intros [H _]. discriminate.
Qed.

(** C2 (amended).  For an input on whose text the JSON strategy finds
    no object and that has at least three table rows: the header row comes
    from a line of the text that opens and closes with a pipe, and the
    header list is the trimmed cells strictly between those two pipes;
    cutting the whole line at the pipes would put one empty cell before
    and one after them, and these two are not part of the list.  The
    result is [test_cases] with, for every row after the second, the
    headers zipped by position with the cells of the row. *)
Theorem C2_headers_between_outer_pipes (x : response) :
  let text := text_of x in
  let rows := Re.findall_rows text in
  json_strategy text = Return None ->
  (3 <= List.length rows)%nat ->
  exists line,
    In line (split newline text) /\
    line = String "|" (nth 0 rows "" ++ "|") /\
    cells line = ("" :: table_headers rows ++ [""])%list /\
    extract_test_results x =
      Return (VDict [("test_cases",
                      VList (map (fun row =>
                                    VDict (zip_case (table_headers rows)
                                                    (cells row)))
                                 (skipn 2 rows)))]).
Proof.
  intros text rows Hj H3. subst rows text.
  set (text := text_of x) in *. set (rows := Re.findall_rows text) in *.
  assert (In (nth 0 rows "") (Re.rows_of_lines (split newline text))) as Hin.
  { apply nth_In. fold (Re.findall_rows text). fold rows. lia. }
  destruct (rows_of_lines_in _ _ Hin) as (line & Hl & Hr).
  apply row_of_line_spec in Hr. exists line. repeat split; auto.
  - rewrite Hr. unfold cells, table_headers, cells.
    rewrite split_row_line. cbn [map]. rewrite map_app. reflexivity.
  - unfold extract_test_results. fold text. rewrite Hj.
    cbn [bind try_except]. unfold table_strategy. fold rows.
    destruct (Nat.eqb_spec (List.length rows) 0); [lia|].
    destruct (Nat.leb_spec 3 (List.length rows)); [|lia].
    cbn [negb andb bind try_except]. unfold table_cases. do 5 f_equal.
    apply map_ext. intros row. rewrite test_case_of_zip. reflexivity.
Qed.

Lemma C2_headers_between_outer_pipes_witness :
  exists line,
    In line (split newline sample_table) /\
    line = String "|" (nth 0 (Re.findall_rows sample_table) "" ++ "|") /\
    cells line
    = ("" :: table_headers (Re.findall_rows sample_table) ++ [""])%list /\
    extract_test_results (Plain (VStr sample_table)) =
      Return (VDict [("test_cases",
                      VList [VDict [("name", VStr "t1");
                                    ("status", VStr "FAIL")]])]).
Proof.
  apply (C2_headers_between_outer_pipes (Plain (VStr sample_table))).
  - vm_compute. reflexivity.
  - vm_compute. lia.
Defined.

(** ** C3: the iteration cap *)


Lemma failing_model_always_fails (prompt : string) :
  always_reports_failure nat failing_model prompt.
Proof.
  split.
  - intros ms code. exists failing_answer, (S ms). split; [reflexivity|].
    vm_compute. reflexivity.
  - intros ms code record. exists failing_answer, (S ms). reflexivity.
Qed.


(** ** C4: which key decides a case *)

(** C4, as stated, fails: in the sample the case has a key [passed]
    whose value holds [fail], and the rendering holds [fail], yet
    [has_failed_tests] answers False: it reads the first status-like key
    only, [status], whose value is [PASS]. *)
Lemma C4_counterexample :
  claimed_has_failed sample_two_keys
    [VDict [("status", VStr "PASS"); ("passed", VStr "fail")]] = true /\
  has_failed_tests sample_two_keys = Return false.
Proof. split; vm_compute; reflexivity. Qed.

(** C4 (amended).  For every record that is a mapping with a
    [test_cases] list: whenever [has_failed_tests] returns, it returns
    True exactly when the lower-case rendering of the record holds [fail]
    or [error] and some case has, under its first key that holds [status]
    or [pass], a value that holds [fail] or [error]; and it does return
    when the cases are mappings with strings under their status-like
    keys.  Of the claim as stated one half stays: when True is returned,
    the rendering and some status-like key of some case hold a failure
    word. *)
Theorem C4_first_status_key_decides (entries : dict) (cases : list value) :
  dict_get "test_cases" entries = Some (VList cases) ->
  (forall b : bool,
     has_failed_tests (VDict entries) = Return b ->
     b = failure_word (lower (str (VDict entries)))
         && existsb first_key_fails cases) /\
  (forallb well_formed_case cases = true ->
   has_failed_tests (VDict entries) =
     Return (failure_word (lower (str (VDict entries)))
             && existsb first_key_fails cases)) /\
  (has_failed_tests (VDict entries) = Return true ->
   claimed_has_failed (VDict entries) cases = true).
Proof.
  intros Hc. split; [|split].
  - intros b. apply has_failed_tests_returns, Hc.
  - apply has_failed_tests_well_formed, Hc.
  - intros H. apply (has_failed_tests_returns _ _ _ Hc) in H.
    unfold claimed_has_failed. symmetry in H.
    apply andb_true_iff in H. destruct H as [Hw H].
    apply andb_true_iff. split; [exact Hw|].
    apply existsb_exists in H. destruct H as (c & Hin & Hf).
    apply existsb_exists. exists c. split; [exact Hin|].
    apply first_key_fails_some, Hf.
Qed.

Lemma C4_first_status_key_decides_witness :
  has_failed_tests sample_two_keys = Return false /\
  has_failed_tests
    (VDict [("test_cases",
             VList [VDict [("name", VStr "t1"); ("Status", VStr "Failed")]])])
  = Return true.
Proof.
  split.
  - apply (proj1 (proj2 (C4_first_status_key_decides
             [("test_cases",
               VList [VDict [("status", VStr "PASS");
                             ("passed", VStr "fail")]])]
             [VDict [("status", VStr "PASS"); ("passed", VStr "fail")]]
             eq_refl)) eq_refl).
  - apply (proj1 (proj2 (C4_first_status_key_decides
             [("test_cases",
               VList [VDict [("name", VStr "t1");
                             ("Status", VStr "Failed")]])]
             [VDict [("name", VStr "t1"); ("Status", VStr "Failed")]]
             eq_refl)) eq_refl).
Defined.

(** ** C5: the JSON strategy comes first *)

(** C5.  The brace span runs from the first opening brace of the text
    to its last closing brace; when [json.loads] decodes exactly that
    span, the decoded value is returned as it is, whatever table rows the
    text may hold.  On the sample of the specification the decoded
    object is returned. *)
Theorem C5_json_object_returned_first
        (x : response) (span : string) (v : value) :
  Re.search_braces (text_of x) = Some span ->
  Json.loads span = Return v ->
  (exists pre post,
     text_of x = pre ++ span ++ post /\
     has_char "{" pre = false /\ has_char "}" post = false /\
     starts "{" span = true /\ last_char span = Some "}"%char) /\
  json_strategy (text_of x) = Return (Some v) /\
  extract_test_results x = Return v.
Proof.
  intros Hs Hl. split; [apply search_braces_spec, Hs|].
  assert (json_strategy (text_of x) = Return (Some v)) as Hj
    by (apply json_strategy_some; eauto).
  split; [exact Hj|].
  unfold extract_test_results. rewrite Hj. reflexivity.
Qed.

Lemma C5_json_object_returned_first_witness :
  Re.search_braces sample_json_text
  = Some (dq "{'test_cases': [{'status': 'PASS'}]}") /\
  Json.loads (dq "{'test_cases': [{'status': 'PASS'}]}")
  = Return sample_json_record /\
  extract_test_results (Plain (VStr sample_json_text))
  = Return sample_json_record.
Proof.
  assert (Re.search_braces (text_of (Plain (VStr sample_json_text)))
          = Some (dq "{'test_cases': [{'status': 'PASS'}]}")) as Hs
    by (vm_compute; reflexivity).
  assert (Json.loads (dq "{'test_cases': [{'status': 'PASS'}]}")
          = Return sample_json_record) as Hl by (vm_compute; reflexivity).
  split; [exact Hs|]. split; [exact Hl|].
  exact (proj2 (proj2 (C5_json_object_returned_first _ _ _ Hs Hl))).
Defined.

(** ** C6: extraction never raises *)




(** ** C7: the code artifact *)

(** C7, as stated, fails: the sample is not empty, not even blank, and
    holds a fenced block with nothing in it; the artifact is the empty
    string. *)
Lemma C7_counterexample :
  sample_empty_block <> "" /\
  all_space sample_empty_block = false /\
  code_extractor (Plain (VStr sample_empty_block)) = "".
Proof. repeat split; [discriminate|vm_compute; reflexivity..]. Qed.

(** C7 (amended).  The artifact is the trimmed contents of the leftmost
    fenced block when the text has one (three backticks, letters or
    nothing, a newline, the contents up to the first newline followed by
    three backticks: no such closing starts inside the contents, and no
    block starts further left), and the whole trimmed text otherwise.  It
    is empty exactly when those contents, or that whole text, are blank;
    an empty input is one such case. *)
Theorem C7_code_artifact (x : response) :
  let text := text_of x in
  (forall body,
     Re.search_fence text = Some body ->
     code_extractor x = strip body /\
     exists pre tag post,
       text = pre ++ "```" ++ tag ++ nl ++ body ++ nl ++ "```" ++ post /\
       all_letters tag = true /\
       (forall n, (n < String.length body)%nat ->
                  startswith (nl ++ "```")
                             (drop n (body ++ nl ++ "```" ++ post)) = false) /\
       (forall n, (n < String.length pre)%nat ->
                  Re.fence_here (drop n text) = None)) /\
  (Re.search_fence text = None -> code_extractor x = strip text) /\
  (code_extractor x = "" <->
   all_space (match Re.search_fence text with
              | Some body => body
              | None => text
              end) = true).
Proof.
  intros text. unfold code_extractor. fold text. split; [|split].
  - intros body Hs. rewrite Hs. split; [reflexivity|].
    destruct (search_fence_spec _ _ Hs) as (pre & tag & post & Ht & Hl & Hb & Hm).
    exists pre, tag, post. repeat split; auto.
  - intros ->. reflexivity.
  - destruct (Re.search_fence text); apply strip_empty_iff.
Qed.

Lemma C7_code_artifact_witness :
  code_extractor
    (Plain (VStr ("here:" ++ nl ++ "```python" ++ nl ++ "print(1)" ++ nl
                          ++ "```" ++ nl ++ "done")))
  = "print(1)" /\
  code_extractor (Plain (VStr "  x = 1  ")) = "x = 1" /\
  code_extractor (Plain (VStr "")) = "".
Proof.
  split; [|split].
  - apply (proj1 (proj1 (C7_code_artifact
             (Plain (VStr ("here:" ++ nl ++ "```python" ++ nl ++ "print(1)"
                                   ++ nl ++ "```" ++ nl ++ "done"))))
             "print(1)" eq_refl)).
  - apply (proj1 (proj2 (C7_code_artifact (Plain (VStr "  x = 1  "))))).
    reflexivity.
  - apply (proj2 (proj2 (C7_code_artifact (Plain (VStr ""))))). reflexivity.
Defined.

(** ** C8: a model that always reports success *)

Lemma passing_model_always_passes : always_reports_success nat passing_model.
Proof.
  intros ms p. do 2 eexists. split; [reflexivity|]. vm_compute. reflexivity.
Qed.

(** C8, as stated, fails: with a cap of 0 the model that always reports
    success is never asked; no cycle runs and the status is
    [max_iterations_reached]. *)
Lemma C8_counterexample :
  always_reports_success nat passing_model /\
  iteration (final_state nat passing_model "code" "problem" 0 0%nat) = 0 /\
  test_case_gen_checker nat passing_model "code" "problem" 0 0%nat
  = Return ("code",
            VDict [("test_cases", VList []);
                   ("status", VStr "max_iterations_reached")]).
Proof.
  split; [apply passing_model_always_passes|].
  split; vm_compute; reflexivity.
Qed.

(** C8 (amended).  With a cap of at least 1 and a model whose every
    answer reports success, the run makes exactly one cycle and one
    model call, the evaluation prompt built from the initial code; the
    returned record is the one extracted from that answer with status
    [complete_success], and the returned code is the initial code. *)
Theorem C8_success_converges_in_one_cycle
        (St : Type) (respond : St -> string -> result response * St)
        (code prompt : string) (max_iterations : Z) (ms : St) :
  always_reports_success St respond ->
  1 <= max_iterations ->
  let st := final_state St respond code prompt max_iterations ms in
  iteration st = 1 /\
  calls st = [full_prompt prompt code] /\
  exists record,
    test_case_gen_checker St respond code prompt max_iterations ms
    = Return (code, record) /\
    status_of record = Some (VStr "complete_success").
Proof.
  intros Hs Hmax st.
  destruct (run_loop_passing St respond code prompt max_iterations ms Hs Hmax)
    as (answer & ms1 & entries & _ & _ & Hrun).
  unfold st, final_state, test_case_gen_checker. rewrite Hrun.
  cbn [snd iteration calls current_code final_test_results].
  repeat split. eexists. split; [reflexivity|].
  apply dict_get_set_same.
Qed.

Lemma C8_success_converges_in_one_cycle_witness :
  iteration (final_state nat passing_model "code" "problem" 3 0%nat) = 1 /\
  calls (final_state nat passing_model "code" "problem" 3 0%nat)
  = [full_prompt "problem" "code"] /\
  exists record,
    test_case_gen_checker nat passing_model "code" "problem" 3 0%nat
    = Return ("code", record) /\
    status_of record = Some (VStr "complete_success").
Proof.
  apply (C8_success_converges_in_one_cycle nat passing_model
           "code" "problem" 3 0%nat).
  - apply passing_model_always_passes.
  - lia.
Defined.

(** ** C9: the result is always a mapping *)

(** C9.  [extract_test_results] returns a dict on every input: what
    [json.loads] decodes from a brace span is a dict, the table strategy
    and the fallback build one.  In [test_case_gen_checker] the record is
    therefore a dict when the final [isinstance] check is reached, on
    every run: the wrapping into [raw_output] changes nothing, and the
    function returns the record as it stands. *)
Theorem C9_record_always_a_mapping :
  (forall x : response,
     exists entries, extract_test_results x = Return (VDict entries)) /\
  (forall (text span : string) (v : value),
     Re.search_braces text = Some span -> Json.loads span = Return v ->
     is_dict v = true) /\
  (forall (St : Type) (respond : St -> string -> result response * St)
          (code prompt : string) (max_iterations : Z) (ms : St),
     let st := final_state St respond code prompt max_iterations ms in
     is_dict (final_test_results st) = true /\
     ensure_dict (final_test_results st) = final_test_results st /\
     test_case_gen_checker St respond code prompt max_iterations ms
     = Return (current_code st, final_test_results st)).
Proof.
  split; [exact extract_test_results_dict|]. split.
  - intros text span v Hs Hl.
    exact (JsonFacts.loads_brace _ _ (search_braces_starts _ _ Hs) Hl).
  - intros St respond code prompt max_iterations ms st.
    destruct (run_loop_total St respond code prompt max_iterations ms)
      as (st1 & Hrun & Hd & _ & _).
    assert (st = st1) as ->
      by (unfold st, final_state; rewrite Hrun; reflexivity).
    assert (ensure_dict (final_test_results st1) = final_test_results st1)
      as He by (unfold ensure_dict; rewrite Hd; reflexivity).
    repeat split; auto.
    unfold test_case_gen_checker. rewrite Hrun, He. reflexivity.
Qed.

Lemma C9_record_always_a_mapping_witness :
  is_dict sample_json_record = true.
Proof.
  apply (proj1 (proj2 C9_record_always_a_mapping)
           sample_json_text (dq "{'test_cases': [{'status': 'PASS'}]}"));
    vm_compute; reflexivity.
Defined.

(** ** C10: where has_failed_tests raises *)

(** C10, as stated, fails: the only case of the sample has a number
    under [status], yet [has_failed_tests] returns False without
    raising, because the rendering of the record holds neither [fail]
    nor [error]; and a case that is a string, not a mapping, does not
    make it raise either. *)
Lemma C10_counterexample :
  existsb ill_formed_case [VDict [("status", VInt 1)]] = true /\
  has_failed_tests sample_number_status = Return false /\
  existsb ill_formed_case [VStr "fail"] = true /\
  has_failed_tests (VDict [("test_cases", VList [VStr "fail"])])
  = Return false.
Proof. repeat split; vm_compute; reflexivity. Qed.

(** C10 (amended).  [has_failed_tests] is not total: it raises on the
    three samples (a number, a boolean under a status-like key; a case
    that is a number).  For a mapping with a [test_cases] list it raises
    when the lower-case rendering holds [fail] or [error] and the walk
    over the cases meets, before any case that fails at its first
    status-like key, a faulty case: a mapping whose first status-like key
    holds a non-string, a list with an item that is not a string or is
    status-like, or a number, boolean or None; and it raises in no other
    situation: whenever it raises, the cases split into cases that are
    neither faulty nor failing, a faulty case, and the rest.  Under the
    precondition that every case is a mapping with strings under its
    status-like keys it returns a boolean, as it does on every record
    that is no mapping or has no [test_cases] entry.  In full: without a
    failure word in the rendering it returns False; with one, the first
    case that is faulty or failing decides, a raise at a faulty one, True
    at a failing one, and False when there is none.  A failing case
    before a faulty one therefore gives True, not a raise. *)
Theorem C10_has_failed_tests_partial :
  (raises (has_failed_tests sample_number_fail) = true /\
   raises (has_failed_tests sample_bool_fail) = true /\
   raises (has_failed_tests sample_case_not_mapping) = true) /\
  (forall (entries : dict) (pre post : list value) (c : value),
     dict_get "test_cases" entries = Some (VList (pre ++ c :: post)) ->
     failure_word (lower (str (VDict entries))) = true ->
     forallb (fun p => negb (faulty_case p) && negb (first_key_fails p)) pre
     = true ->
     faulty_case c = true ->
     raises (has_failed_tests (VDict entries)) = true) /\
  (forall (entries : dict) (cases : list value),
     dict_get "test_cases" entries = Some (VList cases) ->
     raises (has_failed_tests (VDict entries)) = true ->
     failure_word (lower (str (VDict entries))) = true /\
     existsb faulty_case cases = true /\
     existsb ill_formed_case cases = true /\
     exists pre c post,
       cases = (pre ++ c :: post)%list /\
       forallb (fun p => negb (faulty_case p) && negb (first_key_fails p)) pre
       = true /\
       faulty_case c = true) /\
  (forall (entries : dict) (cases : list value),
     dict_get "test_cases" entries = Some (VList cases) ->
     forallb well_formed_case cases = true ->
     exists b, has_failed_tests (VDict entries) = Return b) /\
  (forall record : value,
     (forall entries, record = VDict entries ->
                      dict_has "test_cases" entries = false) ->
     exists b, has_failed_tests record = Return b) /\
  (forall (entries : dict) (cases : list value),
     dict_get "test_cases" entries = Some (VList cases) ->
     if failure_word (lower (str (VDict entries))) then
       match first_decisive cases with
       | Some c =>
           if faulty_case c
           then raises (has_failed_tests (VDict entries)) = true
           else has_failed_tests (VDict entries) = Return true
       | None => has_failed_tests (VDict entries) = Return false
       end
     else has_failed_tests (VDict entries) = Return false).
Proof.
  split; [repeat split; vm_compute; reflexivity|].
  split; [|split; [|split; [|split;
    [exact has_failed_tests_other_shapes|exact has_failed_tests_first]]]].
  - intros entries pre post c Hc Hw Hpre Hf.
    rewrite (has_failed_tests_cases _ _ Hc), Hw.
    pose proof (scan_cases_raises pre post c Hpre Hf) as Hr.
    destruct (scan_cases (pre ++ c :: post)); [discriminate|reflexivity].
  - intros entries cases Hc Hr.
    rewrite (has_failed_tests_cases _ _ Hc) in Hr.
    destruct (failure_word (lower (str (VDict entries)))); [|discriminate].
    split; [reflexivity|].
    assert (existsb faulty_case cases = true) as Hf.
    { apply scan_cases_raises_inv.
      destruct (scan_cases cases); [discriminate|reflexivity]. }
    split; [exact Hf|]. split.
    + apply existsb_exists in Hf. destruct Hf as (c & Hin & Hf).
      apply existsb_exists. exists c. split; [exact Hin|].
      unfold ill_formed_case.
      destruct (well_formed_case c) eqn:Ew; [|reflexivity].
      rewrite (well_formed_not_faulty _ Ew) in Hf. discriminate.
    + pose proof (scan_cases_first cases) as Hs.
      destruct (first_decisive cases) as [c|] eqn:Ed.
      * destruct (first_decisive_split _ _ Ed) as (pre & post & Hsplit & Hpre & _).
        exists pre, c, post. repeat split; auto.
        destruct (faulty_case c); [reflexivity|].
        rewrite Hs in Hr. discriminate.
      * rewrite Hs in Hr. discriminate.
  - intros entries cases Hc Hw.
    rewrite (has_failed_tests_well_formed entries cases Hc Hw). eauto.
Qed.

Lemma C10_has_failed_tests_partial_witness :
  raises (has_failed_tests
            (VDict [("test_cases",
                     VList [VDict [("status", VStr "PASS")];
                            VDict [("status", VNone); ("note", VStr "error")];
                            VDict [("status", VStr "FAIL")]])])) = true /\
  (exists b,
     has_failed_tests
       (VDict [("test_cases",
                VList [VDict [("status", VStr "PASS")];
                       VDict [("status", VStr "FAIL")]])]) = Return b) /\
  has_failed_tests sample_fail_then_number = Return true /\
  (failure_word (lower (str sample_number_fail)) = true /\
   existsb faulty_case [VDict [("status", VInt 1); ("note", VStr "fail")]]
   = true /\
   existsb ill_formed_case [VDict [("status", VInt 1); ("note", VStr "fail")]]
   = true /\
   exists pre c post,
     [VDict [("status", VInt 1); ("note", VStr "fail")]]
     = (pre ++ c :: post)%list /\
     forallb (fun p => negb (faulty_case p) && negb (first_key_fails p)) pre
     = true /\
     faulty_case c = true).
Proof.
  split; [|split; [|split]].
  - apply (proj1 (proj2 C10_has_failed_tests_partial)
             [("test_cases",
               VList [VDict [("status", VStr "PASS")];
                      VDict [("status", VNone); ("note", VStr "error")];
                      VDict [("status", VStr "FAIL")]])]
             [VDict [("status", VStr "PASS")]]
             [VDict [("status", VStr "FAIL")]]
             (VDict [("status", VNone); ("note", VStr "error")]));
      reflexivity.
  - apply (proj1 (proj2 (proj2 (proj2 C10_has_failed_tests_partial)))
             [("test_cases",
               VList [VDict [("status", VStr "PASS")];
                      VDict [("status", VStr "FAIL")]])]
             [VDict [("status", VStr "PASS")];
              VDict [("status", VStr "FAIL")]]);
      reflexivity.
  - exact (proj2 (proj2 (proj2 (proj2 (proj2 C10_has_failed_tests_partial))))
             [("test_cases",
               VList [VDict [("status", VStr "FAIL")];
                      VDict [("status", VInt 1)]])]
             [VDict [("status", VStr "FAIL")]; VDict [("status", VInt 1)]]
             eq_refl).
  - apply (proj1 (proj2 (proj2 C10_has_failed_tests_partial))
             [("test_cases",
               VList [VDict [("status", VInt 1); ("note", VStr "fail")]])]
             [VDict [("status", VInt 1); ("note", VStr "fail")]]);
      reflexivity.
Defined.

(* ================================================================== *)
(** * Further properties of helper_func.py                              *)
(* ================================================================== *)

Module TrimFacts.

Import Text Props TextFacts.

Lemma all_space_rstrip (s : string) : all_space (rstrip s) = all_space s.
Proof.
  induction s as [|c r IH]; [reflexivity|].
  cbn [rstrip]. destruct (all_space (String c r)) eqn:E; [reflexivity|].
  cbn [all_space] in *. rewrite IH. exact E.
Qed.

Lemma rstrip_idem (s : string) : rstrip (rstrip s) = rstrip s.
Proof.
  induction s as [|c r IH]; [reflexivity|].
  cbn [rstrip]. destruct (all_space (String c r)) eqn:E; [reflexivity|].
  cbn [rstrip]. cbn [all_space] in *. rewrite all_space_rstrip, E, IH.
  reflexivity.
Qed.

Lemma lstrip_fixed (s : string) : leading_space s = false -> lstrip s = s.
Proof. destruct s as [|c r]; simpl; [reflexivity|]. now intros ->. Qed.

Lemma leading_space_lstrip (s : string) : leading_space (lstrip s) = false.
Proof.
  induction s as [|c r IH]; [reflexivity|].
  cbn [lstrip]. destruct (isspace c) eqn:E; [exact IH|]. simpl. exact E.
Qed.

Lemma leading_space_rstrip (s : string) :
  leading_space s = false -> leading_space (rstrip s) = false.
Proof.
  destruct s as [|c r]; [reflexivity|]. cbn [rstrip leading_space].
  intros E. destruct (all_space (String c r)); [reflexivity|exact E].
Qed.

Lemma trailing_space_rstrip (s : string) : trailing_space (rstrip s) = false.
Proof.
  unfold trailing_space. induction s as [|c r IH]; [reflexivity|].
  cbn [rstrip]. destruct (all_space (String c r)) eqn:E; [reflexivity|].
  cbn [last_char]. destruct (rstrip r) as [|d t] eqn:Er.
  - apply rstrip_empty_iff in Er. cbn [all_space] in E. rewrite Er in E.
    rewrite andb_true_r in E. exact E.
  - exact IH.
Qed.

Lemma lstrip_split (s : string) :
  exists a, s = a ++ lstrip s /\ all_space a = true.
Proof.
  induction s as [|c r (a & IH & Ha)]; [exists ""; auto|].
  cbn [lstrip]. destruct (isspace c) eqn:E.
  - exists (String c a). simpl. rewrite E, Ha. split; [congruence|auto].
  - exists "". auto.
Qed.

Lemma rstrip_split (s : string) :
  exists b, s = rstrip s ++ b /\ all_space b = true.
Proof.
  induction s as [|c r (b & IH & Hb)]; [exists ""; auto|].
  cbn [rstrip]. destruct (all_space (String c r)) eqn:E.
  - exists (String c r). auto.
  - exists b. simpl. split; [congruence|auto].
Qed.

(** What [strip] does: it removes a blank prefix and a blank suffix and
    leaves a text that has no blank at either end; on such a text it
    changes nothing. *)
Lemma strip_spec (s : string) :
  (exists a b, s = a ++ strip s ++ b /\ all_space a = true
               /\ all_space b = true) /\
  leading_space (strip s) = false /\
  trailing_space (strip s) = false /\
  strip (strip s) = strip s.
Proof.
  unfold strip. repeat split.
  - destruct (lstrip_split s) as (a & Ha & Hsa).
    destruct (rstrip_split (lstrip s)) as (b & Hb & Hsb).
    exists a, b. repeat split; auto. rewrite <- Hb. exact Ha.
  - apply leading_space_rstrip, leading_space_lstrip.
  - apply trailing_space_rstrip.
  - rewrite (lstrip_fixed (rstrip (lstrip s))).
    + apply rstrip_idem.
    + apply leading_space_rstrip, leading_space_lstrip.
Qed.

End TrimFacts.

Module FenceFacts.

Import Text Re Props TextFacts ReFacts.

Lemma has_char_append (c : ascii) (a b : string) :
  has_char c (a ++ b) = has_char c a || has_char c b.
Proof.
  induction a as [|x a IH]; [reflexivity|]. simpl. rewrite IH.
  apply orb_assoc.
Qed.

Lemma fence_here_no_backtick (c : ascii) (r : string) :
  Ascii.eqb c "`" = false -> fence_here (String c r) = None.
Proof.
  intros H. unfold fence_here, fence. cbn [startswith].
  rewrite Ascii.eqb_sym, H. reflexivity.
Qed.

Lemma search_fence_skip (pre s : string) :
  has_char "`" pre = false -> search_fence (pre ++ s) = search_fence s.
Proof.
  induction pre as [|c r IH]; [reflexivity|].
  cbn [has_char append]. intros H. apply orb_false_iff in H.
  destruct H as [Hc Hr]. cbn [search_fence].
  rewrite (fence_here_no_backtick _ _ Hc). apply IH, Hr.
Qed.

Lemma skip_letters_tag (tag rest : string) :
  all_letters tag = true ->
  skip_letters (tag ++ String newline rest) = String newline rest.
Proof.
  induction tag as [|c r IH]; [reflexivity|].
  cbn [all_letters append skip_letters]. intros H.
  apply andb_true_iff in H. destruct H as [-> Hr]. apply IH, Hr.
Qed.

Lemma until_closing_here (s : string) :
  startswith closing s = true -> until_closing s = Some "".
Proof. destruct s; cbn [until_closing]; intros ->; reflexivity. Qed.

Lemma until_closing_body (body post : string) :
  has_char "`" body = false ->
  until_closing (body ++ closing ++ post) = Some body.
Proof.
  induction body as [|c r IH]; intros H.
  - cbn [append]. apply until_closing_here, startswith_append.
  - cbn [has_char] in H. apply orb_false_iff in H. destruct H as [Hc Hr].
    cbn [append until_closing]. rewrite (IH Hr).
    assert (startswith closing (String c (r ++ closing ++ post)) = false)
      as ->; [|reflexivity].
    unfold closing, fence. cbn [startswith].
    destruct (Ascii.eqb newline c); [|reflexivity]. cbn [andb].
    destruct r as [|d r'].
    + reflexivity.
    + cbn [append has_char] in *. apply orb_false_iff in Hr.
      destruct Hr as [Hd _]. rewrite Ascii.eqb_sym, Hd. reflexivity.
Qed.

Lemma search_fence_block (pre tag body post : string) :
  has_char "`" pre = false ->
  all_letters tag = true ->
  has_char "`" body = false ->
  search_fence (pre ++ fence ++ tag ++ String newline (body ++ closing ++ post))
  = Some body.
Proof.
  intros Hp Ht Hb. rewrite (search_fence_skip _ _ Hp).
  assert (fence_here (fence ++ tag ++ String newline (body ++ closing ++ post))
          = Some body) as H.
  { unfold fence_here. rewrite startswith_append.
    change (drop 3 (fence ++ tag ++ String newline (body ++ closing ++ post)))
      with (tag ++ String newline (body ++ closing ++ post)).
    rewrite (skip_letters_tag _ _ Ht), Ascii.eqb_refl.
    apply until_closing_body, Hb. }
  destruct (fence ++ tag ++ String newline (body ++ closing ++ post)) eqn:E;
    cbn [search_fence]; rewrite H; reflexivity.
Qed.

End FenceFacts.

Module ExtractorFacts.

Import Text Re Py Helper Props TextFacts ReFacts TrimFacts FenceFacts.

Lemma drop_length_append (a b : string) : drop (String.length a) (a ++ b) = b.
Proof. induction a as [|c a IH]; [destruct b; reflexivity|exact IH]. Qed.

Lemma until_closing_some (a b : string) :
  until_closing (a ++ closing ++ b) <> None.
Proof.
  induction a as [|c a IH].
  - cbn [append]. rewrite until_closing_here; [discriminate|].
    apply startswith_append.
  - cbn [append until_closing].
    destruct (startswith closing (String c (a ++ closing ++ b)));
      [discriminate|].
    destruct (until_closing (a ++ closing ++ b)); [discriminate|].
    exact IH.
Qed.

Lemma fence_here_some (tag body post : string) :
  all_letters tag = true ->
  fence_here (fence ++ tag ++ String newline (body ++ closing ++ post))
  <> None.
Proof.
  intros Ht. unfold fence_here. rewrite startswith_append.
  change (drop 3 (fence ++ tag ++ String newline (body ++ closing ++ post)))
    with (tag ++ String newline (body ++ closing ++ post)).
  rewrite (skip_letters_tag _ _ Ht), Ascii.eqb_refl.
  apply until_closing_some.
Qed.

(** A text with a fenced block inside has a match, wherever it sits. *)
Lemma search_fence_inside (p a q : string) :
  search_fence a <> None -> search_fence (p ++ a ++ q) <> None.
Proof.
  destruct (search_fence a) as [body|] eqn:E; [intros _|congruence].
  destruct (search_fence_spec _ _ E) as (pre & tag & post & -> & Ht & _).
  intros Hn.
  pose proof (search_fence_none _ Hn (String.length (p ++ pre))) as H.
  replace (p ++ (pre ++ fence ++ tag ++
                 String newline (body ++ closing ++ post)) ++ q)
    with ((p ++ pre) ++ fence ++ tag ++
          String newline (body ++ closing ++ (post ++ q))) in H.
  - rewrite drop_length_append in H. revert H. apply fence_here_some, Ht.
  - rewrite !append_assoc. cbn [append]. rewrite !append_assoc.
    reflexivity.
Qed.

(** The body of a match holds no fenced block of its own, nor does any
    part of it. *)
Lemma search_fence_body (s body a b c : string) :
  search_fence s = Some body -> body = a ++ b ++ c -> search_fence b = None.
Proof.
  intros E Hb. destruct (search_fence b) as [inner|] eqn:Ei; [|reflexivity].
  exfalso.
  destruct (search_fence_spec _ _ E) as (pre & tag & post & _ & _ & Hmin & _).
  destruct (search_fence_spec _ _ Ei) as (pre' & tag' & post' & Hs & _).
  set (u := a ++ pre' ++ fence ++ tag' ++ String newline inner).
  assert (body = u ++ closing ++ (post' ++ c)) as Hu.
  { rewrite Hb, Hs. unfold u. rewrite !append_assoc. cbn [append].
    rewrite !append_assoc. reflexivity. }
  specialize (Hmin (String.length u)).
  rewrite Hu in Hmin. rewrite !append_assoc in Hmin.
  rewrite drop_length_append, startswith_append in Hmin.
  rewrite !length_append in Hmin. cbn [String.length closing fence] in Hmin.
  assert (true = false); [apply Hmin; lia|discriminate].
Qed.

End ExtractorFacts.

(** X1. extract_text returns the text of its argument without the blank
    characters at its two ends: what it removes is blank, what it returns
    has no blank character first or last, and normalising an already
    normalised text changes nothing. *)
Theorem X1_extract_text_trims (x : Helper.response) :
  (exists a b, Helper.text_of x = (a ++ Helper.extract_text x ++ b)%string /\
               Text.all_space a = true /\ Text.all_space b = true) /\
  Props.leading_space (Helper.extract_text x) = false /\
  Props.trailing_space (Helper.extract_text x) = false /\
  Helper.extract_text (Helper.Plain (Py.VStr (Helper.extract_text x)))
  = Helper.extract_text x.
Proof.
  unfold Helper.extract_text.
  destruct (TrimFacts.strip_spec (Helper.text_of x)) as (H1 & H2 & H3 & H4).
  repeat split; assumption.
Qed.

(** X2. code_extractor returns the first fenced block: in a text whose
    first backtick opens a fence with a tag of letters (or none) and a body
    without backticks, the result is that body, trimmed, whatever follows
    the closing fence, further blocks included. *)
Theorem X2_code_extractor_first_block (pre tag body post : string) :
  Text.has_char "`" pre = false ->
  Text.all_letters tag = true ->
  Text.has_char "`" body = false ->
  Helper.code_extractor
    (Helper.Plain (Py.VStr (pre ++ Re.fence ++ tag ++
       String Text.newline (body ++ Re.closing ++ post))))
  = Text.strip body.
Proof.
  intros Hp Ht Hb. unfold Helper.code_extractor.
  change (Helper.text_of (Helper.Plain (Py.VStr ?s))) with s.
  rewrite (FenceFacts.search_fence_block _ _ _ _ Hp Ht Hb). reflexivity.
Qed.

Lemma X2_code_extractor_first_block_witness :
  Helper.code_extractor
    (Helper.Plain (Py.VStr ("Here it is:" ++ Re.fence ++ "python" ++
       String Text.newline ("  print(1)  " ++ Re.closing ++
          String Text.newline (Re.fence ++ String Text.newline
             ("print(2)" ++ Re.closing))))))
  = "print(1)"%string.
Proof.
  apply (X2_code_extractor_first_block "Here it is:" "python" "  print(1)  "
           (String Text.newline (Re.fence ++ String Text.newline
              ("print(2)" ++ Re.closing)))); reflexivity.
Defined.

(** X3. What code_extractor returns is clean: it has no blank character
    first or last, and it holds no fenced block any more, so extracting
    from an extracted text gives the same text. *)
Theorem X3_code_extractor_idempotent (x : Helper.response) :
  Props.leading_space (Helper.code_extractor x) = false /\
  Props.trailing_space (Helper.code_extractor x) = false /\
  Re.search_fence (Helper.code_extractor x) = None /\
  Helper.code_extractor (Helper.Plain (Py.VStr (Helper.code_extractor x)))
  = Helper.code_extractor x.
Proof.
  assert (forall s, Helper.code_extractor (Helper.Plain (Py.VStr s))
                    = match Re.search_fence s with
                      | Some code => Text.strip code
                      | None => Text.strip s
                      end) as Hplain by reflexivity.
  assert (Re.search_fence (Helper.code_extractor x) = None) as Hnone.
  { unfold Helper.code_extractor.
    destruct (Re.search_fence (Helper.text_of x)) as [body|] eqn:E.
    - destruct (TrimFacts.strip_spec body) as ((a & b & Hb & _) & _).
      exact (ExtractorFacts.search_fence_body _ _ _ _ _ E Hb).
    - destruct (TrimFacts.strip_spec (Helper.text_of x))
        as ((a & b & Hb & _) & _).
      destruct (Re.search_fence (Text.strip (Helper.text_of x))) eqn:Es;
        [|reflexivity].
      exfalso. apply (ExtractorFacts.search_fence_inside a
                        (Text.strip (Helper.text_of x)) b).
      + congruence.
      + rewrite <- Hb. exact E. }
  rewrite Hplain, Hnone. clear Hplain Hnone.
  unfold Helper.code_extractor.
  destruct (Re.search_fence (Helper.text_of x)) as [body|].
  - destruct (TrimFacts.strip_spec body) as (_ & H2 & H3 & H4). auto.
  - destruct (TrimFacts.strip_spec (Helper.text_of x)) as (_ & H2 & H3 & H4).
    auto.
Qed.

Module TableFacts.

Import Text Py Helper Spec HelperFacts LoopFacts.

#[local] Abbreviation put :=
  (fun (d : dict) (hv : string * string) => dict_set (fst hv) (VStr (snd hv)) d).

Lemma fold_put_last (l after : list (string * string)) (h v : string)
      (acc : dict) :
  ~ In h (map fst after) ->
  dict_get h (fold_left put (l ++ (h, v) :: after) acc) = Some (VStr v).
Proof.
  intros Hn. rewrite fold_left_app. cbn [fold_left fst snd].
  generalize (fold_left put l acc). clear l acc. intros acc.
  assert (forall d, dict_get h d = Some (VStr v) ->
                    dict_get h (fold_left put after d) = Some (VStr v)) as H.
  { induction after as [|[k x] r IH]; intros d Hd; [exact Hd|].
    cbn [fold_left fst snd]. cbn [map fst In] in Hn. apply IH.
    - tauto.
    - rewrite dict_get_set_other; [exact Hd|]. intros ->. tauto. }
  apply H, dict_get_set_same.
Qed.

Lemma fold_put_absent (l : list (string * string)) (h : string) (acc : dict) :
  ~ In h (map fst l) ->
  dict_get h (fold_left put l acc) = dict_get h acc.
Proof.
  revert acc. induction l as [|[k x] r IH]; intros acc Hn; [reflexivity|].
  cbn [fold_left fst snd]. cbn [map fst In] in Hn. rewrite IH by tauto.
  apply dict_get_set_other. intros ->. tauto.
Qed.

Lemma dict_get_in_keys (k : string) (d : dict) :
  dict_get k d <> None <-> In k (dict_keys d).
Proof.
  induction d as [|[k0 v0] r IH]; cbn [dict_get dict_keys map fst In].
  - tauto.
  - destruct (String.eqb_spec k k0) as [->|Hn].
    + split; [auto|discriminate].
    + fold (dict_keys r). rewrite IH. split; [auto|].
      intros [H|H]; [congruence|exact H].
Qed.

Lemma dict_keys_set (k : string) (v : value) (d : dict) :
  dict_keys (dict_set k v d)
  = if dict_has k d then dict_keys d else (dict_keys d ++ [k])%list.
Proof.
  unfold dict_has.
  induction d as [|[k0 v0] r IH]; cbn [dict_set dict_get]; [reflexivity|].
  destruct (String.eqb_spec k k0) as [->|Hn]; [reflexivity|].
  cbn [dict_keys map fst]. fold (dict_keys (dict_set k v r)).
  fold (dict_keys r). rewrite IH.
  destruct (dict_get k r); reflexivity.
Qed.

Lemma dict_set_nodup (k : string) (v : value) (d : dict) :
  NoDup (dict_keys d) -> NoDup (dict_keys (dict_set k v d)).
Proof.
  intros H. rewrite dict_keys_set. unfold dict_has.
  destruct (dict_get k d) eqn:E; [exact H|].
  apply NoDup_app; [exact H|repeat constructor; intros []|].
  intros x Hx [<-|[]]. apply dict_get_in_keys in Hx. congruence.
Qed.

Lemma dict_set_length (k : string) (v : value) (d : dict) :
  (List.length (dict_set k v d) <= S (List.length d))%nat.
Proof.
  induction d as [|[k0 v0] r IH]; cbn [dict_set List.length]; [lia|].
  destruct (String.eqb k k0); cbn [List.length]; lia.
Qed.

Lemma fold_put_keys (l : list (string * string)) (acc : dict) :
  NoDup (dict_keys acc) ->
  NoDup (dict_keys (fold_left put l acc)) /\
  (List.length (fold_left put l acc) <= List.length acc + List.length l)%nat /\
  (forall h, In h (dict_keys (fold_left put l acc))
             <-> In h (dict_keys acc) \/ In h (map fst l)).
Proof.
  revert acc. induction l as [|[k x] r IH]; intros acc Hn.
  - cbn [fold_left List.length map In]. repeat split; auto; try lia; tauto.
  - cbn [fold_left fst snd List.length map In].
    destruct (IH (dict_set k (VStr x) acc) (dict_set_nodup _ _ _ Hn))
      as (H1 & H2 & H3).
    pose proof (dict_set_length k (VStr x) acc).
    repeat split; [exact H1|lia| |].
    + intros Hh. apply H3 in Hh. destruct Hh as [Hh|Hh]; [|tauto].
      rewrite dict_keys_set in Hh. destruct (dict_has k acc); [tauto|].
      apply in_app_iff in Hh. cbn [In] in Hh. tauto.
    + intros Hh. apply H3. rewrite dict_keys_set.
      destruct (dict_has k acc) eqn:E.
      * destruct Hh as [Hh|[<-|Hh]]; auto. left.
        apply dict_get_in_keys. unfold dict_has in E.
        destruct (dict_get k acc); [discriminate|discriminate].
      * rewrite in_app_iff. cbn [In]. tauto.
Qed.

Lemma combine_fst (hs vs : list string) :
  map fst (combine hs vs) = firstn (List.length vs) hs.
Proof.
  revert vs. induction hs as [|h hs IH]; intros [|v vs]; cbn; auto.
  f_equal. apply IH.
Qed.

End TableFacts.

(** X4. In a test case read from a table row, a header maps to the cell
    under it; when several columns carry the same header, the cell of the
    last of them that the row reaches is the one kept. *)
Theorem X4_table_case_lookup (headers values : list string)
        (before after : list (string * string)) (h v : string) :
  combine headers values = (before ++ (h, v) :: after)%list ->
  ~ In h (map fst after) ->
  Py.dict_get h (Helper.test_case_of headers values) = Some (Py.VStr v).
Proof.
  intros Hc Hn. rewrite HelperFacts.test_case_of_zip. unfold Spec.zip_case.
  rewrite Hc. apply TableFacts.fold_put_last, Hn.
Qed.

Lemma X4_table_case_lookup_witness :
  Py.dict_get "status"
    (Helper.test_case_of ["status"; "name"; "status"] ["PASS"; "t1"; "FAIL"; "x"])
  = Some (Py.VStr "FAIL").
Proof.
  apply (X4_table_case_lookup ["status"; "name"; "status"]
           ["PASS"; "t1"; "FAIL"; "x"]
           [("status", "PASS"); ("name", "t1")] [] "status" "FAIL").
  - reflexivity.
  - simpl. tauto.
Defined.

(** X5. A test case read from a table row has one entry for each distinct
    header that has a cell in the row, and nothing else: headers beyond
    the cells of a short row are left out, cells beyond the headers are
    dropped, no key occurs twice, and a header without a cell is not
    found. *)
Theorem X5_table_case_keys (headers values : list string) :
  let case := Helper.test_case_of headers values in
  NoDup (Py.dict_keys case) /\
  (List.length case <= Nat.min (List.length headers) (List.length values))%nat /\
  (forall h, In h (Py.dict_keys case)
             <-> In h (firstn (List.length values) headers)) /\
  (forall h, ~ In h (firstn (List.length values) headers) ->
             Py.dict_get h case = None).
Proof.
  intros case. unfold case. rewrite HelperFacts.test_case_of_zip.
  unfold Spec.zip_case.
  destruct (TableFacts.fold_put_keys (combine headers values) [])
    as (H1 & H2 & H3); [constructor|].
  rewrite TableFacts.combine_fst in H3.
  repeat split.
  - exact H1.
  - rewrite length_combine in H2. exact H2.
  - intros Hh. apply H3 in Hh. destruct Hh as [[]|Hh]. exact Hh.
  - intros Hh. apply H3. auto.
  - intros h Hh. rewrite TableFacts.fold_put_absent; [reflexivity|].
    rewrite TableFacts.combine_fst. exact Hh.
Qed.

Module ReprFacts.

Import Text Py Helper Props TextFacts.

Lemma lower_append (a b : string) : lower (a ++ b) = lower a ++ lower b.
Proof. induction a as [|c a IH]; [reflexivity|]. simpl. now rewrite IH. Qed.

Lemma lower_split (t x y : string) :
  lower t = x ++ y -> exists t1 t2, t = t1 ++ t2 /\ lower t1 = x /\ lower t2 = y.
Proof.
  revert t. induction x as [|c x IH]; intros t H.
  - exists "", t. auto.
  - destruct t as [|d t]; [discriminate|]. cbn [lower append] in H.
    injection H as Hc Ht. destruct (IH t Ht) as (t1 & t2 & -> & H1 & H2).
    exists (String d t1), t2. cbn [lower append]. rewrite Hc, H1. auto.
Qed.

Lemma repr_chars_append (q : ascii) (a b : string) :
  repr_chars q (a ++ b) = repr_chars q a ++ repr_chars q b.
Proof.
  induction a as [|c a IH]; [reflexivity|].
  cbn [append repr_chars]. rewrite IH, append_assoc. reflexivity.
Qed.

(** A letter is written as itself. *)
Lemma repr_char_letter (q c : ascii) :
  in_range 97 122 (lower_char c) = true ->
  q = "'"%char \/ q = dquote ->
  repr_char q c = String c "".
Proof.
  destruct c as [[] [] [] [] [] [] [] []]; intros H [-> | ->];
    try (vm_compute in H; discriminate H); reflexivity.
Qed.

Lemma repr_chars_word (q : ascii) (w : string) :
  lower_letters (lower w) = true ->
  q = "'"%char \/ q = dquote ->
  repr_chars q w = w.
Proof.
  intros H Hq. induction w as [|c w IH]; [reflexivity|].
  cbn [lower lower_letters] in H. apply andb_true_iff in H.
  destruct H as [Hc Hw]. cbn [repr_chars].
  rewrite (repr_char_letter q c Hc Hq), (IH Hw). reflexivity.
Qed.

(** Every character is written as itself or as an escape that opens with
    a backslash. *)
Lemma repr_char_shape (q c : ascii) :
  repr_char q c = String c "" \/ exists r, repr_char q c = String backslash r.
Proof.
  unfold repr_char.
  destruct (Ascii.eqb c q || Ascii.eqb c backslash); [right; eauto|].
  destruct (code c =? 9); [right; eexists; reflexivity|].
  destruct (code c =? 10); [right; eexists; reflexivity|].
  destruct (code c =? 13); [right; eexists; reflexivity|].
  destruct (isprintable c); [left; reflexivity|right; eauto].
Qed.

(** A plain character is written as itself, or as a backslash and one
    more character: itself when it is the quote or a backslash, or one of
    the letters t, n, r. *)
Lemma repr_char_plain (q c : ascii) :
  plain_char c = true ->
  repr_char q c = String c "" \/
  exists x, repr_char q c = String backslash (String x "") /\
            (x = q \/ x = backslash \/ x = "t"%char \/ x = "n"%char
             \/ x = "r"%char).
Proof.
  unfold plain_char, repr_char. intros H.
  destruct (Ascii.eqb_spec c q) as [E|_];
    [right; exists c; split; [reflexivity|auto]|].
  destruct (Ascii.eqb_spec c backslash) as [E|_];
    [right; exists c; split; [reflexivity|auto]|].
  cbn [orb].
  destruct (code c =? 9); [right; exists "t"%char; auto 6|].
  destruct (code c =? 10); [right; exists "n"%char; auto 6|].
  destruct (code c =? 13); [right; exists "r"%char; auto 6|].
  rewrite !orb_false_r in H. rewrite H. left. reflexivity.
Qed.

Lemma startswith_split (kw a b : string) (c : ascii) :
  has_char c kw = false ->
  startswith kw (a ++ String c b) = true -> startswith kw a = true.
Proof.
  revert a. induction kw as [|k kw IH]; intros a Hc H.
  - destruct a; reflexivity.
  - cbn [has_char] in Hc. apply orb_false_iff in Hc. destruct Hc as [Hk Hc].
    destruct a as [|x a]; cbn [append startswith] in *.
    + apply andb_true_iff in H. destruct H as [H _].
      apply Ascii.eqb_eq in H. subst. rewrite Ascii.eqb_refl in Hk.
      discriminate.
    + apply andb_true_iff in H. destruct H as [-> H]. apply (IH a Hc H).
Qed.

(** A word cannot sit across a character it does not hold. *)
Lemma contains_split (kw a b : string) (c : ascii) :
  has_char c kw = false ->
  contains kw (a ++ String c b) = true ->
  contains kw a = true \/ contains kw b = true.
Proof.
  intros Hc. induction a as [|x a IH]; cbn [append contains].
  - intros H. apply orb_true_iff in H. destruct H as [H|H]; [|auto].
    left. apply (startswith_split kw "" b c Hc) in H.
    rewrite H. reflexivity.
  - intros H. apply orb_true_iff in H. destruct H as [H|H].
    + left. apply (startswith_split kw (String x a) b c Hc) in H.
      rewrite H. reflexivity.
    + destruct (IH H) as [H'|H']; [left|right; exact H'].
      rewrite H'. apply orb_true_r.
Qed.

Lemma contains_append_l (kw a b : string) :
  contains kw a = true -> contains kw (a ++ b) = true.
Proof.
  intros H. destruct (contains_inv _ _ H) as (x & y & ->).
  rewrite !append_assoc. apply contains_append.
Qed.

Lemma contains_append_r (kw a b : string) :
  contains kw b = true -> contains kw (a ++ b) = true.
Proof.
  intros H. destruct (contains_inv _ _ H) as (x & y & ->).
  rewrite <- append_assoc. apply contains_append.
Qed.

(** A word of letters found in the lowered text is found in the lowered
    rendering of the text. *)
Lemma contains_repr_chars (kw t : string) (q : ascii) :
  lower_letters kw = true ->
  q = "'"%char \/ q = dquote ->
  contains kw (lower t) = true ->
  contains kw (lower (repr_chars q t)) = true.
Proof.
  intros Hk Hq H. destruct (contains_inv _ _ H) as (x & y & Hxy).
  destruct (lower_split _ _ _ Hxy) as (a & t2 & -> & <- & H2).
  destruct (lower_split _ _ _ H2) as (w & b & -> & Hw & <-).
  rewrite !repr_chars_append, !lower_append.
  rewrite (repr_chars_word q w); [|rewrite Hw; exact Hk|exact Hq].
  rewrite Hw. apply contains_append.
Qed.

Lemma lower_letters_head (k : ascii) (kw : string) :
  lower_letters (String k kw) = true -> in_range 97 122 k = true.
Proof. cbn [lower_letters]. intros H. apply andb_true_iff in H. tauto. Qed.

(** A word of letters that opens the lowered rendering opens the lowered
    text: no escape opens with a letter. *)
Lemma startswith_repr_chars (kw t : string) (q : ascii) :
  lower_letters kw = true ->
  startswith kw (lower (repr_chars q t)) = true ->
  startswith kw (lower t) = true.
Proof.
  revert t. induction kw as [|k kw IH]; intros t Hk H.
  - destruct (lower t); reflexivity.
  - destruct t as [|c r]; [discriminate|].
    cbn [lower_letters] in Hk. apply andb_true_iff in Hk.
    destruct Hk as [Hk Hkw]. cbn [repr_chars] in H.
    destruct (repr_char_shape q c) as [E|[e E]]; rewrite E in H;
      cbn [append lower startswith] in H |- *;
      apply andb_true_iff in H; destruct H as [H1 H2].
    + rewrite H1. apply IH; assumption.
    + apply Ascii.eqb_eq in H1. subst k. vm_compute in Hk. discriminate.
Qed.

(** In a plain text the escapes bring no keyword in. *)
Lemma contains_repr_chars_inv (kw t : string) (q : ascii) :
  keyword kw = true ->
  q = "'"%char \/ q = dquote ->
  plain_text t = true ->
  contains kw (lower (repr_chars q t)) = true ->
  contains kw (lower t) = true.
Proof.
  intros Hk Hq. destruct kw as [|k kw]; [discriminate|].
  cbn [keyword] in Hk. apply andb_true_iff in Hk. destruct Hk as [Hl Hf].
  pose proof (lower_letters_head _ _ Hl) as Hr.
  induction t as [|c r IH]; intros Hp H; [exact H|].
  cbn [plain_text] in Hp. apply andb_true_iff in Hp. destruct Hp as [Hc Hp].
  cbn [lower contains].
  destruct (startswith (String k kw) (String (lower_char c) (lower r))) eqn:Es;
    [reflexivity|]. cbn [orb]. apply (IH Hp). clear IH.
  pose proof (startswith_repr_chars (String k kw) (String c r) q Hl) as Hs.
  cbn [lower] in Hs. rewrite Es in Hs. cbn [repr_chars] in H, Hs.
  destruct (repr_char_plain q c Hc) as [E|(x & E & Hx)]; rewrite E in H, Hs;
    cbn [append lower contains] in H, Hs.
  - apply orb_true_iff in H. destruct H as [H|H]; [|exact H].
    specialize (Hs H). discriminate.
  - apply orb_true_iff in H. destruct H as [H|H];
      [specialize (Hs H); discriminate|].
    apply orb_true_iff in H. destruct H as [H|H]; [|exact H].
    exfalso. cbn [startswith] in H. apply andb_true_iff in H.
    destruct H as [H _]. apply Ascii.eqb_eq in H. subst k.
    destruct Hx as [->|[->|[->|[->| ->]]]];
      try (vm_compute in Hf; discriminate Hf);
      try (vm_compute in Hr; discriminate Hr).
    destruct Hq as [-> | ->]; vm_compute in Hr; discriminate Hr.
Qed.

(** The record of the fallback, printed. *)
Lemma str_raw_output (text : string) :
  str (raw_output text) = "{'raw_output': " ++ repr_str text ++ "}".
Proof.
  unfold raw_output, str, repr. cbn [join map].
  change (repr_str "raw_output") with "'raw_output'".
  cbn [join append]. rewrite ?append_nil_r, ?append_assoc. reflexivity.
Qed.

Lemma has_failed_tests_raw (text : string) :
  has_failed_tests (raw_output text)
  = Return (failure_word (lower (str (raw_output text)))).
Proof.
  unfold has_failed_tests.
  destruct (failure_word (lower (str (raw_output text)))); reflexivity.
Qed.

Lemma repr_str_shape (text : string) :
  exists q, (q = "'"%char \/ q = dquote) /\
            repr_str text = String q (repr_chars q text ++ String q "").
Proof.
  unfold repr_str.
  destruct (contains "'" text && negb (contains (String dquote "") text));
    [exists dquote|exists "'"%char]; split; auto.
Qed.

(** A keyword is in the lowered print of the fallback record exactly when
    it is in the lowered rendering of the text. *)
Lemma contains_raw_output (kw text : string) (q : ascii) :
  lower_letters kw = true ->
  kw <> "" ->
  contains kw "{'raw_output': " = false ->
  q = "'"%char \/ q = dquote ->
  contains kw
    (lower ("{'raw_output': " ++ String q (repr_chars q text ++ String q "")
            ++ "}"))
  = contains kw (lower (repr_chars q text)).
Proof.
  intros Hl Hne Hp Hq.
  assert (has_char q kw = false) as Hqk.
  { clear Hne Hp. induction kw as [|k kw IH]; [reflexivity|].
    cbn [lower_letters] in Hl. apply andb_true_iff in Hl.
    destruct Hl as [Hk Hl]. cbn [has_char]. rewrite (IH Hl), orb_false_r.
    destruct (Ascii.eqb_spec k q) as [E|]; [|reflexivity].
    subst k. destruct Hq as [-> | ->]; vm_compute in Hk; discriminate Hk. }
  assert (lower_char q = q) as Hlq by (destruct Hq as [-> | ->]; reflexivity).
  assert (lower ("{'raw_output': " ++
                 String q (repr_chars q text ++ String q "") ++ "}")
          = "{'raw_output': " ++
            String q (lower (repr_chars q text) ++ String q "}")) as ->.
  { repeat (progress (rewrite ?lower_append; cbn [lower append])).
    rewrite Hlq.
    change (lower_char "{") with "{"%char.
    change (lower_char "'") with "'"%char.
    change (lower_char "r") with "r"%char.
    change (lower_char "a") with "a"%char.
    change (lower_char "w") with "w"%char.
    change (lower_char "_") with "_"%char.
    change (lower_char "o") with "o"%char.
    change (lower_char "u") with "u"%char.
    change (lower_char "t") with "t"%char.
    change (lower_char "p") with "p"%char.
    change (lower_char ":") with ":"%char.
    change (lower_char " ") with " "%char.
    change (lower_char "}") with "}"%char.
    cbn [append]. rewrite ?append_assoc. cbn [append]. reflexivity. }
  destruct (contains kw (lower (repr_chars q text))) eqn:E.
  - apply contains_append_r. cbn [contains].
    rewrite (contains_append_l _ _ _ E). apply orb_true_r.
  - destruct (contains kw ("{'raw_output': " ++
                String q (lower (repr_chars q text) ++ String q "}"))) eqn:F;
      [|reflexivity].
    exfalso.
    apply (contains_split kw _ _ q Hqk) in F. destruct F as [F|F];
      [congruence|].
    apply (contains_split kw _ _ q Hqk) in F. destruct F as [F|F];
      [congruence|].
    destruct kw as [|k kw]; [congruence|].
    cbn [lower_letters] in Hl. apply andb_true_iff in Hl.
    destruct Hl as [Hk _]. revert F. cbn [contains startswith].
    destruct (Ascii.eqb_spec k "}") as [->|];
      [vm_compute in Hk; discriminate Hk|].
    cbn. discriminate.
Qed.

End ReprFacts.

Module RawFacts.

Import Text Py Helper Props TextFacts ReprFacts.

(** On the fallback record the verdict is the keyword test on the lowered
    rendering of the text. *)
Lemma has_failed_tests_rendering (text : string) :
  exists q, (q = "'"%char \/ q = dquote) /\
    has_failed_tests (raw_output text)
    = Return (failure_word (lower (repr_chars q text))).
Proof.
  destruct (repr_str_shape text) as (q & Hq & E). exists q. split; [exact Hq|].
  rewrite has_failed_tests_raw, str_raw_output, E. unfold failure_word.
  rewrite !contains_raw_output; auto; discriminate.
Qed.

End RawFacts.

(** X6. On a free-text record, has_failed_tests misses no failure word:
    when the text holds fail or error, in any mix of upper and lower case,
    the verdict is true. *)
Theorem X6_raw_output_failure_detected (text : string) :
  Helper.failure_word (Text.lower text) = true ->
  Helper.has_failed_tests (Helper.raw_output text) = Py.Return true.
Proof.
  intros H. destruct (RawFacts.has_failed_tests_rendering text)
    as (q & Hq & ->). f_equal.
  unfold Helper.failure_word in *. apply orb_true_iff in H.
  apply orb_true_iff. destruct H as [H|H]; [left|right];
    apply ReprFacts.contains_repr_chars; auto.
Qed.

Lemma X6_raw_output_failure_detected_witness :
  Helper.has_failed_tests (Helper.raw_output "2 tests FAILED, it's broken")
  = Py.Return true.
Proof.
  apply (X6_raw_output_failure_detected "2 tests FAILED, it's broken").
  reflexivity.
Defined.

(** X7. On a free-text record whose text needs no hexadecimal escape when
    printed (printable characters, tabs, newlines, carriage returns), the
    verdict of has_failed_tests is exactly whether the lowered text holds
    fail or error: quoting and the backslash escapes add no such word. *)
Theorem X7_raw_output_verdict_exact (text : string) :
  Props.plain_text text = true ->
  Helper.has_failed_tests (Helper.raw_output text)
  = Py.Return (Helper.failure_word (Text.lower text)).
Proof.
  intros Hp. destruct (RawFacts.has_failed_tests_rendering text)
    as (q & Hq & ->). f_equal. unfold Helper.failure_word.
  assert (forall kw, Props.keyword kw = true ->
            Text.contains kw (Text.lower (Py.repr_chars q text))
            = Text.contains kw (Text.lower text)) as H.
  { intros kw Hk.
    destruct (Text.contains kw (Text.lower text)) eqn:E.
    - apply ReprFacts.contains_repr_chars; auto.
      destruct kw; [discriminate|]. cbn [Props.keyword] in Hk.
      apply andb_true_iff in Hk. tauto.
    - destruct (Text.contains kw (Text.lower (Py.repr_chars q text))) eqn:F;
        [|reflexivity].
      rewrite <- E. symmetry.
      apply (ReprFacts.contains_repr_chars_inv kw text q); auto. }
  rewrite !H by reflexivity. reflexivity.
Qed.

Lemma X7_raw_output_verdict_exact_witness :
  Helper.has_failed_tests
    (Helper.raw_output (String Text.newline "all 3 tests ran" ++ "; 'ok'"))
  = Py.Return false.
Proof.
  apply (X7_raw_output_verdict_exact
           (String Text.newline "all 3 tests ran" ++ "; 'ok'")).
  reflexivity.
Defined.

(** X8. The verdict on a free-text record is taken on the printed record,
    not on the text: the control character U+000F is printed as backslash,
    x, 0, f, so a text that has it before the letters a, i, l is judged
    failing although the text itself holds neither fail nor error. *)
Theorem X8_escape_read_as_failure (before after : string) :
  Helper.has_failed_tests
    (Helper.raw_output (before ++ String Props.shift_in ("ail" ++ after)))
  = Py.Return true /\
  Helper.failure_word (Text.lower (String Props.shift_in "ail")) = false.
Proof.
  split; [|reflexivity].
  destruct (RawFacts.has_failed_tests_rendering
              (before ++ String Props.shift_in ("ail" ++ after)))
    as (q & Hq & ->). f_equal. unfold Helper.failure_word.
  apply orb_true_iff. left.
  rewrite ReprFacts.repr_chars_append. cbn [Py.repr_chars].
  rewrite ReprFacts.repr_chars_append.
  assert (Py.repr_char q Props.shift_in = "\x0f"%string) as ->
    by (destruct Hq as [-> | ->]; reflexivity).
  assert (Py.repr_chars q "ail" = "ail"%string) as ->
    by (destruct Hq as [-> | ->]; reflexivity).
  rewrite !ReprFacts.lower_append.
  apply ReprFacts.contains_append_r.
  change (Text.lower "\x0f") with ("\x0" ++ "f")%string.
  rewrite TextFacts.append_assoc. apply ReprFacts.contains_append_r.
  change (Text.lower "ail") with "ail"%string.
  change ("f" ++ "ail" ++ Text.lower (Py.repr_chars q after))%string
    with ("fail" ++ Text.lower (Py.repr_chars q after))%string.
  apply TextFacts.contains_startswith, TextFacts.startswith_append.
Qed.

Module GuardFacts.

Import Text Py Helper Spec Props TextFacts ReprFacts HelperFacts.

(** [a] occurs in [b]. *)
#[local] Abbreviation inside a b := (exists x y : string, b = x ++ a ++ y).

Lemma inside_refl (a : string) : inside a a.
Proof. exists "", "". cbn [append]. now rewrite append_nil_r. Qed.

Lemma inside_trans (a b c : string) : inside a b -> inside b c -> inside a c.
Proof.
  intros (x & y & ->) (u & v & ->). exists (u ++ x), (y ++ v).
  rewrite !append_assoc. reflexivity.
Qed.

Lemma inside_append (a b x y : string) : inside a b -> inside a (x ++ b ++ y).
Proof. intros H. apply (inside_trans _ _ _ H). eauto. Qed.

Lemma inside_join (sep x : string) (l : list string) :
  In x l -> inside x (join sep l).
Proof.
  unfold join. induction l as [|y l IH]; [intros []|].
  intros [->|H].
  - destruct l as [|z l]; [apply inside_refl|].
    exists "", (sep ++ String.concat sep (z :: l)). reflexivity.
  - specialize (IH H). destruct l as [|z l]; [destruct H|].
    change (String.concat sep (y :: z :: l))
      with (y ++ sep ++ String.concat sep (z :: l)).
    destruct IH as (u & v & ->). exists (y ++ sep ++ u), v.
    rewrite !append_assoc. reflexivity.
Qed.

Lemma inside_contains (kw a b : string) :
  inside a b -> contains kw (lower a) = true -> contains kw (lower b) = true.
Proof.
  intros (x & y & ->) H. rewrite !lower_append.
  apply contains_append_r, contains_append_l, H.
Qed.

Lemma repr_list_inside (c : value) (items : list value) :
  In c items -> inside (repr c) (repr (VList items)).
Proof.
  intros H. cbn [repr]. apply inside_append, inside_join, in_map, H.
Qed.

Lemma repr_dict_inside (k : string) (v : value) (entries : dict) :
  In (k, v) entries -> inside (repr v) (repr (VDict entries)).
Proof.
  intros H. cbn [repr]. apply inside_append.
  apply (inside_trans _ (repr_str k ++ ": " ++ repr v)).
  - exists (repr_str k ++ ": "), "". rewrite !append_assoc.
    now rewrite append_nil_r.
  - apply inside_join. induction entries as [|[k0 v0] r IH]; [destruct H|].
    destruct H as [[= -> ->]|H]; [left; reflexivity|right; apply IH, H].
Qed.

Lemma dict_get_in (k : string) (v : value) (d : dict) :
  dict_get k d = Some v -> In (k, v) d.
Proof.
  induction d as [|[k0 v0] r IH]; cbn [dict_get]; [discriminate|].
  destruct (String.eqb_spec k k0) as [->|_].
  - intros [= ->]. left. reflexivity.
  - intros H. right. apply IH, H.
Qed.

Lemma repr_str_contains (kw s : string) :
  lower_letters kw = true ->
  contains kw (lower s) = true -> contains kw (lower (repr_str s)) = true.
Proof.
  intros Hk H. destruct (repr_str_shape s) as (q & Hq & ->).
  change (String q (repr_chars q s ++ String q ""))
    with (String q "" ++ repr_chars q s ++ String q "").
  rewrite !lower_append. apply contains_append_r, contains_append_l.
  apply contains_repr_chars; assumption.
Qed.

(** A case that fails at its first status-like key shows a failure word
    when printed. *)
Lemma first_key_fails_printed (case : value) :
  first_key_fails case = true -> failure_word (lower (repr case)) = true.
Proof.
  destruct case as [| | | | | |entries]; try discriminate.
  cbn [first_key_fails].
  destruct (first_status_entry entries) as [[k v]|] eqn:E; [|discriminate].
  destruct v as [| | | |s| |]; try discriminate. intros Hf.
  unfold first_status_entry in E. apply find_some in E. destruct E as [Hin _].
  pose proof (repr_dict_inside _ _ _ Hin) as Hi. cbn [repr] in Hi.
  unfold failure_word in *. apply orb_true_iff in Hf. apply orb_true_iff.
  destruct Hf as [Hf|Hf]; [left|right];
    apply (inside_contains _ _ _ Hi), repr_str_contains; auto.
Qed.

(** The keyword test on the printed record never hides a failing case. *)
Lemma guard_implied (entries : dict) (cases : list value) :
  dict_get "test_cases" entries = Some (VList cases) ->
  existsb first_key_fails cases = true ->
  failure_word (lower (str (VDict entries))) = true.
Proof.
  intros Hc He. apply existsb_exists in He. destruct He as (c & Hin & Hf).
  apply first_key_fails_printed in Hf.
  pose proof (inside_trans _ _ _ (repr_list_inside _ _ Hin)
                (repr_dict_inside _ _ _ (dict_get_in _ _ _ Hc))) as Hi.
  change (str (VDict entries)) with (repr (VDict entries)).
  unfold failure_word in *. apply orb_true_iff in Hf. apply orb_true_iff.
  destruct Hf as [Hf|Hf]; [left|right]; apply (inside_contains _ _ _ Hi Hf).
Qed.

End GuardFacts.

(** X9. For a record with a test_cases list whose cases are mappings with
    strings under their status-like keys, the verdict of has_failed_tests
    is exactly whether some case holds fail or error under its first
    status-like key: the keyword test on the printed record that comes
    first never hides such a case, since the printed record shows the
    value that fails. *)
Theorem X9_keyword_guard_hides_no_failure
        (entries : Py.dict) (cases : list Py.value) :
  Py.dict_get "test_cases" entries = Some (Py.VList cases) ->
  forallb Spec.well_formed_case cases = true ->
  Helper.has_failed_tests (Py.VDict entries)
  = Py.Return (existsb Spec.first_key_fails cases).
Proof.
  intros Hc Hw. rewrite (HelperFacts.has_failed_tests_well_formed _ _ Hc Hw).
  f_equal. destruct (existsb Spec.first_key_fails cases) eqn:E.
  - rewrite (GuardFacts.guard_implied _ _ Hc E). reflexivity.
  - apply andb_false_r.
Qed.

Lemma X9_keyword_guard_hides_no_failure_witness :
  Helper.has_failed_tests
    (Py.VDict [("summary", Py.VStr "1 error");
               ("test_cases",
                Py.VList [Py.VDict [("name", Py.VStr "t1");
                                    ("status", Py.VStr "PASS")];
                          Py.VDict [("name", Py.VStr "t2");
                                    ("passed", Py.VStr "ok")]])])
  = Py.Return false.
Proof.
  apply (X9_keyword_guard_hides_no_failure
           [("summary", Py.VStr "1 error");
            ("test_cases",
             Py.VList [Py.VDict [("name", Py.VStr "t1");
                                 ("status", Py.VStr "PASS")];
                       Py.VDict [("name", Py.VStr "t2");
                                 ("passed", Py.VStr "ok")]])]
           [Py.VDict [("name", Py.VStr "t1"); ("status", Py.VStr "PASS")];
            Py.VDict [("name", Py.VStr "t2"); ("passed", Py.VStr "ok")]]);
    reflexivity.
Defined.

(* ================================================================== *)
(** * Further properties of prompts.py                                  *)
(* ================================================================== *)

Module RunFacts.

Import Text Py Helper Prompts Spec HelperFacts LoopFacts.

Section Run.

Variable St : Type.
Variable respond : St -> string -> result response * St.

#[local] Abbreviation cycle := (cycle St respond).
#[local] Abbreviation while_loop := (while_loop St respond).
#[local] Abbreviation run_loop := (run_loop St respond).
#[local] Abbreviation state := (loop_state St).
#[local] Abbreviation turns_left max st := (Z.to_nat (max - iteration st)).
#[local] Abbreviation run_inv := (RunSpec.run_inv St respond).
#[local] Abbreviation run_post := (RunSpec.run_post St respond).
#[local] Abbreviation code_origin := (RunSpec.code_origin St respond).
#[local] Abbreviation from_repair := (RunSpec.from_repair St respond).

(** The five ways through one turn, with the state each one leaves. *)
Lemma cycle_cases (prompt : string) (st : state) (d0 : dict) :
  final_test_results st = VDict d0 ->
  let evaluation := full_prompt prompt (current_code st) in
  (exists e ms1,
     respond (model_state st) evaluation = (Raise e, ms1) /\
     cycle prompt st =
       (Return true,
        mk_loop_state St (current_code st) (iteration st + 1)
          (all_tests_pass st) (with_error e d0) ms1
          (calls st ++ [evaluation]))) \/
  (exists answer ms1 entries,
     respond (model_state st) evaluation = (Return answer, ms1) /\
     extract_test_results (Plain (response_text answer))
       = Return (VDict entries) /\
     ((has_failed_tests (VDict entries) = Return false /\
       cycle prompt st =
         (Return false,
          mk_loop_state St (current_code st) (iteration st + 1) true
            (with_status "complete_success" entries) ms1
            (calls st ++ [evaluation]))) \/
      (exists e,
         has_failed_tests (VDict entries) = Raise e /\
         cycle prompt st =
           (Return true,
            mk_loop_state St (current_code st) (iteration st + 1)
              (all_tests_pass st) (with_error e entries) ms1
              (calls st ++ [evaluation]))) \/
      (has_failed_tests (VDict entries) = Return true /\
       let repair_request :=
         fix_prompt (current_code st) (VDict entries) prompt in
       ((exists e ms2,
           respond ms1 repair_request = (Raise e, ms2) /\
           cycle prompt st =
             (Return true,
              mk_loop_state St (current_code st) (iteration st + 1)
                (all_tests_pass st) (with_error e entries) ms2
                (calls st ++ [evaluation; repair_request]))) \/
        (exists repair ms2,
           respond ms1 repair_request = (Return repair, ms2) /\
           cycle prompt st =
             (Return false,
              mk_loop_state St (code_extractor (Plain (response_text repair)))
                (iteration st + 1) (all_tests_pass st) (VDict entries) ms2
                (calls st ++ [evaluation; repair_request]))))))).
Proof.
  intros Ed evaluation. unfold evaluation.
  destruct (respond (model_state st) (full_prompt prompt (current_code st)))
    as [[answer|e] ms1] eqn:Hr.
  2:{ left. exists e, ms1. split; [reflexivity|].
      apply (cycle_model_raises St respond _ _ _ _ _ Ed Hr). }
  right. destruct (extract_test_results_dict (Plain (response_text answer)))
    as [entries He].
  exists answer, ms1, entries. split; [reflexivity|]. split; [exact He|].
  destruct (has_failed_tests (VDict entries)) as [[|]|e] eqn:Hf.
  - right. right. split; [reflexivity|]. cbv zeta.
    destruct (respond ms1 (fix_prompt (current_code st) (VDict entries) prompt))
      as [[repair|e] ms2] eqn:Hr2.
    + right. exists repair, ms2. split; [reflexivity|].
      apply (cycle_repaired St respond _ _ _ _ _ _ _ Hr He Hf Hr2).
    + left. exists e, ms2. split; [reflexivity|].
      apply (cycle_repair_raises St respond _ _ _ _ _ _ _ Hr He Hf Hr2).
  - left. split; [reflexivity|].
    apply (cycle_success St respond _ _ _ _ _ Hr He Hf).
  - right. left. exists e. split; [reflexivity|].
    apply (cycle_verdict_raises St respond _ _ _ _ _ _ Hr He Hf).
Qed.

(** Reasoning about the loop: [P] holds while the loop runs, [Q] when it
    is left, by its test or by [break]. *)
Lemma while_loop_rule (prompt : string) (max : Z) (P Q : state -> Prop) :
  (forall st, P st -> is_dict (final_test_results st) = true) ->
  (forall st, P st -> all_tests_pass st = true \/ max <= iteration st ->
              Q st) ->
  (forall st b st',
     P st -> all_tests_pass st = false -> iteration st < max ->
     cycle prompt st = (Return b, st') ->
     if b then Q st' else P st') ->
  forall (fuel : nat) (st : state),
    P st -> (turns_left max st <= fuel)%nat ->
    exists st', while_loop fuel prompt max st = (Return tt, st') /\ Q st'.
Proof.
  intros Hdict Hexit Hstep. induction fuel as [|f IH]; intros st HP Hf.
  - exists st. cbn [Prompts.while_loop].
    destruct (all_tests_pass st) eqn:Ep; cbn [negb andb].
    + split; [reflexivity|]. apply Hexit; auto.
    + destruct (Z.ltb_spec (iteration st) max); [lia|].
      split; [reflexivity|]. apply Hexit; auto.
  - cbn [Prompts.while_loop].
    destruct (all_tests_pass st) eqn:Ep; cbn [negb andb].
    { exists st. split; [reflexivity|]. apply Hexit; auto. }
    destruct (Z.ltb_spec (iteration st) max) as [Hlt|Hge].
    2:{ exists st. split; [reflexivity|]. apply Hexit; auto. }
    destruct (cycle_total St respond prompt st (Hdict st HP))
      as (b & st' & Hc & _ & Hi & _).
    rewrite Hc. pose proof (Hstep st b st' HP Ep Hlt Hc) as Hs.
    destruct b.
    + exists st'. auto.
    + apply IH; [exact Hs|lia].
Qed.

(** The same for the whole run: the update of the status after the loop
    keeps everything but the record. *)
Lemma run_loop_rule (code prompt : string) (max : Z) (ms : St)
      (P Q : state -> Prop) :
  (forall st, P st -> is_dict (final_test_results st) = true) ->
  (forall st, P st -> all_tests_pass st = true \/ max <= iteration st ->
              Q st) ->
  (forall st b st',
     P st -> all_tests_pass st = false -> iteration st < max ->
     cycle prompt st = (Return b, st') ->
     if b then Q st' else P st') ->
  P (initial St code ms) ->
  exists st' d,
    while_loop (Z.to_nat max) prompt max (initial St code ms)
      = (Return tt, st') /\
    Q st' /\
    final_test_results st' = VDict d /\
    run_loop prompt max (initial St code ms) =
      (Return tt,
       if negb (all_tests_pass st') && (max <=? iteration st')
       then set_final St (with_status "max_iterations_reached" d) st'
       else st').
Proof.
  intros Hdict Hexit Hstep HP.
  destruct (while_loop_rule prompt max P Q Hdict Hexit Hstep (Z.to_nat max)
              (initial St code ms) HP) as (st' & Hw & HQ).
  { cbn [initial iteration]. lia. }
  destruct (while_loop_total St respond prompt max (Z.to_nat max)
              (initial St code ms) eq_refl) as (st2 & Hw2 & Hd & _).
  rewrite Hw in Hw2. injection Hw2 as <-.
  destruct (final_test_results st') as [| | | | | |d] eqn:Ed; try discriminate.
  exists st', d. repeat split; auto.
  apply (run_loop_eq St respond _ _ _ _ _ Hw Ed).
Qed.

(** ** What a run leaves behind *)

Lemma status_with_error (e : exn) (d : dict) :
  exists d', with_error e d = VDict d' /\
             dict_get "status" d' = Some (VStr "error") /\
             dict_has "error_message" d' = true.
Proof.
  eexists. split; [reflexivity|]. split.
  - rewrite dict_get_set_other by discriminate. apply dict_get_set_same.
  - unfold dict_has. rewrite dict_get_set_same. reflexivity.
Qed.

Lemma code_origin_kept (code prompt : string) (st : state) (i : Z) (b : bool)
      (v : value) (ms1 : St) (more : list string) :
  code_origin code prompt st ->
  code_origin code prompt
    (mk_loop_state St (current_code st) i b v ms1 (calls st ++ more)).
Proof.
  intros [H|(c & record & msp & repair & ms' & Hin & Hr & Hc)]; [left; exact H|].
  right. exists c, record, msp, repair, ms'. cbn [calls current_code].
  repeat split; auto. apply in_or_app. auto.
Qed.

Lemma run_step (code prompt : string) (max : Z) (st : state) (b : bool)
      (st' : state) :
  run_inv code prompt st -> all_tests_pass st = false ->
  iteration st < max ->
  cycle prompt st = (Return b, st') ->
  if b then run_post code prompt max st' else run_inv code prompt st'.
Proof.
  intros (Hd & _ & Hcode) Ep Hlt Hc.
  destruct (final_test_results st) as [| | | | | |d0] eqn:Ed; try discriminate.
  destruct (cycle_cases prompt st d0 Ed)
    as [(e & ms1 & Hr & Hcy)
       |(answer & ms1 & entries & Hr & He &
         [(Hf & Hcy)
         |[(e & Hf & Hcy)
          |(Hf & [(e & ms2 & Hr2 & Hcy)|(repair & ms2 & Hr2 & Hcy)])]])];
    rewrite Hcy in Hc; injection Hc as <- <-;
    unfold RunSpec.run_post, RunSpec.run_inv;
    try (pose proof (code_origin_kept code prompt st) as Hkept);
    cbn [current_code iteration all_tests_pass final_test_results
         model_state calls]; rewrite ?Ep.
  - destruct (status_with_error e d0) as (d' & -> & Hs & Hm).
    repeat split; auto; try discriminate. eauto.
  - repeat split; auto.
    + cbn [status_of with_status]. apply dict_get_set_same.
    + apply last_last.
  - destruct (status_with_error e entries) as (d' & -> & Hs & Hm).
    repeat split; auto; try discriminate. eauto.
  - destruct (status_with_error e entries) as (d' & -> & Hs & Hm).
    repeat split; auto; try discriminate. eauto.
  - repeat split; auto; try discriminate. right.
    exists (current_code st), (VDict entries), ms1, repair, ms2.
    cbn [calls current_code]. repeat split; auto.
    apply in_or_app. right. right. left. reflexivity.
Qed.

Lemma run_outcome (code prompt : string) (max : Z) (ms : St) :
  exists st d,
    run_loop prompt max (initial St code ms) = (Return tt, st) /\
    final_test_results st = VDict d /\
    dict_get "status" d
    = Some (VStr (if all_tests_pass st then "complete_success"
                  else if max <=? iteration st then "max_iterations_reached"
                       else "error")) /\
    (all_tests_pass st = false -> iteration st < max ->
     dict_has "error_message" d = true) /\
    (all_tests_pass st = true ->
     last (calls st) "" = full_prompt prompt (current_code st)) /\
    code_origin code prompt st.
Proof.
  destruct (run_loop_rule code prompt max ms (run_inv code prompt)
              (run_post code prompt max))
    as (st' & d & _ & ((Hd & Hpass & Hcode) & Herr) & Ed & Hrun).
  - intros st H. apply H.
  - intros st HP [Hp|Hi]; split; auto; intros; [congruence|lia].
  - apply run_step.
  - unfold RunSpec.run_inv, RunSpec.code_origin.
    cbn [initial current_code all_tests_pass final_test_results is_dict].
    repeat split; auto; discriminate.
  - rewrite Hrun. destruct (all_tests_pass st') eqn:Ep; cbn [negb andb].
    + exists st', d. destruct (Hpass eq_refl) as [Hs Hl].
      rewrite Ed in Hs. cbn [status_of] in Hs. rewrite Ep.
      repeat split; auto. discriminate.
    + destruct (Z.leb_spec max (iteration st')) as [Hge|Hlt].
      * eexists. eexists. split; [reflexivity|].
        cbn [set_final final_test_results all_tests_pass iteration
             current_code calls with_status].
        split; [reflexivity|]. rewrite Ep.
        destruct (Z.leb_spec max (iteration st')); [|lia].
        repeat split; auto; try discriminate; try lia.
        apply dict_get_set_same.
      * destruct (Herr eq_refl Hlt) as (d' & Ed' & Hs & Hm).
        rewrite Ed in Ed'. injection Ed' as <-.
        exists st', d. rewrite Ep.
        destruct (Z.leb_spec max (iteration st')); [lia|].
        repeat split; auto. discriminate.
Qed.

(** ** A first answer that shows no failure *)

Lemma run_first_success (code prompt : string) (max : Z) (ms ms1 : St)
      (answer : response) (entries : dict) :
  respond ms (full_prompt prompt code) = (Return answer, ms1) ->
  extract_test_results (Plain (response_text answer)) = Return (VDict entries) ->
  has_failed_tests (VDict entries) = Return false ->
  1 <= max ->
  run_loop prompt max (initial St code ms) =
    (Return tt,
     mk_loop_state St code 1 true
       (with_status "complete_success" entries) ms1
       [full_prompt prompt code]).
Proof.
  intros Hr He Hft Hmax.
  eapply eq_trans; [eapply run_loop_eq with (d := dict_set _ _ entries)|].
  - destruct (Z.to_nat max) as [|f] eqn:Ef; [lia|].
    cbn [Prompts.while_loop]. cbn [initial all_tests_pass iteration negb andb].
    destruct (0 <? max) eqn:El; [|apply Z.ltb_ge in El; lia].
    rewrite (cycle_success St respond prompt (initial St code ms) answer ms1
               entries Hr He Hft).
    destruct f; reflexivity.
  - reflexivity.
  - reflexivity.
Qed.

(** ** A model that always reports a failure: the code that comes back *)

Lemma run_loop_failing (code prompt : string) (max : Z) (ms : St) :
  always_reports_failure St respond prompt ->
  1 <= max ->
  exists st, run_loop prompt max (initial St code ms) = (Return tt, st) /\
             from_repair prompt st.
Proof.
  intros [Heval Hfix] Hmax.
  destruct (run_loop_rule code prompt max ms
              (fun st => is_dict (final_test_results st) = true /\
                         all_tests_pass st = false /\
                         (0 < iteration st -> from_repair prompt st))
              (fun st => all_tests_pass st = false /\ max <= iteration st /\
                         (0 < iteration st -> from_repair prompt st)))
    as (st' & d & _ & (Hp & Hi & Hfrom) & Ed & Hrun).
  - intros st H. apply H.
  - intros st (Hd & Hp & Hfr) [H|H]; [congruence|auto].
  - intros st b st' (Hd & Hp & Hfr) _ Hlt Hc.
    destruct (Heval (model_state st) (current_code st))
      as (answer & ms1 & Hr & Hv).
    destruct (verdict_inv _ _ Hv) as (entries & He & Hft).
    destruct (Hfix ms1 (current_code st) (VDict entries))
      as (repair & ms2 & Hr2).
    rewrite (cycle_repaired St respond _ _ _ _ _ _ _ Hr He Hft Hr2) in Hc.
    injection Hc as <- <-.
    cbn [current_code iteration all_tests_pass final_test_results
         model_state calls].
    repeat split; auto. intros _.
    exists (current_code st), (VDict entries), ms1, repair.
    cbn [current_code model_state calls]. repeat split; auto.
    change [full_prompt prompt (current_code st);
            fix_prompt (current_code st) (VDict entries) prompt]
      with ([full_prompt prompt (current_code st)]
            ++ [fix_prompt (current_code st) (VDict entries) prompt])%list.
    rewrite List.app_assoc. apply last_last.
  - cbn. repeat split; auto. lia.
  - rewrite Hrun, Hp. cbn [negb andb].
    destruct (Z.leb_spec max (iteration st')); [|lia].
    eexists. split; [reflexivity|].
    destruct Hfrom as (c & record & msp & repair & Hl & Hr & Hc); [lia|].
    exists c, record, msp, repair. auto.
Qed.

End Run.

End RunFacts.

(** X10. The status of the record that test_case_gen_checker returns
    always tells how the run ended, and is never the initial placeholder
    incomplete: complete_success exactly when a cycle found no failure;
    otherwise max_iterations_reached when the counter has reached the cap,
    and error, with an error message beside it, when the loop was left
    before the cap. *)
Theorem X10_status_tells_outcome
        (St : Type) (respond : St -> string -> Py.result Helper.response * St)
        (code prompt : string) (max_iterations : Z) (ms : St) :
  let st := Prompts.final_state St respond code prompt max_iterations ms in
  exists d,
    Prompts.test_case_gen_checker St respond code prompt max_iterations ms
    = Py.Return (Prompts.current_code st, Py.VDict d) /\
    Py.dict_get "status" d
    = Some (Py.VStr
              (if Prompts.all_tests_pass st then "complete_success"
               else if max_iterations <=? Prompts.iteration st
                    then "max_iterations_reached"
                    else "error")) /\
    (Prompts.all_tests_pass st = false ->
     Prompts.iteration st < max_iterations ->
     Py.dict_has "error_message" d = true).
Proof.
  intros st.
  destruct (RunFacts.run_outcome St respond code prompt max_iterations ms)
    as (st' & d & Hrun & Ed & Hs & Hm & _).
  assert (st = st') as ->
      by (unfold st, Prompts.final_state; rewrite Hrun; reflexivity).
  exists d. unfold Prompts.test_case_gen_checker. rewrite Hrun, Ed.
  repeat split; auto.
Qed.

(** X11. A record with status complete_success certifies the code that is
    returned with it: the last prompt sent to the model asked for the
    evaluation of exactly that code, and the answer showed no failure. *)
Theorem X11_success_certifies_returned_code
        (St : Type) (respond : St -> string -> Py.result Helper.response * St)
        (code prompt : string) (max_iterations : Z) (ms : St) :
  let st := Prompts.final_state St respond code prompt max_iterations ms in
  Prompts.status_of (Prompts.final_test_results st)
  = Some (Py.VStr "complete_success") ->
  Prompts.test_case_gen_checker St respond code prompt max_iterations ms
  = Py.Return (Prompts.current_code st, Prompts.final_test_results st) /\
  Prompts.all_tests_pass st = true /\
  last (Prompts.calls st) ""%string
  = Prompts.full_prompt prompt (Prompts.current_code st).
Proof.
  intros st.
  destruct (RunFacts.run_outcome St respond code prompt max_iterations ms)
    as (st' & d & Hrun & Ed & Hs & _ & Hl & _).
  assert (st = st') as ->
      by (unfold st, Prompts.final_state; rewrite Hrun; reflexivity).
  rewrite Ed. cbn [Prompts.status_of]. rewrite Hs. intros H.
  assert (Prompts.all_tests_pass st' = true) as Hp.
  { destruct (Prompts.all_tests_pass st'); [reflexivity|].
    destruct (max_iterations <=? Prompts.iteration st'); discriminate. }
  unfold Prompts.test_case_gen_checker. rewrite Hrun, Ed. auto.
Qed.

Lemma X11_success_certifies_returned_code_witness :
  Prompts.test_case_gen_checker nat Samples.recovering_model
    "code" "problem" 3 0%nat
  = Py.Return
      (Prompts.current_code
         (Prompts.final_state nat Samples.recovering_model
            "code" "problem" 3 0%nat),
       Prompts.final_test_results
         (Prompts.final_state nat Samples.recovering_model
            "code" "problem" 3 0%nat)) /\
  Prompts.all_tests_pass
    (Prompts.final_state nat Samples.recovering_model "code" "problem" 3 0%nat)
  = true /\
  last (Prompts.calls
          (Prompts.final_state nat Samples.recovering_model
             "code" "problem" 3 0%nat)) ""%string
  = Prompts.full_prompt "problem"
      (Prompts.current_code
         (Prompts.final_state nat Samples.recovering_model
            "code" "problem" 3 0%nat)).
Proof.
  apply (X11_success_certifies_returned_code nat Samples.recovering_model
           "code" "problem" 3 0%nat).
  vm_compute. reflexivity.
Defined.

(** X12. The code that test_case_gen_checker returns is the code it was
    given, or what code_extractor made of an answer that the model gave to
    a repair request sent in this run: nothing else ever becomes the
    current code. *)
Theorem X12_returned_code_origin
        (St : Type) (respond : St -> string -> Py.result Helper.response * St)
        (code prompt : string) (max_iterations : Z) (ms : St) :
  let st := Prompts.final_state St respond code prompt max_iterations ms in
  exists record,
    Prompts.test_case_gen_checker St respond code prompt max_iterations ms
    = Py.Return (Prompts.current_code st, record) /\
    (Prompts.current_code st = code \/
     exists c results msp repair ms',
       In (Prompts.fix_prompt c results prompt) (Prompts.calls st) /\
       respond msp (Prompts.fix_prompt c results prompt)
       = (Py.Return repair, ms') /\
       Prompts.current_code st
       = Helper.code_extractor (Helper.Plain (Prompts.response_text repair))).
Proof.
  intros st.
  destruct (RunFacts.run_outcome St respond code prompt max_iterations ms)
    as (st' & d & Hrun & Ed & _ & _ & _ & Ho).
  assert (st = st') as ->
      by (unfold st, Prompts.final_state; rewrite Hrun; reflexivity).
  exists (Py.VDict d). unfold Prompts.test_case_gen_checker.
  rewrite Hrun, Ed. split; [reflexivity|exact Ho].
Qed.

(** X13. When the model reports a failure at every evaluation and answers
    every repair request, the code that comes back with
    max_iterations_reached is the artifact of the last repair: the last
    prompt of the run is a repair request, so that code has not been
    evaluated. *)
Theorem X13_code_at_cap_is_untested_repair
        (St : Type) (respond : St -> string -> Py.result Helper.response * St)
        (code prompt : string) (max_iterations : Z) (ms : St) :
  Spec.always_reports_failure St respond prompt ->
  1 <= max_iterations ->
  let st := Prompts.final_state St respond code prompt max_iterations ms in
  exists c results msp repair,
    last (Prompts.calls st) ""%string = Prompts.fix_prompt c results prompt /\
    respond msp (Prompts.fix_prompt c results prompt)
    = (Py.Return repair, Prompts.model_state st) /\
    exists record,
      Prompts.test_case_gen_checker St respond code prompt max_iterations ms
      = Py.Return
          (Helper.code_extractor (Helper.Plain (Prompts.response_text repair)),
           record).
Proof.
  intros Hfail Hmax st.
  destruct (RunFacts.run_loop_failing St respond code prompt max_iterations ms
              Hfail Hmax) as (st' & Hrun & c & results & msp & repair
                              & Hl & Hr & Hc).
  assert (st = st') as ->
      by (unfold st, Prompts.final_state; rewrite Hrun; reflexivity).
  exists c, results, msp, repair. repeat split; auto.
  unfold Prompts.test_case_gen_checker. rewrite Hrun, Hc. eauto.
Qed.

Lemma X13_code_at_cap_is_untested_repair_witness :
  let st := Prompts.final_state nat Spec.failing_model "code" "problem" 2 0%nat
  in
  exists c results msp repair,
    last (Prompts.calls st) ""%string
    = Prompts.fix_prompt c results "problem" /\
    Spec.failing_model msp (Prompts.fix_prompt c results "problem")
    = (Py.Return repair, Prompts.model_state st) /\
    exists record,
      Prompts.test_case_gen_checker nat Spec.failing_model
        "code" "problem" 2 0%nat
      = Py.Return
          (Helper.code_extractor (Helper.Plain (Prompts.response_text repair)),
           record).
Proof.
  apply (X13_code_at_cap_is_untested_repair nat Spec.failing_model
           "code" "problem" 2 0%nat).
  - apply failing_model_always_fails.
  - lia.
Defined.

(** X14. An evaluation answer that decodes to an object with neither
    test_cases nor raw_output ends the run at once with complete_success,
    whatever the object says, an error report included: one model call,
    the code returned as given. *)
Theorem X14_object_without_cases_is_success
        (St : Type) (respond : St -> string -> Py.result Helper.response * St)
        (code prompt : string) (max_iterations : Z) (ms ms1 : St)
        (answer : Helper.response) (entries : Py.dict) :
  respond ms (Prompts.full_prompt prompt code) = (Py.Return answer, ms1) ->
  Helper.extract_test_results (Helper.Plain (Prompts.response_text answer))
  = Py.Return (Py.VDict entries) ->
  Py.dict_has "test_cases" entries = false ->
  Py.dict_has "raw_output" entries = false ->
  1 <= max_iterations ->
  Prompts.test_case_gen_checker St respond code prompt max_iterations ms
  = Py.Return (code, Spec.with_status "complete_success" entries) /\
  Prompts.calls (Prompts.final_state St respond code prompt max_iterations ms)
  = [Prompts.full_prompt prompt code].
Proof.
  intros Hr He Ht Hw Hmax.
  assert (Helper.has_failed_tests (Py.VDict entries) = Py.Return false) as Hf.
  { unfold Helper.has_failed_tests. rewrite Ht, Hw.
    destruct (Helper.failure_word _); reflexivity. }
  pose proof (RunFacts.run_first_success St respond code prompt max_iterations
                ms ms1 answer entries Hr He Hf Hmax) as Hrun.
  unfold Prompts.test_case_gen_checker, Prompts.final_state. rewrite Hrun.
  split; reflexivity.
Qed.

Lemma X14_object_without_cases_is_success_witness :
  Prompts.test_case_gen_checker nat Samples.evasive_model
    "code" "problem" 3 0%nat
  = Py.Return
      ("code"%string,
       Spec.with_status "complete_success"
         [("error"%string, Py.VStr "the tests could not be run")]) /\
  Prompts.calls
    (Prompts.final_state nat Samples.evasive_model "code" "problem" 3 0%nat)
  = [Prompts.full_prompt "problem" "code"].
Proof.
  apply (X14_object_without_cases_is_success nat Samples.evasive_model
           "code" "problem" 3 0%nat 1%nat
           (Helper.Plain
              (Py.VStr (Text.dq "{'error': 'the tests could not be run'}")))
           [("error"%string, Py.VStr "the tests could not be run")]).
  - reflexivity.
  - vm_compute. reflexivity.
  - reflexivity.
  - reflexivity.
  - lia.
Defined.

(** X15. With a cap of zero or less the model is never asked: the code
    comes back as given, with the initial record marked
    max_iterations_reached. *)
Theorem X15_no_cycle_without_budget
        (St : Type) (respond : St -> string -> Py.result Helper.response * St)
        (code prompt : string) (max_iterations : Z) (ms : St) :
  max_iterations <= 0 ->
  Prompts.test_case_gen_checker St respond code prompt max_iterations ms
  = Py.Return (code,
               Py.VDict [("test_cases"%string, Py.VList []);
                         ("status"%string, Py.VStr "max_iterations_reached")])
  /\
  Prompts.calls (Prompts.final_state St respond code prompt max_iterations ms)
  = [] /\
  Prompts.model_state
    (Prompts.final_state St respond code prompt max_iterations ms) = ms.
Proof.
  intros Hmax.
  assert (Prompts.run_loop St respond prompt max_iterations
            (Prompts.initial St code ms)
          = (Py.Return tt,
             Prompts.set_final St
               (Spec.with_status "max_iterations_reached"
                  [("test_cases"%string, Py.VList []);
                   ("status"%string, Py.VStr "incomplete")])
               (Prompts.initial St code ms))) as Hrun.
  { rewrite (LoopFacts.run_loop_eq St respond prompt max_iterations
               (Prompts.initial St code ms) (Prompts.initial St code ms)
               [("test_cases"%string, Py.VList []);
                ("status"%string, Py.VStr "incomplete")]).
    - cbn [Prompts.initial Prompts.all_tests_pass Prompts.iteration negb andb].
      destruct (Z.leb_spec max_iterations 0); [reflexivity|lia].
    - replace (Z.to_nat max_iterations) with 0%nat by lia.
      cbn [Prompts.while_loop]. destruct (_ && _); reflexivity.
    - reflexivity. }
  unfold Prompts.test_case_gen_checker, Prompts.final_state. rewrite Hrun.
  repeat split.
Qed.

Lemma X15_no_cycle_without_budget_witness :
  Prompts.test_case_gen_checker nat Spec.raising_model "code" "problem" (-2)
    0%nat
  = Py.Return ("code"%string,
               Py.VDict [("test_cases"%string, Py.VList []);
                         ("status"%string, Py.VStr "max_iterations_reached")])
  /\
  Prompts.calls
    (Prompts.final_state nat Spec.raising_model "code" "problem" (-2) 0%nat)
  = [] /\
  Prompts.model_state
    (Prompts.final_state nat Spec.raising_model "code" "problem" (-2) 0%nat)
  = 0%nat.
Proof.
  apply (X15_no_cycle_without_budget nat Spec.raising_model
           "code" "problem" (-2) 0%nat).
  lia.
Defined.

Module ObservedFacts.

Import Text Py Helper Prompts Spec Observed HelperFacts LoopFacts RunFacts.

Section Observed.

Variable St : Type.
Variable respond : St -> string -> result response * St.

#[local] Abbreviation St' := (St * list bool)%type.
#[local] Abbreviation respond' := (logged St respond).
#[local] Abbreviation forget := (forget St).

Lemma logged_inv (s s' : St') (p : string) (r : result response) :
  respond' s p = (r, s') ->
  respond (fst s) p = (r, fst s') /\ snd s' = (snd s ++ [raises r])%list.
Proof.
  unfold logged. destruct (respond (fst s) p) as [r0 m].
  intros [= <- <-]. auto.
Qed.

Ltac settle :=
  repeat (cbn [fst snd current_code iteration all_tests_pass
               final_test_results model_state calls];
          match goal with
          | |- context [match setitem ?a ?b ?c with _ => _ end] =>
              destruct (setitem a b c)
          end);
  reflexivity.

(** One turn over the observed model is the same turn over the model. *)
Lemma cycle_forget (prompt : string) (st : loop_state St') :
  cycle St respond prompt (forget st)
  = (fst (cycle St' respond' prompt st),
     forget (snd (cycle St' respond' prompt st))).
Proof.
  unfold Prompts.cycle, analyze_and_fix_code.
  unfold bindM, try_exceptM, modify, gets, call_model, lift,
    assign_final, ret, set_iteration, set_final, set_pass, set_code.
  unfold Observed.forget, logged.
  cbn [current_code iteration all_tests_pass final_test_results
       model_state calls fst snd].
  destruct (respond (fst (model_state st))
              (full_prompt prompt (current_code st))) as [[answer|e] m1];
    [|settle].
  cbn [fst snd current_code iteration all_tests_pass final_test_results
       model_state calls].
  destruct (extract_test_results (Plain (response_text answer))) as [v|e];
    [|settle].
  cbn [fst snd current_code iteration all_tests_pass final_test_results
       model_state calls].
  destruct (has_failed_tests v) as [[|]|e]; cbn [negb]; [|settle|settle].
  cbn [fst snd current_code iteration all_tests_pass final_test_results
       model_state calls].
  match goal with
  | |- context [respond m1 ?p] => destruct (respond m1 p) as [[repair|e] m2]
  end; settle.
Qed.

Lemma while_loop_forget (prompt : string) (max : Z) (fuel : nat) :
  forall st : loop_state St',
    while_loop St respond fuel prompt max (forget st)
    = (fst (while_loop St' respond' fuel prompt max st),
       forget (snd (while_loop St' respond' fuel prompt max st))).
Proof.
  induction fuel as [|f IH]; intros st; cbn [Prompts.while_loop].
  - change (all_tests_pass (forget st)) with (all_tests_pass st).
    change (iteration (forget st)) with (iteration st).
    destruct (_ && _); reflexivity.
  - change (all_tests_pass (forget st)) with (all_tests_pass st).
    change (iteration (forget st)) with (iteration st).
    destruct (negb (all_tests_pass st) && (iteration st <? max));
      [|reflexivity].
    rewrite cycle_forget.
    destruct (cycle St' respond' prompt st) as [[[|]|e] st'];
      cbn [fst snd]; try reflexivity.
    apply IH.
Qed.

Lemma run_loop_forget (prompt : string) (max : Z) (st : loop_state St') :
  run_loop St respond prompt max (forget st)
  = (fst (run_loop St' respond' prompt max st),
     forget (snd (run_loop St' respond' prompt max st))).
Proof.
  unfold Prompts.run_loop, bindM, gets. rewrite while_loop_forget.
  destruct (while_loop St' respond' (Z.to_nat max) prompt max st)
    as [[[]|e] st']; cbn [fst snd]; [|reflexivity].
  change (all_tests_pass (forget st')) with (all_tests_pass st').
  change (iteration (forget st')) with (iteration st').
  destruct (negb (all_tests_pass st') && (max <=? iteration st'));
    [|reflexivity].
  unfold assign_final, ret.
  change (final_test_results (forget st')) with (final_test_results st').
  destruct (setitem (final_test_results st') "status" _); reflexivity.
Qed.

Lemma forallb_removelast (l : list bool) :
  forallb negb l = true -> forallb negb (removelast l) = true.
Proof.
  induction l as [|b l IH]; [reflexivity|]. cbn [forallb]. intros H.
  apply andb_true_iff in H. destruct H as [Hb Hl].
  destruct l as [|c l]; [reflexivity|].
  change (removelast (b :: c :: l)) with (b :: removelast (c :: l)).
  cbn [forallb]. rewrite Hb, (IH Hl). reflexivity.
Qed.

(** The journal of a run: one entry for each prompt sent, and no raise
    before the last entry. *)
Lemma run_journal (code prompt : string) (max : Z) (ms : St) :
  exists st,
    run_loop St' respond' prompt max (initial St' code (ms, []))
    = (Return tt, st) /\
    List.length (snd (model_state st)) = List.length (calls st) /\
    forallb negb (removelast (snd (model_state st))) = true.
Proof.
  destruct (run_loop_rule St' respond' code prompt max (ms, [])
              (fun st => is_dict (final_test_results st) = true /\
                         List.length (snd (model_state st))
                         = List.length (calls st) /\
                         forallb negb (snd (model_state st)) = true)
              (fun st => List.length (snd (model_state st))
                         = List.length (calls st) /\
                         forallb negb (removelast (snd (model_state st)))
                         = true))
    as (st' & d & _ & (Hlen & Hj) & Ed & Hrun).
  - intros st H. apply H.
  - intros st (_ & Hl & Hf) _. split; [exact Hl|].
    apply forallb_removelast, Hf.
  - intros st b st' (Hd & Hl & Hf) _ _ Hc.
    destruct (final_test_results st) as [| | | | | |d0] eqn:Ed;
      try discriminate.
    destruct (cycle_cases St' respond' prompt st d0 Ed)
      as [(e & ms1 & Hr & Hcy)
         |(answer & ms1 & entries & Hr & He &
           [(Hf1 & Hcy)
           |[(e & Hf1 & Hcy)
            |(Hf1 & [(e & ms2 & Hr2 & Hcy)|(repair & ms2 & Hr2 & Hcy)])]])];
      rewrite Hcy in Hc; injection Hc as <- <-;
      cbn [current_code iteration all_tests_pass final_test_results
           model_state calls];
      apply logged_inv in Hr; destruct Hr as [_ Hj1];
      try (apply logged_inv in Hr2; destruct Hr2 as [_ Hj2];
           rewrite Hj2);
      rewrite Hj1; cbn [raises];
      rewrite ?removelast_last, ?forallb_app, ?List.length_app, ?Hf, ?Hl;
      cbn [forallb negb andb List.length]; repeat split; auto; lia.
  - cbn. auto.
  - rewrite Hrun. eexists. split; [reflexivity|].
    destruct (_ && _); cbn [set_final model_state calls]; auto.
Qed.

End Observed.

End ObservedFacts.

(** X16. Once a call of the model has raised, the model is not called
    again in that run.  The model is observed through a journal that
    notes, for each call, whether it raised; the observed model answers
    as the model does, so the run returns the same result and sends the
    same prompts; the journal has one entry for each prompt sent, and
    only its last entry can be a raise. *)
Theorem X16_no_call_after_a_raise
        (St : Type) (respond : St -> string -> Py.result Helper.response * St)
        (code prompt : string) (max_iterations : Z) (ms : St) :
  let observed :=
    Prompts.final_state (St * list bool) (Observed.logged St respond)
      code prompt max_iterations (ms, []) in
  let journal := snd (Prompts.model_state observed) in
  Prompts.test_case_gen_checker (St * list bool) (Observed.logged St respond)
    code prompt max_iterations (ms, [])
  = Prompts.test_case_gen_checker St respond code prompt max_iterations ms /\
  Prompts.calls observed
  = Prompts.calls (Prompts.final_state St respond code prompt max_iterations ms)
  /\
  List.length journal = List.length (Prompts.calls observed) /\
  forallb negb (removelast journal) = true.
Proof.
  intros observed journal.
  destruct (ObservedFacts.run_journal St respond code prompt max_iterations ms)
    as (st & Hrun & Hlen & Hj).
  pose proof (ObservedFacts.run_loop_forget St respond prompt max_iterations
                (Prompts.initial (St * list bool) code (ms, []))) as Hsim.
  rewrite Hrun in Hsim. cbn [fst snd] in Hsim.
  change (Observed.forget St (Prompts.initial (St * list bool) code (ms, [])))
    with (Prompts.initial St code ms) in Hsim.
  unfold journal, observed, Prompts.final_state,
    Prompts.test_case_gen_checker.
  rewrite Hrun, Hsim. cbn [snd]. repeat split; auto.
Qed.

(* ================================================================== *)
(** * Properties of ui_elements.py, wrapper.py and main.py              *)
(* ================================================================== *)

Module SliceFacts.

Import Text Ui TextFacts.

Lemma take_drop (n : nat) (s : string) : take n s ++ drop n s = s.
Proof.
  revert s. induction n as [|n IH]; intros [|c r]; cbn; try reflexivity.
  now rewrite IH.
Qed.

Lemma length_take (n : nat) (s : string) :
  String.length (take n s) = Nat.min n (String.length s).
Proof.
  revert s. induction n as [|n IH]; intros [|c r]; cbn; try reflexivity.
  now rewrite IH.
Qed.

Lemma length_drop_exact (n : nat) (s : string) :
  String.length (drop n s) = (String.length s - n)%nat.
Proof.
  revert s. induction n as [|n IH]; intros [|c r]; cbn; try reflexivity.
  apply IH.
Qed.

Lemma drop_all (n : nat) (s : string) :
  (String.length s <= n)%nat -> drop n s = "".
Proof.
  revert s. induction n as [|n IH]; intros [|c r]; cbn; try reflexivity.
  - lia.
  - intros H. apply IH. lia.
Qed.

Lemma take_all (n : nat) (s : string) :
  (String.length s <= n)%nat -> take n s = s.
Proof.
  intros H. rewrite <- (take_drop n s) at 2. rewrite (drop_all n s H).
  now rewrite append_nil_r.
Qed.

Lemma drop_drop (n m : nat) (s : string) : drop n (drop m s) = drop (m + n) s.
Proof.
  revert s. induction m as [|m IH]; intros s; [reflexivity|].
  destruct s as [|c r]; cbn.
  - destruct n; reflexivity.
  - apply IH.
Qed.

Lemma drop_append (a b : string) : drop (String.length a) (a ++ b) = b.
Proof. induction a as [|c a IH]; [destruct b; reflexivity|exact IH]. Qed.

Lemma take_append (a b : string) : take (String.length a) (a ++ b) = a.
Proof.
  induction a as [|c a IH]; [destruct b; reflexivity|]. cbn. now rewrite IH.
Qed.

Lemma length_repeat_string (s : string) (n : nat) :
  String.length (repeat_string s n) = (String.length s * n)%nat.
Proof.
  induction n as [|n IH]; cbn [repeat_string String.length]; [lia|].
  rewrite length_append, IH. lia.
Qed.

Lemma len_times (s : string) (n : Z) :
  0 <= n -> len (times s n) = len s * n.
Proof.
  intros H. unfold len, times. rewrite length_repeat_string. lia.
Qed.

Lemma times_nothing (s : string) (n : Z) : n <= 0 -> times s n = "".
Proof.
  intros H. unfold times. replace (Z.to_nat n) with 0%nat by lia. reflexivity.
Qed.

Lemma len_append (a b : string) : len (a ++ b) = len a + len b.
Proof. unfold len. rewrite length_append. lia. Qed.

Lemma len_ljust (s : string) (width : Z) :
  len (ljust s width) = Z.max (len s) width.
Proof.
  unfold ljust. rewrite len_append.
  destruct (Z.le_gt_cases width (len s)) as [H|H].
  - rewrite times_nothing by lia. change (len "") with 0. lia.
  - rewrite len_times by lia. change (len " ") with 1. lia.
Qed.

End SliceFacts.

(** X17. The key shown in the settings menu hides nothing of a short key:
    a key of at most four characters is printed twice in a row, and a key
    of four to eight characters can be read in full from what is printed,
    its first four characters followed by its last four. *)
Theorem X17_short_key_is_not_masked (key : string) :
  (String.length key <= 8)%nat ->
  let shown := Wrapper.masked_key key in
  ((String.length key <= 4)%nat -> shown = (key ++ key)%string) /\
  ((4 <= String.length key)%nat ->
   key = (Text.take 4 shown
          ++ Text.drop (12 - String.length key) shown)%string).
Proof.
  intros Hlen shown. unfold shown, Wrapper.masked_key.
  rewrite SliceFacts.times_nothing by (unfold Ui.len; lia).
  cbn [append]. split; intros H.
  - rewrite SliceFacts.take_all by lia.
    replace (String.length key - 4)%nat with 0%nat by lia.
    destruct key; reflexivity.
  - assert (String.length (Text.take 4 key) = 4%nat) as Ht
        by (rewrite SliceFacts.length_take; lia).
    pose proof (SliceFacts.take_append (Text.take 4 key)
                  (Text.drop (String.length key - 4) key)) as H1.
    pose proof (SliceFacts.drop_append (Text.take 4 key)
                  (Text.drop (String.length key - 4) key)) as H2.
    rewrite Ht in H1, H2. rewrite H1.
    replace (12 - String.length key)%nat
      with (4 + (8 - String.length key))%nat by lia.
    rewrite <- SliceFacts.drop_drop, H2, SliceFacts.drop_drop.
    replace (String.length key - 4 + (8 - String.length key))%nat
      with 4%nat by lia.
    symmetry. apply SliceFacts.take_drop.
Qed.

Lemma X17_short_key_is_not_masked_witness :
  let shown := Wrapper.masked_key "hf_ab" in
  ((String.length "hf_ab" <= 4)%nat -> shown = ("hf_ab" ++ "hf_ab")%string) /\
  ((4 <= String.length "hf_ab")%nat ->
   "hf_ab"%string
   = (Text.take 4 shown ++ Text.drop (12 - String.length "hf_ab") shown)%string).
Proof.
  apply (X17_short_key_is_not_masked "hf_ab"). simpl. lia.
Defined.

(** X18. Of a key of eight characters or more the settings menu shows the
    first four and the last four characters and a star for each of the
    others: what is printed is as long as the key. *)
Theorem X18_long_key_is_masked (key : string) :
  (8 <= String.length key)%nat ->
  let shown := Wrapper.masked_key key in
  String.length shown = String.length key /\
  Text.take 4 shown = Text.take 4 key /\
  Text.drop (String.length key - 4) shown
  = Text.drop (String.length key - 4) key /\
  Text.take (String.length key - 8) (Text.drop 4 shown)
  = Text.repeat_char "*" (String.length key - 8).
Proof.
  intros Hlen shown. unfold shown, Wrapper.masked_key.
  assert (String.length (Text.take 4 key) = 4%nat) as Ht
      by (rewrite SliceFacts.length_take; lia).
  assert (Ui.times "*" (Ui.len key - 8)
          = Text.repeat_char "*" (String.length key - 8)) as ->.
  { unfold Ui.times, Ui.len.
    replace (Z.to_nat (Z.of_nat (String.length key) - 8))
      with (String.length key - 8)%nat by lia.
    generalize (String.length key - 8)%nat. intros n.
    induction n as [|n IH]; [reflexivity|]. cbn. now rewrite IH. }
  assert (String.length (Text.repeat_char "*" (String.length key - 8))
          = (String.length key - 8)%nat) as Hs.
  { generalize (String.length key - 8)%nat. intros n.
    induction n as [|n IH]; [reflexivity|]. cbn. now rewrite IH. }
  set (stars := Text.repeat_char "*" (String.length key - 8)) in *.
  set (tail := Text.drop (String.length key - 4) key).
  pose proof (SliceFacts.take_append (Text.take 4 key) (stars ++ tail)) as H1.
  pose proof (SliceFacts.drop_append (Text.take 4 key) (stars ++ tail)) as H2.
  pose proof (SliceFacts.take_append stars tail) as H3.
  pose proof (SliceFacts.drop_append stars tail) as H4.
  rewrite Ht in H1, H2. rewrite Hs in H3, H4.
  repeat split.
  - rewrite !TextFacts.length_append, Ht, Hs. unfold tail.
    rewrite SliceFacts.length_drop_exact. lia.
  - exact H1.
  - replace (String.length key - 4)%nat
      with (4 + (String.length key - 8))%nat at 1 by lia.
    rewrite <- SliceFacts.drop_drop, H2, H4. reflexivity.
  - rewrite H2. exact H3.
Qed.

Lemma X18_long_key_is_masked_witness :
  let shown := Wrapper.masked_key "hf_abcdefghij" in
  String.length shown = String.length "hf_abcdefghij" /\
  Text.take 4 shown = Text.take 4 "hf_abcdefghij" /\
  Text.drop (String.length "hf_abcdefghij" - 4) shown
  = Text.drop (String.length "hf_abcdefghij" - 4) "hf_abcdefghij" /\
  Text.take (String.length "hf_abcdefghij" - 8) (Text.drop 4 shown)
  = Text.repeat_char "*" (String.length "hf_abcdefghij" - 8).
Proof.
  apply (X18_long_key_is_masked "hf_abcdefghij"). simpl. lia.
Defined.

Module FilenameFacts.

Import Text Main TextFacts SliceFacts.

Lemma endswith_append (suffix s : string) : endswith suffix (s ++ suffix) = true.
Proof.
  unfold endswith. rewrite length_append.
  replace (String.length s + String.length suffix - String.length suffix)%nat
    with (String.length s) by lia.
  rewrite drop_append, String.eqb_refl, andb_true_r.
  apply Nat.leb_le. lia.
Qed.

End FilenameFacts.

(** X19. The name under which main saves the code always ends with .py
    and is never empty; a name that already ends with .py is kept as it
    is, nothing typed gives solution.py, and naming is idempotent. *)
Theorem X19_saved_name_ends_with_py (filename : string) :
  let name := Main.save_filename filename in
  Main.endswith ".py" name = true /\
  name <> ""%string /\
  (Main.endswith ".py" filename = true -> name = filename) /\
  (filename = ""%string -> name = "solution.py"%string) /\
  Main.save_filename name = name.
Proof.
  intros name.
  assert (forall f, Main.endswith ".py" f = true -> Main.save_filename f = f)
    as Hkeep.
  { intros f H. unfold Main.save_filename.
    destruct (String.eqb_spec f "") as [->|_]; [discriminate|].
    rewrite H. reflexivity. }
  assert (Main.endswith ".py" name = true) as Hend.
  { unfold name, Main.save_filename.
    destruct (String.eqb_spec filename "") as [->|_]; [reflexivity|].
    destruct (Main.endswith ".py" filename) eqn:E; cbn [negb]; [exact E|].
    apply FilenameFacts.endswith_append. }
  repeat split.
  - exact Hend.
  - intros E. rewrite E in Hend. discriminate.
  - apply Hkeep.
  - intros ->. reflexivity.
  - apply Hkeep, Hend.
Qed.

Module BoxFacts.

Import Text Py Ui TextFacts SliceFacts.

Lemma splitlines_nonempty (s : string) : s <> "" -> splitlines s <> [].
Proof.
  destruct s as [|c r]; [congruence|]. intros _. cbn [splitlines].
  destruct (is_line_break c).
  - destruct r as [|d r']; [discriminate|].
    destruct ((code c =? 13) && (code d =? 10)); discriminate.
  - destruct (splitlines r); discriminate.
Qed.

Lemma fold_max_spec (rest : list string) (m0 : Z) :
  let m := fold_left (fun m x => Z.max m (len x)) rest m0 in
  m0 <= m /\
  (forall line, In line rest -> len line <= m) /\
  (m = m0 \/ exists line, In line rest /\ len line = m).
Proof.
  revert m0. induction rest as [|x rest IH]; intros m0; cbn [fold_left].
  - repeat split; [lia|intros line []|auto].
  - destruct (IH (Z.max m0 (len x))) as (H1 & H2 & H3).
    repeat split.
    + lia.
    + intros line [<-|Hin]; [lia|apply H2, Hin].
    + destruct H3 as [H3|(line & Hin & Hl)].
      * destruct (Z.max_spec m0 (len x)) as [[_ E]|[_ E]].
        -- right. exists x. split; [left; reflexivity|].
           rewrite H3. symmetry. exact E.
        -- left. rewrite H3. exact E.
      * right. exists line. split; [right; exact Hin|exact Hl].
Qed.

(** The longest line sets the width. *)
Lemma max_len_spec (lines : list string) :
  lines <> [] ->
  exists m, max_len lines = Return m /\
            (forall line, In line lines -> len line <= m) /\
            (exists line, In line lines /\ len line = m).
Proof.
  destruct lines as [|l rest]; [congruence|]. intros _.
  eexists. split; [reflexivity|].
  destruct (fold_max_spec rest (len l)) as (H1 & H2 & H3). split.
  - intros line [<-|Hin]; [exact H1|apply H2, Hin].
  - destruct H3 as [H3|(line & Hin & Hl)].
    + exists l. split; [left; reflexivity|congruence].
    + exists line. split; [right; exact Hin|exact Hl].
Qed.

Lemma len_row (border_char : string) (padding m : Z) (line : string) :
  0 <= padding -> len line <= m ->
  len (row border_char padding m line) = m + 2 * padding + 2 * len border_char.
Proof.
  intros Hp Hl. unfold row. rewrite !len_append, len_ljust.
  rewrite !len_times by lia. change (len " ") with 1. lia.
Qed.

Lemma len_nonneg (s : string) : 0 <= len s.
Proof. unfold len. lia. Qed.

End BoxFacts.

(** X20. The box that input_with_border prints around a prompt that is
    not empty: a top border, one row for each line of the prompt, a
    bottom border.  With padding of zero or more, and m the length of the
    longest line, every row is m plus twice the padding plus twice the
    border character wide, and a border is the border character repeated
    m plus twice the padding plus two times: rows and borders have the
    same width when the border character is a single character. *)
Theorem X20_box_around_prompt
        (prompt_text border_char : string) (padding : Z)
        (color reset : string) :
  prompt_text <> ""%string ->
  0 <= padding ->
  exists (m : Z) (border : string) (rows : list string),
    (forall line, In line (Ui.splitlines prompt_text) -> Ui.len line <= m) /\
    (exists line, In line (Ui.splitlines prompt_text) /\ Ui.len line = m) /\
    Ui.box prompt_text border_char padding color reset
    = Py.Return
        ((color ++ border)%string
           :: map (fun r => (color ++ r)%string) rows
           ++ [(color ++ border ++ reset)%string]) /\
    List.length rows = List.length (Ui.splitlines prompt_text) /\
    Ui.len border = Ui.len border_char * (m + 2 * padding + 2) /\
    (forall r, In r rows ->
               Ui.len r = m + 2 * padding + 2 * Ui.len border_char) /\
    (Ui.len border_char = 1 ->
     forall r, In r rows -> Ui.len r = Ui.len border).
Proof.
  intros Hne Hp.
  destruct (BoxFacts.max_len_spec _ (BoxFacts.splitlines_nonempty _ Hne))
    as (m & Hm & Hle & Hex).
  assert (0 <= m) as Hm0.
  { destruct Hex as (line & _ & <-). apply BoxFacts.len_nonneg. }
  exists m, (Ui.times border_char (m + padding * 2 + 2)),
    (map (Ui.row border_char padding m) (Ui.splitlines prompt_text)).
  assert (forall r,
            In r (map (Ui.row border_char padding m)
                      (Ui.splitlines prompt_text)) ->
            Ui.len r = m + 2 * padding + 2 * Ui.len border_char) as Hrows.
  { intros r Hin. apply in_map_iff in Hin. destruct Hin as (line & <- & Hin).
    apply BoxFacts.len_row; auto. }
  assert (Ui.len (Ui.times border_char (m + padding * 2 + 2))
          = Ui.len border_char * (m + 2 * padding + 2)) as Hb.
  { rewrite SliceFacts.len_times by lia. f_equal. lia. }
  repeat split; auto.
  - unfold Ui.box. rewrite Hm. cbn [Py.bind]. rewrite map_map. reflexivity.
  - apply length_map.
  - intros H1 r Hin. rewrite (Hrows r Hin), Hb, H1. lia.
Qed.

Lemma X20_box_around_prompt_witness :
  exists (m : Z) (border : string) (rows : list string),
    (forall line,
       In line (Ui.splitlines (String "a" (String Text.newline "bcd"))) ->
       Ui.len line <= m) /\
    (exists line,
       In line (Ui.splitlines (String "a" (String Text.newline "bcd"))) /\
       Ui.len line = m) /\
    Ui.box (String "a" (String Text.newline "bcd")) "*" 2 "<" ">"
    = Py.Return
        (("<" ++ border)%string
           :: map (fun r => ("<" ++ r)%string) rows
           ++ [("<" ++ border ++ ">")%string]) /\
    List.length rows
    = List.length (Ui.splitlines (String "a" (String Text.newline "bcd"))) /\
    Ui.len border = Ui.len "*" * (m + 2 * 2 + 2) /\
    (forall r, In r rows -> Ui.len r = m + 2 * 2 + 2 * Ui.len "*") /\
    (Ui.len "*" = 1 -> forall r, In r rows -> Ui.len r = Ui.len border).
Proof.
  apply (X20_box_around_prompt (String "a" (String Text.newline "bcd"))
           "*" 2 "<" ">").
  - discriminate.
  - lia.
Defined.

(** X21. input_with_border reads one line after printing the box when the
    prompt is not empty, and answers with that line, or with EOFError
    when no line is left; on an empty prompt it raises ValueError, since
    there is no line to measure, before it prints or reads anything. *)
Theorem X21_input_with_border_reads_one_line
        (prompt_text border_char : string) (padding : Z)
        (color reset : string) (typed : list string) :
  (prompt_text = ""%string ->
   exists e,
     Ui.input_with_border prompt_text border_char padding color reset typed
     = (Py.Raise e, typed, []) /\
     Py.exn_cls e = Py.ValueError) /\
  (prompt_text <> ""%string ->
   exists printed,
     Ui.box prompt_text border_char padding color reset = Py.Return printed /\
     List.length printed
     = (List.length (Ui.splitlines prompt_text) + 2)%nat /\
     Ui.input_with_border prompt_text border_char padding color reset typed
     = (fst (Ui.input typed), snd (Ui.input typed), printed) /\
     snd (Ui.input typed) = tl typed).
Proof.
  split.
  - intros ->. eexists. split; reflexivity.
  - intros Hne.
    destruct (BoxFacts.max_len_spec _ (BoxFacts.splitlines_nonempty _ Hne))
      as (m & Hm & _).
    unfold Ui.input_with_border, Ui.box. rewrite Hm. cbn [Py.bind].
    eexists. split; [reflexivity|]. split; [|split].
    + cbn [List.length]. rewrite List.length_app, length_map.
      cbn [List.length]. lia.
    + destruct (Ui.input typed). reflexivity.
    + destruct typed; reflexivity.
Qed.

Module SolveFacts.

Import Text Py Helper Prompts Ui Understand Main TextFacts LoopFacts BoxFacts.

Section Solve.

Variable St : Type.
Variable respond : St -> string -> result response * St.
Variable Fs : Type.
Variable write_file : Fs -> string -> string -> result unit * Fs.

#[local] Abbreviation world := (world St Fs).
#[local] Abbreviation solve := (solve St respond Fs write_file).

(** Around a prompt that is not empty the bordered prompt reads one
    line. *)
Lemma read_literal (prompt_text color reset : string) (w : world) :
  prompt_text <> "" ->
  read St Fs prompt_text color reset w
  = (fst (input (typed w)),
     mk_world St Fs (model w) (snd (input (typed w))) (files w) (asked w)
       (written w)).
Proof.
  intros Hne. unfold read, input_with_border, box.
  destruct (max_len_spec _ (splitlines_nonempty _ Hne)) as (m & -> & _).
  cbn [bind]. destruct (input (typed w)). reflexivity.
Qed.

(** The test phase sends at most six prompts. *)
Lemma test_calls (code problem : string) (ms : St) :
  (List.length (calls (final_state St respond code problem 3 ms)) <= 6)%nat.
Proof.
  destruct (run_loop_total St respond code problem 3 ms)
    as (st & Hrun & _ & Hi & Hc).
  unfold final_state. rewrite Hrun. cbn [snd]. lia.
Qed.

(** The test phase always returns. *)
Lemma test_returns (code problem : string) (ms : St) :
  exists final_code record,
    test_case_gen_checker St respond code problem 3 ms
    = Return (final_code, record).
Proof.
  destruct (run_loop_total St respond code problem 3 ms)
    as (st & Hrun & _).
  unfold test_case_gen_checker. rewrite Hrun. eauto.
Qed.

End Solve.

(** Walks through the command: one case for each answer typed, each
    outcome of the model and of the file system. *)
Ltac walk :=
  unfold Main.solve, bindW, retW, explain, Main.ask, test, save,
    understand_problem;
  repeat first
    [ rewrite read_literal by discriminate
    | progress cbn [model typed files asked written fst snd Ui.input]
    | match goal with
      | |- context [Ui.input ?t] => is_var t; destruct t as [|? ?]
      | |- context [match ?respond ?m ?p with _ => _ end] =>
          let E := fresh "Hr" in destruct (respond m p) as [[?|?] ?] eqn:E
      | |- context [String.eqb ?a ?b] =>
          let E := fresh "Eq" in destruct (String.eqb a b) eqn:E; cbn [negb]
      | |- context [match test_case_gen_checker ?a ?b ?c ?d ?e ?f with
                    | _ => _ end] =>
          let E := fresh "Ht" in
          destruct (test_case_gen_checker a b c d e f) as [[? ?]|?] eqn:E
      end ].

End SolveFacts.

(** X22. A problem statement that is empty or all blank ends the solve
    command at once: the model is not asked, nothing is written, and only
    that one line of input is used. *)
Theorem X22_blank_problem_asks_nothing
        (St : Type) (respond : St -> string -> Py.result Helper.response * St)
        (Fs : Type)
        (write_file : Fs -> string -> string -> Py.result unit * Fs)
        (color reset : string) (w : Main.world St Fs)
        (line : string) (rest : list string) :
  Main.typed w = line :: rest ->
  Text.all_space line = true ->
  Main.solve St respond Fs write_file color reset w
  = (Py.Return tt,
     Main.mk_world St Fs (Main.model w) rest (Main.files w) (Main.asked w)
       (Main.written w)).
Proof.
  intros Ht Hb. apply TextFacts.strip_empty_iff in Hb.
  destruct w as [ms ty fs ask wr]. cbn [Main.typed] in Ht. subst ty.
  unfold Main.solve, Main.bindW, Main.retW.
  rewrite SolveFacts.read_literal by discriminate.
  cbn [Main.model Main.typed Main.files Main.asked Main.written fst snd
       Ui.input].
  rewrite Hb. reflexivity.
Qed.

Lemma X22_blank_problem_asks_nothing_witness :
  Main.solve nat Spec.raising_model unit (fun fs _ _ => (Py.Return tt, fs))
    "" ""
    (Main.mk_world nat unit 0%nat ["   "%string; "y"%string] tt [] [])
  = (Py.Return tt,
     Main.mk_world nat unit 0%nat ["y"%string] tt [] []).
Proof.
  apply (X22_blank_problem_asks_nothing nat Spec.raising_model unit
           (fun fs _ _ => (Py.Return tt, fs)) "" ""
           (Main.mk_world nat unit 0%nat ["   "%string; "y"%string] tt [] [])
           "   " ["y"%string]); reflexivity.
Defined.

(** X23. The solve command writes at most one file, and only code that
    went through the test phase: what is written is the code that
    test_case_gen_checker returned for the artifact extracted from the
    model's answer to the generation prompt, under a name that ends with
    .py; a write that fails does not stop the command.  Code that the
    user declines to test cannot be saved. *)
Theorem X23_saved_file_holds_tested_code
        (St : Type) (respond : St -> string -> Py.result Helper.response * St)
        (Fs : Type)
        (write_file : Fs -> string -> string -> Py.result unit * Fs)
        (color reset : string) (w : Main.world St Fs) :
  let out := Main.solve St respond Fs write_file color reset w in
  Main.written (snd out) = Main.written w \/
  exists problem ms0 answer ms record final_code filename,
    respond ms0 (Main.code_gen_prompt problem) = (Py.Return answer, ms) /\
    Prompts.test_case_gen_checker St respond
      (Helper.code_extractor answer) problem 3 ms
    = Py.Return (final_code, record) /\
    Main.written (snd out)
    = (Main.written w ++ [(Main.save_filename filename, final_code)])%list /\
    Main.endswith ".py" (Main.save_filename filename) = true /\
    fst out = Py.Return tt.
Proof.
  intros out. unfold out. clear out. destruct w as [ms ty fs ask wr].
  SolveFacts.walk; try (left; reflexivity); right;
    match goal with
    | Hr : respond ?m0 (Main.code_gen_prompt ?p) = (Py.Return ?a, ?m1),
      Ht : Prompts.test_case_gen_checker _ _ _ _ _ _ = Py.Return (?c, ?v)
      |- context [Main.save_filename ?f] =>
        exists p, m0, a, m1, v, c, f
    end;
    repeat split; auto;
    unfold Main.save_filename;
    match goal with
    | |- context [String.eqb ?f ""] =>
        destruct (String.eqb f ""); [reflexivity|];
        destruct (Main.endswith ".py" f) eqn:E; cbn [negb]; [exact E|];
        apply FilenameFacts.endswith_append
    end.
Qed.

(** X24. One run of the solve command sends the model at most eight
    prompts, one to explain, one to generate and at most six in the test
    phase with its cap of three, and reads at most five lines of input;
    the prompts sent before and the lines not read stay as they were. *)
Theorem X24_solve_budget
        (St : Type) (respond : St -> string -> Py.result Helper.response * St)
        (Fs : Type)
        (write_file : Fs -> string -> string -> Py.result unit * Fs)
        (color reset : string) (w : Main.world St Fs) :
  let out := Main.solve St respond Fs write_file color reset w in
  (exists sent,
     Main.asked (snd out) = (Main.asked w ++ sent)%list /\
     (List.length sent <= 8)%nat) /\
  (exists used,
     Main.typed w = (used ++ Main.typed (snd out))%list /\
     (List.length used <= 5)%nat).
Proof.
  intros out. unfold out. clear out. destruct w as [ms ty fs ask wr].
  SolveFacts.walk;
    try match goal with
        | |- context [write_file ?a ?b ?c] => destruct (write_file a b c)
        end;
    cbn [Main.asked Main.typed snd];
    try match goal with
        | |- context [Prompts.calls (Prompts.final_state ?a ?b ?c ?d ?e ?f)] =>
            pose proof (SolveFacts.test_calls a b c d f)
        end;
    (split;
     [ rewrite <- ?List.app_assoc; eexists; split;
       [ try reflexivity; symmetry; apply List.app_nil_r
       | rewrite ?List.length_app; cbn [List.length]; lia ]
     | first
         [ exists []; split; [reflexivity|cbn; lia]
         | eexists [_]; split; [reflexivity|cbn; lia]
         | eexists [_; _]; split; [reflexivity|cbn; lia]
         | eexists [_; _; _]; split; [reflexivity|cbn; lia]
         | eexists [_; _; _; _]; split; [reflexivity|cbn; lia]
         | eexists [_; _; _; _; _]; split; [reflexivity|cbn; lia] ] ]).
Qed.

(** X25. What can stop the solve command with an exception: the end of
    the input, or an exception that the model raised when asked to explain
    the problem or to generate the code, which passes through unchanged.
    Nothing is written in either case; exceptions of the model in the test
    phase and of the file system when saving never leave the command. *)
Theorem X25_what_stops_the_solve_command
        (St : Type) (respond : St -> string -> Py.result Helper.response * St)
        (Fs : Type)
        (write_file : Fs -> string -> string -> Py.result unit * Fs)
        (color reset : string) (w : Main.world St Fs) :
  let out := Main.solve St respond Fs write_file color reset w in
  match fst out with
  | Py.Return _ => True
  | Py.Raise e =>
      Main.written (snd out) = Main.written w /\
      ((Main.typed (snd out) = [] /\
        e = Py.mk_exn (Py.OtherError "EOFError") "EOF when reading a line") \/
       (exists problem p ms ms',
          (p = Understand.understanding_prompt problem \/
           p = Main.code_gen_prompt problem) /\
          respond ms p = (Py.Raise e, ms') /\
          last (Main.asked (snd out)) ""%string = p))
  end.
Proof.
  intros out. unfold out. clear out. destruct w as [ms ty fs ask wr].
  SolveFacts.walk;
    try match goal with
        | |- context [write_file ?a ?b ?c] => destruct (write_file a b c)
        end;
    cbn [fst snd Main.written Main.typed Main.asked]; try exact I;
    try (split; [reflexivity|left; split; reflexivity]);
    first
      [ exfalso;
        match goal with
        | Ht : Prompts.test_case_gen_checker ?a ?b ?c ?d ?e ?f = Py.Raise _
          |- _ =>
            destruct (SolveFacts.test_returns a b c d f) as (c1 & r1 & Hret);
            rewrite Hret in Ht; discriminate
        end
      | split; [reflexivity|right];
        match goal with
        | Hr : respond ?m (Main.code_gen_prompt ?q) = (Py.Raise _, _) |- _ =>
            exists q, (Main.code_gen_prompt q), m; eexists;
            repeat split; [right; reflexivity|exact Hr|apply last_last]
        end
      | split; [reflexivity|right];
        match goal with
        | Hr : respond ?m (Understand.understanding_prompt ?q)
               = (Py.Raise _, _) |- _ =>
            exists q, (Understand.understanding_prompt q), m; eexists;
            repeat split; [left; reflexivity|exact Hr|apply last_last]
        end ].
Qed.

Module MenuFacts.

Import Text Py Ui Wrapper LoopFacts.

Lemma dict_has_set_same (k : string) (v : value) (d : dict) :
  dict_has k (dict_set k v d) = true.
Proof. unfold dict_has. now rewrite dict_get_set_same. Qed.

Lemma dict_has_set_other (k k' : string) (v : value) (d : dict) :
  k <> k' -> dict_has k (dict_set k' v d) = dict_has k d.
Proof. intros H. unfold dict_has. now rewrite dict_get_set_other. Qed.

Lemma provider_is_set (name x : string) (d : dict) :
  provider_is name (dict_set "provider" (VStr x) d) = String.eqb x name.
Proof. unfold provider_is. now rewrite dict_get_set_same. Qed.

Lemma provider_is_set_other (name k : string) (v : value) (d : dict) :
  k <> "provider" ->
  provider_is name (dict_set k v d) = provider_is name d.
Proof.
  intros H. unfold provider_is. rewrite dict_get_set_other; [reflexivity|].
  congruence.
Qed.

(** Walks through a menu: one case for each line typed and each outcome
    of the save. *)
Ltac walk :=
  unfold display_settings_menu, manage_huggingface_settings,
    manage_local_model_settings, show_current, bindD, retD, ask_line, put,
    save, lookD, liftD;
  repeat first
    [ progress cbn [settings typed disk saves fst snd Ui.input negb andb orb]
    | match goal with
      | |- context [Ui.input ?t] => is_var t; destruct t as [|? ?]
      | |- context [String.eqb ?a ?b] =>
          let E := fresh "Eq" in destruct (String.eqb a b) eqn:E
      | |- context [provider_is ?n ?d] =>
          let E := fresh "Ep" in destruct (provider_is n d) eqn:E
      | |- context [dict_has ?k ?d] =>
          let E := fresh "Eh" in destruct (dict_has k d) eqn:E
      | |- context [shown_key ?v] =>
          let E := fresh "Ek" in destruct (shown_key v) as [?|?] eqn:E
      | |- context [match ?save ?d ?s with _ => _ end] =>
          let E := fresh "Es" in destruct (save d s) as [[[]|?] ?] eqn:E
      end ].

End MenuFacts.

(** X26. The settings menu answers True only after it has saved, and
    what it saved are the settings as they stand when it returns; when it
    answers False it has changed nothing, in memory or on disk. *)
Theorem X26_settings_changed_means_saved
        (Disk : Type)
        (save_user_settings : Disk -> Py.dict -> Py.result unit * Disk)
        (s : Wrapper.desk Disk) :
  let out := Wrapper.display_settings_menu Disk save_user_settings s in
  match fst out with
  | Py.Return true =>
      Wrapper.saves (snd out)
      = (Wrapper.saves s ++ [Wrapper.settings (snd out)])%list /\
      exists d, save_user_settings d (Wrapper.settings (snd out))
                = (Py.Return tt, Wrapper.disk (snd out))
  | Py.Return false =>
      Wrapper.settings (snd out) = Wrapper.settings s /\
      Wrapper.saves (snd out) = Wrapper.saves s /\
      Wrapper.disk (snd out) = Wrapper.disk s
  | Py.Raise _ => True
  end.
Proof.
  intros out. unfold out. clear out. destruct s as [st ty dk sv].
  MenuFacts.walk; try exact I; try (repeat split; reflexivity);
    (split; [reflexivity|eexists; eassumption]).
Qed.

(** X27. The settings menu never leaves the chosen provider without what
    it needs: when it returns, settings that named a provider together
    with its credentials still do so, and after a switch of provider the
    new provider has them, asked for if they were missing: a key and a
    model name for Hugging Face, a model name for the local model. *)
Theorem X27_menu_keeps_provider_configured
        (Disk : Type)
        (save_user_settings : Disk -> Py.dict -> Py.result unit * Disk)
        (s : Wrapper.desk Disk) :
  Wrapper.configured (Wrapper.settings s) = true ->
  let out := Wrapper.display_settings_menu Disk save_user_settings s in
  match fst out with
  | Py.Return _ => Wrapper.configured (Wrapper.settings (snd out)) = true
  | Py.Raise _ => True
  end.
Proof.
  intros Hc out. unfold out. clear out. destruct s as [st ty dk sv].
  cbn [Wrapper.settings] in Hc.
  MenuFacts.walk; try exact I; try exact Hc;
    unfold Wrapper.configured in *;
    repeat match goal with
           | H : context [Py.dict_has _ (Py.dict_set _ _ _)] |- _ =>
               first [ rewrite MenuFacts.dict_has_set_same in H
                     | rewrite MenuFacts.dict_has_set_other in H
                         by discriminate ]
           | |- context [Py.dict_has _ (Py.dict_set _ _ _)] =>
               first [ rewrite MenuFacts.dict_has_set_same
                     | rewrite MenuFacts.dict_has_set_other by discriminate ]
           | |- context [Wrapper.provider_is _ (Py.dict_set _ _ _)] =>
               first [ rewrite MenuFacts.provider_is_set
                     | rewrite MenuFacts.provider_is_set_other
                         by discriminate ]
           end;
    cbn [String.eqb Ascii.eqb Bool.eqb negb andb orb];
    revert Hc;
    repeat match goal with
           | H : Wrapper.provider_is _ _ = _ |- _ => rewrite ?H; clear H
           | H : Py.dict_has _ _ = _ |- _ => rewrite ?H; clear H
           end;
    repeat match goal with
           | |- context [Py.dict_has ?k ?d] => destruct (Py.dict_has k d)
           | |- context [Wrapper.provider_is ?k ?d] =>
               destruct (Wrapper.provider_is k d)
           end;
    cbn [negb andb orb]; intros; try reflexivity; try discriminate.
Qed.

Lemma X27_menu_keeps_provider_configured_witness :
  let out :=
    Wrapper.display_settings_menu unit (fun d _ => (Py.Return tt, d))
      (Wrapper.mk_desk unit
         [("provider"%string, Py.VStr "local");
          ("local_model_name"%string, Py.VStr "qwen")]
         ["1"%string; "2"%string; "hf_key"%string; "some/model"%string]
         tt []) in
  match fst out with
  | Py.Return _ => Wrapper.configured (Wrapper.settings (snd out)) = true
  | Py.Raise _ => True
  end.
Proof.
  apply (X27_menu_keeps_provider_configured unit
           (fun d _ => (Py.Return tt, d))
           (Wrapper.mk_desk unit
              [("provider"%string, Py.VStr "local");
               ("local_model_name"%string, Py.VStr "qwen")]
              ["1"%string; "2"%string; "hf_key"%string; "some/model"%string]
              tt [])).
  reflexivity.
Defined.

Module VerdictFacts.

Import Text Py Helper Prompts Spec TextFacts HelperFacts TableFacts.

Lemma dict_set_strings (k x : string) (d : dict) :
  forallb (fun kv => is_str (snd kv)) d = true ->
  forallb (fun kv => is_str (snd kv)) (dict_set k (VStr x) d) = true.
Proof.
  induction d as [|[k0 v0] r IH]; cbn [dict_set forallb snd]; [reflexivity|].
  intros H. apply andb_true_iff in H. destruct H as [H0 Hr].
  destruct (String.eqb k k0); cbn [forallb snd is_str].
  - exact Hr.
  - rewrite H0, (IH Hr). reflexivity.
Qed.

(** A case read from a table row holds strings only, so it is well
    formed. *)
Lemma table_case_well_formed (headers values : list string) :
  well_formed_case (VDict (test_case_of headers values)) = true.
Proof.
  rewrite test_case_of_zip. unfold zip_case. cbn [well_formed_case].
  assert (forall l acc,
            forallb (fun kv => is_str (snd kv)) acc = true ->
            forallb (fun kv : string * value => is_str (snd kv))
              (fold_left (fun d hv => dict_set (fst hv) (VStr (snd hv)) d)
                         l acc) = true) as H.
  { induction l as [|[h v] l IH]; intros acc Ha; [exact Ha|].
    cbn [fold_left fst snd]. apply IH, dict_set_strings, Ha. }
  specialize (H (combine headers values) [] eq_refl).
  rewrite forallb_forall in H. apply forallb_forall. intros kv Hin.
  rewrite (H kv Hin). apply orb_true_r.
Qed.

End VerdictFacts.

(** X28. The repair request quotes the code in a fence that
    code_extractor reads back: from the prompt that analyze_and_fix_code
    builds around a code without backticks, code_extractor returns that
    code, trimmed, whatever the test results and the problem statement
    hold.  A model that echoes the request therefore leaves the code as it
    was. *)
Theorem X28_repair_request_quotes_the_code
        (code : string) (test_results : Py.value) (user_prompt : string) :
  Text.has_char "`" code = false ->
  Helper.code_extractor
    (Helper.Plain
       (Py.VStr (Prompts.fix_prompt code test_results user_prompt)))
  = Text.strip code.
Proof.
  intros Hc. unfold Helper.code_extractor.
  change (Helper.text_of (Helper.Plain (Py.VStr ?s))) with s.
  set (pre := Text.take 202 Prompts.fix_prompt_head).
  set (post := (Text.drop 4 Prompts.fix_prompt_results
                ++ Py.str test_results ++ Prompts.fix_prompt_problem
                ++ user_prompt ++ Prompts.fix_prompt_tail)%string).
  assert (Prompts.fix_prompt code test_results user_prompt
          = (pre ++ Re.fence ++ "python"
             ++ String Text.newline (code ++ Re.closing ++ post))%string)
    as ->.
  { unfold Prompts.fix_prompt, post.
    change Prompts.fix_prompt_head
      with (pre ++ Re.fence ++ "python" ++ String Text.newline "")%string.
    change Prompts.fix_prompt_results
      with (Re.closing ++ Text.drop 4 Prompts.fix_prompt_results)%string.
    rewrite !TextFacts.append_assoc. reflexivity. }
  rewrite (FenceFacts.search_fence_block pre "python" code post);
    [reflexivity|reflexivity|reflexivity|exact Hc].
Qed.

Lemma X28_repair_request_quotes_the_code_witness :
  Helper.code_extractor
    (Helper.Plain
       (Py.VStr (Prompts.fix_prompt "  def f(x): return x  "
                   (Py.VDict [("raw_output"%string, Py.VStr "1 error")])
                   "identity")))
  = "def f(x): return x"%string.
Proof.
  apply (X28_repair_request_quotes_the_code "  def f(x): return x  "
           (Py.VDict [("raw_output"%string, Py.VStr "1 error")]) "identity").
  reflexivity.
Defined.

(** X29. An answer read as a table never makes has_failed_tests raise:
    the cases built from the rows hold strings only, so when the JSON
    strategy finds nothing and the text has at least three table rows, the
    verdict on the extracted record is exactly whether some data row has
    fail or error in the cell under its first status-like header. *)
Theorem X29_table_verdict_never_raises (x : Helper.response) :
  let text := Helper.text_of x in
  let rows := Re.findall_rows text in
  Helper.json_strategy text = Py.Return None ->
  (3 <= List.length rows)%nat ->
  exists cases,
    Helper.extract_test_results x
    = Py.Return (Py.VDict [("test_cases"%string, Py.VList cases)]) /\
    List.length cases = (List.length rows - 2)%nat /\
    Helper.has_failed_tests
      (Py.VDict [("test_cases"%string, Py.VList cases)])
    = Py.Return (existsb Spec.first_key_fails cases).
Proof.
  intros text rows Hj Hrows.
  exists (Helper.table_cases rows). split; [|split].
  - unfold Helper.extract_test_results. fold text. rewrite Hj.
    cbn [Py.bind Py.try_except]. unfold Helper.table_strategy. fold rows.
    destruct (Nat.eqb_spec (List.length rows) 0); [lia|].
    destruct (Nat.leb_spec 3 (List.length rows)); [|lia].
    reflexivity.
  - unfold Helper.table_cases. rewrite length_map, length_skipn. reflexivity.
  - assert (forallb Spec.well_formed_case (Helper.table_cases rows) = true)
      as Hw.
    { apply forallb_forall. intros c Hin. unfold Helper.table_cases in Hin.
      apply in_map_iff in Hin. destruct Hin as (row & <- & _).
      apply VerdictFacts.table_case_well_formed. }
    rewrite (HelperFacts.has_failed_tests_well_formed
               [("test_cases"%string, Py.VList (Helper.table_cases rows))]
               (Helper.table_cases rows) eq_refl Hw).
    f_equal.
    destruct (existsb Spec.first_key_fails (Helper.table_cases rows)) eqn:E.
    + rewrite (GuardFacts.guard_implied
                 [("test_cases"%string, Py.VList (Helper.table_cases rows))]
                 (Helper.table_cases rows) eq_refl E).
      reflexivity.
    + apply andb_false_r.
Qed.

Lemma X29_table_verdict_never_raises_witness :
  exists cases,
    Helper.extract_test_results (Helper.Plain (Py.VStr Spec.sample_table))
    = Py.Return (Py.VDict [("test_cases"%string, Py.VList cases)]) /\
    List.length cases
    = (List.length (Re.findall_rows Spec.sample_table) - 2)%nat /\
    Helper.has_failed_tests
      (Py.VDict [("test_cases"%string, Py.VList cases)])
    = Py.Return (existsb Spec.first_key_fails cases).
Proof.
  apply (X29_table_verdict_never_raises
           (Helper.Plain (Py.VStr Spec.sample_table))).
  - vm_compute. reflexivity.
  - vm_compute. lia.
Defined.
